(** * ICMPv6 sendto: a shallow embedding of net/icmpv6/icmpv6_sendto.c

    The file models the blocking [icmpv6_sendto] of the NuttX network stack:
    the per-call request state, the in-place packet builder
    [sendto_request], the poll callback [sendto_eventhandler] and the
    public entry point [icmpv6_sendto], and proves the properties the
    specification states about them. *)

From Stdlib Require Import ZArith List Bool Lia.
Import ListNotations.
Open Scope Z_scope.

(** ** Machine integers

    C integers are modelled in [Z]; a store into a [uint8_t] or a
    [uint16_t] reduces modulo the width of the type. *)

Definition to_u8 (z : Z) : Z := z mod 256.
Definition to_u16 (z : Z) : Z := z mod 65536.

(** [~x] stored into a [uint16_t]. *)
Definition not_u16 (z : Z) : Z := to_u16 (Z.lnot z).

Definition u16_ok (b : Z) : Prop := 0 <= b < 65536.

(** ** Constants of the protocol and of errno.h *)

Definition OKK : Z := 0.
Definition EINTR : Z := 4.
Definition ENOMEM : Z := 12.
Definition EINVAL : Z := 22.
Definition ENETUNREACH : Z := 101.
Definition ETIMEDOUT : Z := 110.

Definition IPv6_HDRLEN : Z := 40.
Definition IP_PROTO_ICMP6 : Z := 58.
Definition ICMPv6_ECHO_REQUEST : Z := 128.

(** The build configuration, and the constants of headers that are not
    part of the sources at hand.  They stay parameters of the model. *)

Record netconfig := {
  CONFIG_NET_SOCKOPTS : bool;
  CONFIG_NET_ICMPv6_NEIGHBOR : bool;
  CONFIG_NET_STATISTICS : bool;
  ICMPv6_HDRLEN : Z;            (* minimum size of an ICMPv6 header *)
  SIZEOF_SOCKADDR_IN6 : Z;      (* sizeof(struct sockaddr_in6) *)
  NETDEV_DOWN : Z;              (* event flag: the interface went down *)
  ICMPv6_POLL : Z;              (* event flag: poll for TX data *)
  ICMPv6_NEWDATA : Z;           (* event flag: incoming data in d_buf *)
  IFF_SET_IPv6 : Z -> Z         (* the macro applied to d_flags *)
}.

(** ** Memory

    [d_buf] is a pointer to the packet buffer of the driver; the model is
    the memory it points to, one byte per offset. *)

Definition buffer := Z -> Z.

Definition poke (b : buffer) (off v : Z) : buffer :=
  fun i => if i =? off then v else b i.

(** A [uint16_t] field.  Its value is read as the big-endian value of its
    two bytes, that is, in network byte order.  The code only stores 0,
    0xffff, a complement, or the network-order checksum into such a field
    and compares fields for equality, all of which commute with a byte
    swap, so the reading does not depend on the host. *)

Definition poke16 (b : buffer) (off v : Z) : buffer :=
  poke (poke b off (v / 256)) (off + 1) (v mod 256).

Definition peek16 (b : buffer) (off : Z) : Z := 256 * b off + b (off + 1).

(** [memcpy(&b[off], src, n)]. *)
Definition memcpy (b : buffer) (off : Z) (src : list Z) (n : Z) : buffer :=
  fun i =>
    if (off <=? i) && (i <? off + n)
    then nth (Z.to_nat (i - off)) src 0
    else b i.

Definition read_bytes (b : buffer) (off : Z) (n : nat) : list Z :=
  map (fun k => b (off + Z.of_nat k)) (seq 0 n).

(** ** Data model *)

(** struct net_driver_s, the fields this file uses.  [d_len] and
    [d_sndlen] are [uint16_t]; an IPv6 address is its 16 bytes in memory. *)

Record net_driver_s := {
  d_flags : Z;
  d_llhdrlen : Z;               (* NET_LL_HDRLEN(dev) *)
  d_buf : buffer;
  d_len : Z;
  d_sndlen : Z;
  d_ipv6addr : list Z;
  d_ipv6netmask : list Z
}.

Record socket := {
  s_sndtimeo : Z                (* send timeout; 0 means none *)
}.

(** The handler a callback points to. *)
Inductive handler := Hsendto_eventhandler.

(** A pointer to the [icmpv6_sendto_s] of the call in flight.  That
    object lives on the stack of [icmpv6_sendto], one per call, so the
    pointer is NULL ([None]) or that object ([Some tt]). *)
Definition pstate_ptr := option unit.

(** struct devif_callback_s *)
Record devif_callback_s := {
  cb_flags : Z;
  cb_priv : pstate_ptr;
  cb_event : option handler
}.

(** struct icmpv6_sendto_s.  [snd_cb] is NULL ([None]) or points to the
    callback, which is kept with the pointer. *)
Record icmpv6_sendto_s := {
  snd_cb : option devif_callback_s;
  snd_sock : option socket;
  snd_sem : Z;                  (* count of the semaphore *)
  snd_time : Z;
  snd_toaddr : list Z;
  snd_buf : list Z;
  snd_buflen : Z;               (* uint16_t *)
  snd_result : Z                (* int16_t *)
}.

(** struct icmpv6_conn_s, the echo session.  A device is named by a
    handle; [conn_dev] is NULL or such a handle. *)
Record icmpv6_conn_s := {
  conn_id : Z;
  conn_nreqs : Z;
  conn_dev : option Z;
  conn_readahead : list (list Z)
}.

(** g_netstats *)
Record netstats := {
  icmpv6_sent : Z;
  ipv6_sent : Z
}.

(** Calls to services outside this file that the properties count. *)
Inductive call :=
| Call_iob_free_queue
| Call_netdev_txnotify_dev
| Call_nxsem_post.

Definition call_eqb (a b : call) : bool :=
  match a, b with
  | Call_iob_free_queue, Call_iob_free_queue => true
  | Call_netdev_txnotify_dev, Call_netdev_txnotify_dev => true
  | Call_nxsem_post, Call_nxsem_post => true
  | _, _ => false
  end.

Definition count_calls (c : call) (l : list call) : nat :=
  length (filter (call_eqb c) l).

(** Everything a call of [icmpv6_sendto] reads and writes. *)
Record world := {
  w_conn : icmpv6_conn_s;
  w_dev : net_driver_s;
  w_pstate : icmpv6_sendto_s;
  w_clock : Z;                  (* clock_systimer() *)
  w_stats : netstats;
  w_calls : list call           (* oldest first *)
}.

(** Field updates. *)

Definition set_dev (w : world) (d : net_driver_s) : world :=
  {| w_conn := w_conn w; w_dev := d; w_pstate := w_pstate w;
     w_clock := w_clock w; w_stats := w_stats w; w_calls := w_calls w |}.

Definition set_pstate (w : world) (s : icmpv6_sendto_s) : world :=
  {| w_conn := w_conn w; w_dev := w_dev w; w_pstate := s;
     w_clock := w_clock w; w_stats := w_stats w; w_calls := w_calls w |}.

Definition set_conn (w : world) (c : icmpv6_conn_s) : world :=
  {| w_conn := c; w_dev := w_dev w; w_pstate := w_pstate w;
     w_clock := w_clock w; w_stats := w_stats w; w_calls := w_calls w |}.

Definition set_stats (w : world) (s : netstats) : world :=
  {| w_conn := w_conn w; w_dev := w_dev w; w_pstate := w_pstate w;
     w_clock := w_clock w; w_stats := s; w_calls := w_calls w |}.

Definition log_call (w : world) (c : call) : world :=
  {| w_conn := w_conn w; w_dev := w_dev w; w_pstate := w_pstate w;
     w_clock := w_clock w; w_stats := w_stats w;
     w_calls := w_calls w ++ [c] |}.

Definition set_buf (d : net_driver_s) (b : buffer) : net_driver_s :=
  {| d_flags := d_flags d; d_llhdrlen := d_llhdrlen d; d_buf := b;
     d_len := d_len d; d_sndlen := d_sndlen d;
     d_ipv6addr := d_ipv6addr d; d_ipv6netmask := d_ipv6netmask d |}.

Definition set_result (s : icmpv6_sendto_s) (r : Z) : icmpv6_sendto_s :=
  {| snd_cb := snd_cb s; snd_sock := snd_sock s; snd_sem := snd_sem s;
     snd_time := snd_time s; snd_toaddr := snd_toaddr s;
     snd_buf := snd_buf s; snd_buflen := snd_buflen s; snd_result := r |}.

Definition set_cb (s : icmpv6_sendto_s) (cb : option devif_callback_s)
  : icmpv6_sendto_s :=
  {| snd_cb := cb; snd_sock := snd_sock s; snd_sem := snd_sem s;
     snd_time := snd_time s; snd_toaddr := snd_toaddr s;
     snd_buf := snd_buf s; snd_buflen := snd_buflen s;
     snd_result := snd_result s |}.

Definition set_sem (s : icmpv6_sendto_s) (n : Z) : icmpv6_sendto_s :=
  {| snd_cb := snd_cb s; snd_sock := snd_sock s; snd_sem := n;
     snd_time := snd_time s; snd_toaddr := snd_toaddr s;
     snd_buf := snd_buf s; snd_buflen := snd_buflen s;
     snd_result := snd_result s |}.

(** ** Services of the stack that are not part of the sources at hand *)

(** Modelled from the spec: the checksum primitives of the stack are
    missing.  [add1c] is the 16-bit addition with end-around carry of the
    ones'-complement checksum. *)
Definition add1c (a b : Z) : Z :=
  let s := a + b in if s <? 65536 then s else s - 65535.

(** Modelled from the spec: bytes are summed as big-endian 16-bit words,
    an odd last byte padded with zero. *)
Fixpoint be_words (l : list Z) : list Z :=
  match l with
  | [] => []
  | [a] => [256 * a]
  | a :: b :: r => (256 * a + b) :: be_words r
  end.

(** Modelled from the spec: the additive checksum of [data], continued
    from the accumulator [sum]. *)
Definition chksum (sum : Z) (data : list Z) : Z :=
  fold_left add1c (be_words data) sum.


(** Modelled from the spec: [icmpv6_chksum] is missing.  It is the
    ones'-complement checksum over the transport pseudo-header (the
    upper-layer length, the next header, the source and the destination
    address, all read from the IPv6 header in the buffer) and the
    upper-layer bytes that follow the IPv6 header of length [iplen]. *)
Definition icmpv6_chksum (dev : net_driver_s) (iplen : Z) : Z :=
  let ip := d_llhdrlen dev in
  let upperlen := peek16 (d_buf dev) (ip + 4) in
  let sum := add1c upperlen IP_PROTO_ICMP6 in
  let sum := chksum sum (read_bytes (d_buf dev) (ip + 8) 32) in
  chksum sum (read_bytes (d_buf dev) (ip + iplen) (Z.to_nat upperlen)).

(** Modelled from the spec: [net_timeo] is missing.  It is the
    elapsed-ticks-exceeds-budget check: true once the ticks elapsed since
    [start] reach or exceed the configured timeout.  [now] is the tick
    count it reads from the clock. *)

Definition net_timeo (now start timeo : Z) : bool := timeo <=? now - start.

(** Modelled from the spec: [net_ipv6addr_maskcmp] is missing.  It tells
    whether two addresses lie in the same subnet under a netmask. *)

Definition net_ipv6addr_maskcmp (src dest mask : list Z) : bool :=
  forallb (fun k => Z.land (nth k src 0) (nth k mask 0)
                    =? Z.land (nth k dest 0) (nth k mask 0))
          (seq 0 16).

(** A callback after the stores [flags = 0], [priv = NULL] and
    [event = NULL]. *)
Definition cleared_cb : devif_callback_s :=
  {| cb_flags := 0; cb_priv := None; cb_event := None |}.

(** ** The code of icmpv6_sendto.c *)

Section Sendto.

Variable cfg : netconfig.

(** [sendto_timeout]: compiled under CONFIG_NET_SOCKOPTS only. *)
Definition sendto_timeout (now : Z) (pstate : icmpv6_sendto_s) : bool :=
  match snd_sock pstate with
  | Some psock =>
      if negb (s_sndtimeo psock =? 0)
      then net_timeo now (snd_time pstate) (s_sndtimeo psock)
      else false
  | None => false
  end.

(** The IPv6 header that [sendto_request] writes at [IPv6BUF], field by
    field in the order of the source: vtc, tcf, flow, len[0], len[1],
    proto, ttl, srcipaddr, destipaddr. *)
Definition ipv6_header (dev : net_driver_s) (pstate : icmpv6_sendto_s)
  : buffer :=
  let ip := d_llhdrlen dev in
  let b := d_buf dev in
  let b := poke b ip 0x60 in
  let b := poke b (ip + 1) 0 in
  let b := poke16 b (ip + 2) 0 in
  let b := poke b (ip + 4) (to_u8 (Z.shiftr (snd_buflen pstate) 8)) in
  let b := poke b (ip + 5) (to_u8 (Z.land (snd_buflen pstate) 0xff)) in
  let b := poke b (ip + 6) IP_PROTO_ICMP6 in
  let b := poke b (ip + 7) 255 in
  let b := memcpy b (ip + 8) (d_ipv6addr dev) 16 in
  memcpy b (ip + 24) (snd_toaddr pstate) 16.

(** Offset of [icmpv6->chksum] in the buffer: two bytes into [ICMPv6BUF]. *)
Definition chksum_off (dev : net_driver_s) : Z :=
  d_llhdrlen dev + IPv6_HDRLEN + 2.

(** [sendto_request], in the order of the source: the flags and the two
    lengths of the device; the IPv6 header; the bytes of the caller behind
    it; the checksum field set to zero, then to the complement of
    [icmpv6_chksum], then to 0xffff if that is zero; the statistics. *)

Definition request_lengths (dev : net_driver_s) (pstate : icmpv6_sendto_s)
  : net_driver_s :=
  {| d_flags := IFF_SET_IPv6 cfg (d_flags dev);
     d_llhdrlen := d_llhdrlen dev;
     d_buf := d_buf dev;
     d_len := to_u16 (IPv6_HDRLEN + snd_buflen pstate);
     d_sndlen := to_u16 (d_sndlen dev + snd_buflen pstate);
     d_ipv6addr := d_ipv6addr dev;
     d_ipv6netmask := d_ipv6netmask dev |}.

Definition request_packet (dev : net_driver_s) (pstate : icmpv6_sendto_s)
  : net_driver_s :=
  let dev := set_buf dev (ipv6_header dev pstate) in
  let dev :=
    set_buf dev (memcpy (d_buf dev) (d_llhdrlen dev + IPv6_HDRLEN)
                        (snd_buf pstate) (snd_buflen pstate)) in
  set_buf dev (poke16 (d_buf dev) (chksum_off dev) 0).

Definition request_checksum (dev : net_driver_s) : net_driver_s :=
  let dev :=
    set_buf dev (poke16 (d_buf dev) (chksum_off dev)
                        (not_u16 (icmpv6_chksum dev IPv6_HDRLEN))) in
  if peek16 (d_buf dev) (chksum_off dev) =? 0
  then set_buf dev (poke16 (d_buf dev) (chksum_off dev) 0xffff)
  else dev.

Definition sendto_request (w : world) : world :=
  let pstate := w_pstate w in
  let dev :=
    request_checksum
      (request_packet (request_lengths (w_dev w) pstate) pstate) in
  let w := set_dev w dev in
  if CONFIG_NET_STATISTICS cfg
  then set_stats w {| icmpv6_sent := icmpv6_sent (w_stats w) + 1;
                      ipv6_sent := ipv6_sent (w_stats w) + 1 |}
  else w.

(** The three stores under the label [end_wait].  [snd_cb] is not NULL
    there: the handler is reached only through the callback it points to. *)
Definition clear_callback (w : world) : world :=
  set_pstate w
    (set_cb (w_pstate w)
       (option_map (fun _ => cleared_cb) (snd_cb (w_pstate w)))).

(** Modelled from the spec: [nxsem_post] is missing.  It signals the wake
    primitive: the count of [pstate->snd_sem] goes up by one. *)
Definition nxsem_post (w : world) : world :=
  log_call (set_pstate w (set_sem (w_pstate w) (snd_sem (w_pstate w) + 1)))
           Call_nxsem_post.

(** The code from the label [end_wait] to the end of the handler. *)
Definition end_wait (w : world) (flags : Z) : Z * world :=
  (flags, nxsem_post (clear_callback w)).

Definition with_result (w : world) (r : Z) : world :=
  set_pstate w (set_result (w_pstate w) r).

(** [sendto_eventhandler].  [dev] is the device of the world, [pvconn] is
    not used by the code. *)
Definition sendto_eventhandler (w : world) (pvpriv : pstate_ptr) (flags : Z)
  : Z * world :=
  match pvpriv with
  | None => (flags, w)
  | Some _ =>
      if negb (Z.land flags (NETDEV_DOWN cfg) =? 0)
      then end_wait (with_result w (- ENETUNREACH)) flags
      else if (d_sndlen (w_dev w) <=? 0)
              && (Z.land flags (ICMPv6_NEWDATA cfg) =? 0)
      then end_wait (with_result (sendto_request w) OKK) flags
      else if CONFIG_NET_SOCKOPTS cfg
              && sendto_timeout (w_clock w) (w_pstate w)
      then
        let failcode :=
          if negb (net_ipv6addr_maskcmp (snd_toaddr (w_pstate w))
                                        (d_ipv6addr (w_dev w))
                                        (d_ipv6netmask (w_dev w)))
          then - ENETUNREACH
          else - ETIMEDOUT in
        end_wait (with_result w failcode) flags
      else (flags, w)
  end.

(** Modelled from the spec: the poll dispatch of the device layer is
    missing.  It invokes a registered callback with the event flags when
    the callback has a handler and the flags meet its interest mask, and
    passes it the private state the callback holds. *)
Definition devif_conn_event (w : world) (flags : Z) : Z * world :=
  match snd_cb (w_pstate w) with
  | Some cb =>
      match cb_event cb with
      | Some Hsendto_eventhandler =>
          if Z.land flags (cb_flags cb) =? 0
          then (flags, w)
          else sendto_eventhandler w (cb_priv cb) flags
      | None => (flags, w)
      end
  | None => (flags, w)
  end.

(** Modelled from the spec: the poll loop of the device is missing.  One
    poll cycle, as the waiting call sees it, has the event flags, the
    pending-send length the device shows when the callbacks run (another
    sender may have claimed the buffer), and the tick count; it runs the
    dispatch on the device and the clock in that state. *)
Record poll_event := {
  ev_flags : Z;
  ev_sndlen : Z;
  ev_clock : Z
}.

Definition poll_cycle (w : world) (ev : poll_event) : world :=
  let dev := w_dev w in
  let dev :=
    {| d_flags := d_flags dev; d_llhdrlen := d_llhdrlen dev;
       d_buf := d_buf dev; d_len := d_len dev; d_sndlen := ev_sndlen ev;
       d_ipv6addr := d_ipv6addr dev;
       d_ipv6netmask := d_ipv6netmask dev |} in
  let w :=
    {| w_conn := w_conn w; w_dev := dev; w_pstate := w_pstate w;
       w_clock := ev_clock ev; w_stats := w_stats w;
       w_calls := w_calls w |} in
  snd (devif_conn_event w (ev_flags ev)).

Definition poll_cycles (w : world) (evs : list poll_event) : world :=
  fold_left poll_cycle evs w.

(** Modelled from the spec: [net_lockedwait] is missing.  While the
    caller is parked on [state.snd_sem] the poll cycles [evs] run.  The
    caller resumes because the semaphore was posted, and takes it, or
    because a signal woke it; the code ignores which. *)
Definition net_lockedwait (w : world) (evs : list poll_event) : world :=
  let w := poll_cycles w evs in
  if 0 <? snd_sem (w_pstate w)
  then set_pstate w (set_sem (w_pstate w) (snd_sem (w_pstate w) - 1))
  else w.

(** What the stack answers during one call of [icmpv6_sendto]. *)
Record environment := {
  env_route : option Z;         (* netdev_findby_ripv6addr: NULL or a device *)
  env_neighbor : Z;             (* the value icmpv6_neighbor returns *)
  env_alloc : bool;             (* icmpv6_callback_alloc returned a callback *)
  env_polls : list poll_event   (* the poll cycles during the wait *)
}.

(** The ICMPv6 header of the caller: [icmpv6->type] is byte 0 and
    [icmpv6->id] the 16-bit field at bytes 4 and 5. *)
Definition icmpv6_type (buf : list Z) : Z := nth 0%nat buf 0.
Definition icmpv6_id (buf : list Z) : Z :=
  256 * nth 4%nat buf 0 + nth 5%nat buf 0.

(** [net_ipv6addr_copy]: the 16 bytes of an address. *)
Definition net_ipv6addr_copy (a : list Z) : list Z :=
  map (fun k => nth k a 0) (seq 0 16).

Definition empty_session : icmpv6_conn_s :=
  {| conn_id := 0; conn_nreqs := 0; conn_dev := None; conn_readahead := [] |}.

(** Modelled from the spec: [iob_free_queue] is missing.  It flushes the
    read-ahead queue of the connection: all queued reply data is
    discarded. *)
Definition iob_free_queue (w : world) : world :=
  log_call
    (set_conn w {| conn_id := conn_id (w_conn w);
                   conn_nreqs := conn_nreqs (w_conn w);
                   conn_dev := conn_dev (w_conn w);
                   conn_readahead := [] |})
    Call_iob_free_queue.

(** The block that occurs twice in [icmpv6_sendto], at the reconciliation
    and under [errout]: the three stores and the flush. *)
Definition session_reset (w : world) : world :=
  iob_free_queue
    (set_conn w {| conn_id := 0; conn_nreqs := 0; conn_dev := None;
                   conn_readahead := conn_readahead (w_conn w) |}).

Definition dev_eqb (a b : option Z) : bool :=
  match a, b with
  | Some x, Some y => x =? y
  | None, None => true
  | _, _ => false
  end.

(** The condition of the reconciliation. *)
Definition session_mismatch (buf : list Z) (dev : Z) (conn : icmpv6_conn_s)
  : bool :=
  negb (icmpv6_type buf =? ICMPv6_ECHO_REQUEST)
  || negb (icmpv6_id buf =? conn_id conn)
  || negb (dev_eqb (Some dev) (conn_dev conn)).

(** The reconciliation of the echo session. *)
Definition session_reconcile (w : world) (buf : list Z) (dev : Z) : world :=
  if session_mismatch buf dev (w_conn w) then session_reset w else w.

(** The set-up to receive the echo replies, once the callback exists. *)
Definition session_record (w : world) (buf : list Z) (dev : Z) : world :=
  let w :=
    if icmpv6_type buf =? ICMPv6_ECHO_REQUEST
    then set_conn w {| conn_id := icmpv6_id buf; conn_nreqs := 1;
                       conn_dev := conn_dev (w_conn w);
                       conn_readahead := conn_readahead (w_conn w) |}
    else w in
  set_conn w {| conn_id := conn_id (w_conn w);
                conn_nreqs := conn_nreqs (w_conn w);
                conn_dev := Some dev;
                conn_readahead := conn_readahead (w_conn w) |}.

(** The label [errout]. *)
Definition errout (w : world) (ret : Z) : Z * world :=
  (ret, session_reset w).

(** The request state as [icmpv6_sendto] initializes it, before the
    callback is allocated.  [len] is stored into the 16-bit
    [snd_buflen]. *)
Definition initial_state (w : world) (psock : socket) (buf : list Z)
    (len : Z) (to : list Z) : icmpv6_sendto_s :=
  {| snd_cb := None;
     snd_sock := Some psock;
     snd_sem := 0;
     snd_time := w_clock w;
     snd_toaddr := net_ipv6addr_copy to;
     snd_buf := buf;
     snd_buflen := to_u16 len;
     snd_result := - ENOMEM |}.

(** The callback as [icmpv6_sendto] sets it up. *)
Definition registered_cb : devif_callback_s :=
  {| cb_flags := Z.lor (ICMPv6_POLL cfg) (NETDEV_DOWN cfg);
     cb_priv := Some tt;
     cb_event := Some Hsendto_eventhandler |}.

(** The body of [if (state.snd_cb)] up to the wait: the callback is set
    up, the result is seeded with -EINTR, the session is recorded and the
    driver is notified. *)
Definition sendto_registered (w : world) (buf : list Z) (dev : Z) : world :=
  let w :=
    set_pstate w (set_result (set_cb (w_pstate w) (Some registered_cb))
                             (- EINTR)) in
  let w := session_record w buf dev in
  log_call w Call_netdev_txnotify_dev.

(** [icmpv6_callback_free] *)
Definition icmpv6_callback_free (w : world) : world :=
  set_pstate w (set_cb (w_pstate w) None).

(** [icmpv6_sendto].  [psock->s_conn] is the connection of the world and
    [to] the address in the [sockaddr_in6] of the caller.  [len] is the
    size of an object the caller holds, so the conversion to [ssize_t] at
    [return len] keeps its value. *)
Definition icmpv6_sendto (env : environment) (w : world) (psock : socket)
    (buf : list Z) (len : Z) (flags : Z) (to : list Z) (tolen : Z)
  : Z * world :=
  if (len <? ICMPv6_HDRLEN cfg) || (tolen <? SIZEOF_SOCKADDR_IN6 cfg)
  then (- EINVAL, w)
  else
    match env_route env with
    | None => errout w (- ENETUNREACH)
    | Some dev =>
        let w := session_reconcile w buf dev in
        if CONFIG_NET_ICMPv6_NEIGHBOR cfg && (env_neighbor env <? 0)
        then errout w (- ENETUNREACH)
        else
          let w := set_pstate w (initial_state w psock buf len to) in
          let w :=
            if env_alloc env
            then
              let w := sendto_registered w buf dev in
              let w := net_lockedwait w (env_polls env) in
              icmpv6_callback_free w
            else w in
          if snd_result (w_pstate w) <? 0
          then errout w (snd_result (w_pstate w))
          else (len, w)
    end.

End Sendto.

(** ** A sample configuration and sample inputs *)

Definition sample_cfg : netconfig :=
  {| CONFIG_NET_SOCKOPTS := true;
     CONFIG_NET_ICMPv6_NEIGHBOR := true;
     CONFIG_NET_STATISTICS := true;
     ICMPv6_HDRLEN := 4;
     SIZEOF_SOCKADDR_IN6 := 28;
     NETDEV_DOWN := 0x2000;
     ICMPv6_POLL := 0x1000;
     ICMPv6_NEWDATA := 0x0002;
     IFF_SET_IPv6 := fun f => Z.lor f 0x80 |}.

(** fe80::1, fe80::2, 2001:db8::1 and the netmask ffff:ffff:ffff:ffff:: *)
Definition addr_fe80_1 : list Z := [254;128;0;0;0;0;0;0;0;0;0;0;0;0;0;1].
Definition addr_fe80_2 : list Z := [254;128;0;0;0;0;0;0;0;0;0;0;0;0;0;2].
Definition addr_2001_db8_1 : list Z := [32;1;13;184;0;0;0;0;0;0;0;0;0;0;0;1].
Definition mask_64 : list Z :=
  [255;255;255;255;255;255;255;255;0;0;0;0;0;0;0;0].

(** A device with a 14-byte link header and an all-zero packet buffer. *)
Definition sample_dev : net_driver_s :=
  {| d_flags := 0; d_llhdrlen := 14; d_buf := fun _ => 0;
     d_len := 0; d_sndlen := 0;
     d_ipv6addr := addr_fe80_1; d_ipv6netmask := mask_64 |}.

(** An echo request: type 128, code 0, checksum 0, id 0x1234, seqno 1. *)
Definition sample_echo : list Z := [128; 0; 0; 0; 0x12; 0x34; 0; 1].

Definition sample_cb : devif_callback_s :=
  {| cb_flags := Z.lor 0x1000 0x2000; cb_priv := Some tt;
     cb_event := Some Hsendto_eventhandler |}.

Definition sample_pstate (to : list Z) (timeo : Z) : icmpv6_sendto_s :=
  {| snd_cb := Some sample_cb;
     snd_sock := Some {| s_sndtimeo := timeo |};
     snd_sem := 0; snd_time := 100; snd_toaddr := to;
     snd_buf := sample_echo; snd_buflen := 8; snd_result := - EINTR |}.

(** A session that tracks the echo exchange 0x1234 on device 7 and holds
    one reply. *)
Definition sample_conn : icmpv6_conn_s :=
  {| conn_id := 0x1234; conn_nreqs := 1; conn_dev := Some 7;
     conn_readahead := [[129; 0; 0; 0; 0x12; 0x34; 0; 0]] |}.

Definition sample_world (to : list Z) (timeo : Z) : world :=
  {| w_conn := sample_conn; w_dev := sample_dev;
     w_pstate := sample_pstate to timeo; w_clock := 100;
     w_stats := {| icmpv6_sent := 0; ipv6_sent := 0 |};
     w_calls := [] |}.

Definition sample_env (alloc : bool) (polls : list poll_event)
  : environment :=
  {| env_route := Some 7; env_neighbor := 0; env_alloc := alloc;
     env_polls := polls |}.

(** ** What a run of poll cycles does to one call

    [outcome w w'] relates the world before and after any number of poll
    cycles: the call is still waiting and the cycles changed nothing of
    the request state, the session or the calls made, or the handler
    took its terminal transition once. *)

Inductive outcome (w w' : world) : Prop :=
| Still_waiting :
    w_pstate w' = w_pstate w ->
    w_calls w' = w_calls w ->
    w_conn w' = w_conn w ->
    outcome w w'
| Resolved_once : forall r,
    In r [- ENETUNREACH; OKK; - ETIMEDOUT] ->
    w_pstate w' =
      set_sem (set_cb (set_result (w_pstate w) r) (Some cleared_cb))
              (snd_sem (w_pstate w) + 1) ->
    w_calls w' = w_calls w ++ [Call_nxsem_post] ->
    w_conn w' = w_conn w ->
    outcome w w'.

(** Whether the poll event [ev] leaves a call waiting that started at
    tick [start] on [psock]: the event does not meet the interest mask of
    the callback, or the handler finds the interface up, no room to build
    the packet and no timeout. *)
Definition ev_waits (cfg : netconfig) (psock : socket) (start : Z)
    (ev : poll_event) : bool :=
  (Z.land (ev_flags ev) (Z.lor (ICMPv6_POLL cfg) (NETDEV_DOWN cfg)) =? 0)
  || ((Z.land (ev_flags ev) (NETDEV_DOWN cfg) =? 0)
      && negb ((ev_sndlen ev <=? 0)
               && (Z.land (ev_flags ev) (ICMPv6_NEWDATA cfg) =? 0))
      && negb (CONFIG_NET_SOCKOPTS cfg
               && negb (s_sndtimeo psock =? 0)
               && net_timeo (ev_clock ev) start (s_sndtimeo psock))).

(** The value [sendto_request] leaves in the checksum field of the packet
    of a device [dev] and a request [pstate]. *)
Definition request_chksum (cfg : netconfig) (dev : net_driver_s)
    (pstate : icmpv6_sendto_s) : Z :=
  let c :=
    not_u16 (icmpv6_chksum
               (request_packet (request_lengths cfg dev pstate) pstate)
               IPv6_HDRLEN) in
  if c =? 0 then 0xffff else c.

(** The sample world at tick [now], the transmit buffer claimed by another
    sender. *)
Definition sample_busy_world (to : list Z) (timeo now : Z) : world :=
  let w := sample_world to timeo in
  {| w_conn := w_conn w;
     w_dev := {| d_flags := 0; d_llhdrlen := 14; d_buf := fun _ => 0;
                 d_len := 60; d_sndlen := 20;
                 d_ipv6addr := addr_fe80_1; d_ipv6netmask := mask_64 |};
     w_pstate := w_pstate w; w_clock := now; w_stats := w_stats w;
     w_calls := w_calls w |}.

(** The sample world with a request of 65535 bytes: the echo request
    followed by zeros. *)
Definition sample_big_world : world :=
  let w := sample_world addr_fe80_2 0 in
  {| w_conn := w_conn w; w_dev := w_dev w;
     w_pstate :=
       {| snd_cb := Some sample_cb;
          snd_sock := Some {| s_sndtimeo := 0 |};
          snd_sem := 0; snd_time := 100; snd_toaddr := addr_fe80_2;
          snd_buf := sample_echo ++ repeat 0 (Z.to_nat 65527);
          snd_buflen := 65535;
          snd_result := - EINTR |};
     w_clock := w_clock w; w_stats := w_stats w; w_calls := w_calls w |}.

(** Three poll cycles: the buffer is busy, then free, then the interface
    goes down. *)
Definition sample_polls : list poll_event :=
  [ {| ev_flags := 0x1000; ev_sndlen := 20; ev_clock := 101 |};
    {| ev_flags := 0x1000; ev_sndlen := 0; ev_clock := 102 |};
    {| ev_flags := 0x2000; ev_sndlen := 0; ev_clock := 103 |} ].

(** ** One call seen through its poll cycles *)

(** The world in which the dispatch of the poll event [ev] runs: the
    device shows the pending-send length of the event and the clock its
    tick count. *)
Definition event_world (w : world) (ev : poll_event) : world :=
  {| w_conn := w_conn w;
     w_dev := {| d_flags := d_flags (w_dev w);
                 d_llhdrlen := d_llhdrlen (w_dev w);
                 d_buf := d_buf (w_dev w); d_len := d_len (w_dev w);
                 d_sndlen := ev_sndlen ev;
                 d_ipv6addr := d_ipv6addr (w_dev w);
                 d_ipv6netmask := d_ipv6netmask (w_dev w) |};
     w_pstate := w_pstate w; w_clock := ev_clock ev;
     w_stats := w_stats w; w_calls := w_calls w |}.

(** The statistics after one packet is counted. *)
Definition count_sent (cfg : netconfig) (s : netstats) : netstats :=
  if CONFIG_NET_STATISTICS cfg
  then {| icmpv6_sent := icmpv6_sent s + 1; ipv6_sent := ipv6_sent s + 1 |}
  else s.

(** A device whose packet buffer, frame length, flags and addresses are
    those of [d]; the pending-send length may differ. *)
Definition dev_kept (d d' : net_driver_s) : Prop :=
  d_buf d' = d_buf d /\ d_len d' = d_len d /\ d_flags d' = d_flags d
  /\ d_llhdrlen d' = d_llhdrlen d /\ d_ipv6addr d' = d_ipv6addr d
  /\ d_ipv6netmask d' = d_ipv6netmask d.

(** The request state after the terminal transition with result [r]. *)
Definition resolved_state (s : icmpv6_sendto_s) (r : Z) : icmpv6_sendto_s :=
  set_sem (set_cb (set_result s r) (Some cleared_cb)) (snd_sem s + 1).

(** [phase cfg w w'] relates the world before and after any number of
    poll cycles, the transmit side included: the call still waits and
    nothing was written; or it failed, with -ETIMEDOUT only under a
    configured timeout, and nothing was written; or the packet of the
    request was built, once. *)
Inductive phase (cfg : netconfig) (w w' : world) : Prop :=
| Ph_waiting :
    w_pstate w' = w_pstate w ->
    dev_kept (w_dev w) (w_dev w') ->
    w_stats w' = w_stats w ->
    phase cfg w w'
| Ph_failed : forall r,
    w_pstate w' = resolved_state (w_pstate w) r ->
    r = - ENETUNREACH
    \/ (r = - ETIMEDOUT /\ CONFIG_NET_SOCKOPTS cfg = true
        /\ exists psock, snd_sock (w_pstate w) = Some psock
                         /\ s_sndtimeo psock <> 0) ->
    dev_kept (w_dev w) (w_dev w') ->
    w_stats w' = w_stats w ->
    phase cfg w w'
| Ph_sent :
    w_pstate w' = resolved_state (w_pstate w) OKK ->
    d_buf (w_dev w') = d_buf (w_dev (sendto_request cfg w)) ->
    d_len (w_dev w') = to_u16 (IPv6_HDRLEN + snd_buflen (w_pstate w)) ->
    d_flags (w_dev w') = IFF_SET_IPv6 cfg (d_flags (w_dev w)) ->
    d_llhdrlen (w_dev w') = d_llhdrlen (w_dev w) ->
    w_stats w' = count_sent cfg (w_stats w) ->
    phase cfg w w'.

(** A request of 65544 bytes: the sample echo request followed by zeros. *)
Definition sample_long_request : list Z :=
  sample_echo ++ repeat 0 (Z.to_nat 65536).

(** ** sched/environ/env_foreach.c *)

(** The environment of a task group: [tg_envp] points to memory whose
    first [tg_envsize] bytes hold the name=value strings, each closed by a
    NUL.  The model keeps the memory from [tg_envp] on. *)
Record task_group_s := {
  tg_envsize : nat;
  tg_envp : list Z
}.

(** [strlen(ptr)], on the memory from [ptr] on. *)
Fixpoint strlen (ptr : list Z) : nat :=
  match ptr with
  | [] => O
  | c :: rest => if c =? 0 then O else S (strlen rest)
  end.

(** The string at [ptr], as the callback reads it. *)
Definition string_at (ptr : list Z) : list Z := firstn (strlen ptr) ptr.

(** The loop of [env_foreach].  [ptr] and [size] are the offsets of the
    pointer and of [end] in the memory [mem]; the callback gets its
    argument, whose state it may change, and the string at [ptr], and
    returns an [int].  [fuel] bounds the number of iterations. *)
Fixpoint env_foreach_loop {A : Type} (fuel : nat)
    (cb : A -> list Z -> Z * A) (arg : A) (mem : list Z) (size ptr : nat)
    (ret : Z) : option (Z * A) :=
  if (ptr <? size)%nat
  then
    match fuel with
    | O => None
    | S fuel' =>
        let (ret', arg') := cb arg (string_at (skipn ptr mem)) in
        if negb (ret' =? 0)
        then Some (ret', arg')
        else env_foreach_loop fuel' cb arg' mem size
                              (ptr + (strlen (skipn ptr mem) + 1)) ret'
    end
  else Some (ret, arg).

(** [env_foreach].  Every iteration moves [ptr] by at least one byte, so
    [tg_envsize] iterations are enough. *)
Definition env_foreach {A : Type} (group : task_group_s)
    (cb : A -> list Z -> Z * A) (arg : A) : option (Z * A) :=
  env_foreach_loop (tg_envsize group) cb arg (tg_envp group)
                   (tg_envsize group) 0 OKK.

(** The memory of an environment that holds the strings [entries]. *)
Definition env_bytes (entries : list (list Z)) : list Z :=
  concat (map (fun e => e ++ [0]) entries).

Definition is_string (e : list Z) : Prop := Forall (fun c => c <> 0) e.

(** Visiting a list of strings in order, up to the first for which the
    callback returns a value other than zero. *)
Fixpoint visit {A : Type} (cb : A -> list Z -> Z * A) (arg : A)
    (entries : list (list Z)) : Z * A :=
  match entries with
  | [] => (0, arg)
  | e :: rest =>
      let (ret, arg') := cb arg e in
      if negb (ret =? 0) then (ret, arg') else visit cb arg' rest
  end.

(** A callback that looks for the name [name] and keeps the entries it
    was shown. *)
Definition sample_env_cb (name : list Z) (seen : list (list Z))
    (entry : list Z) : Z * list (list Z) :=
  (if list_eq_dec Z.eq_dec (firstn (length name) entry) name then 1 else 0,
   seen ++ [entry]).

(** A callback that returns what [f] says of the entry and keeps the
    entries it was shown. *)
Definition log_cb (f : list Z -> Z) (seen : list (list Z))
    (entry : list Z) : Z * list (list Z) :=
  (f entry, seen ++ [entry]).

(** * The I2C EEPROM driver (drivers/eeprom/i2c_xx24xx.c) *)

(** The integer types of file positions and lengths come from
    [sys/types.h], which is not among the sources.  They are taken as on
    the 32-bit targets: [off_t], [ssize_t] and [int] are 32-bit two's
    complement, [size_t] is 32-bit unsigned.  A conversion to one of them
    wraps, and so does a sum of two [off_t] that overflows.  The fields
    that the source itself declares as [uint8_t] wrap as written. *)
Definition to_u32 (z : Z) : Z := z mod 4294967296.

Definition to_s32 (z : Z) : Z :=
  (z + 2147483648) mod 4294967296 - 2147483648.

Definition EIO : Z := 5.
Definition EACCES : Z := 13.
Definition ENODEV : Z := 19.
Definition EMFILE : Z := 24.
Definition EFBIG : Z := 27.

Definition UUID_SIZE : Z := 16.

(** Switches and constants of headers that the driver includes:
    [CONFIG_EE24XX_FREQUENCY] and [CONFIG_AT24CS_UUID] of the
    configuration, the two device types that [ee24xx_initialize] names,
    the message flags of the I2C interface and the [whence] values of
    [lseek]. *)
Record eeconfig := {
  CONFIG_EE24XX_FREQUENCY : Z;
  CONFIG_AT24CS_UUID : bool;
  EEPROM_24xx00 : Z;
  EEPROM_24xx1025 : Z;
  I2C_M_READ : Z;
  I2C_M_NOSTART : Z;
  SEEK_SET : Z;
  SEEK_CUR : Z;
  SEEK_END : Z
}.

(** [struct ee24xx_geom_s]. *)
Record ee24xx_geom_s := {
  geo_bytes : Z;
  geo_pagesize : Z;
  geo_addrlen : Z;
  geo_abits : Z;
  geo_special : Z
}.

Definition geom (by_ pg al ab sp : Z) : ee24xx_geom_s :=
  {| geo_bytes := by_; geo_pagesize := pg; geo_addrlen := al;
     geo_abits := ab; geo_special := sp |}.

Definition g_ee24xx_devices : list ee24xx_geom_s :=
  [ geom 0 1 1 0 1;   (* 24xx00 *)
    geom 0 0 1 0 0;   (* 24xx01 *)
    geom 1 0 1 0 0;   (* 24xx02 *)
    geom 2 1 1 1 0;   (* 24xx04 *)
    geom 3 1 1 2 0;   (* 24xx08 *)
    geom 4 1 1 3 0;   (* 24xx16 *)
    geom 5 2 2 0 0;   (* 24xx32 *)
    geom 6 2 2 0 0;   (* 24xx64 *)
    geom 7 3 2 0 0;   (* 24xx128 *)
    geom 8 3 2 0 0;   (* 24xx256 *)
    geom 9 4 2 0 0;   (* 24xx512 *)
    geom 10 4 2 1 1;  (* 24xx1025 *)
    geom 10 4 2 1 0;  (* 24xx1026 *)
    geom 11 5 2 2 0;  (* AT24CM02 *)
    geom 0 1 1 0 0;   (* M24C01 *)
    geom 1 1 1 0 0;   (* M24C02 *)
    geom 11 5 2 2 0   (* M24M02 *) ].

(** One message of an I2C transfer.  [msg_buffer] holds the bytes of a
    message that is written; a message that is read has none, the bytes
    come back from the bus. *)
Record i2c_msg_s := {
  msg_frequency : Z;
  msg_addr : Z;
  msg_flags : Z;
  msg_buffer : list Z;
  msg_length : Z
}.

(** The bus behind [I2C_TRANSFER]: what the k-th transfer returns, the
    bytes it reads, and the transfers made so far, oldest first. *)
Record i2c_master_s := {
  i2c_ret : nat -> Z;
  i2c_data : nat -> list Z;
  i2c_log : list (list i2c_msg_s)
}.

Definition I2C_TRANSFER (bus : i2c_master_s) (msgs : list i2c_msg_s)
    : Z * list Z * i2c_master_s :=
  let k := length (i2c_log bus) in
  (i2c_ret bus k, i2c_data bus k,
   {| i2c_ret := i2c_ret bus; i2c_data := i2c_data bus;
      i2c_log := i2c_log bus ++ [msgs] |}).

(** [struct ee24xx_dev_s]; [ee_sem] is the count of the semaphore. *)
Record ee24xx_dev_s := {
  ee_i2c : i2c_master_s;
  ee_freq : Z;
  ee_addr : Z;
  ee_sem : Z;
  ee_refs : Z;
  ee_readonly : bool;
  ee_size : Z;
  ee_pgsize : Z;
  ee_addrlen : Z;
  ee_haddrbits : Z;
  ee_haddrshift : Z
}.

Definition with_i2c (e : ee24xx_dev_s) (bus : i2c_master_s) : ee24xx_dev_s :=
  {| ee_i2c := bus; ee_freq := ee_freq e; ee_addr := ee_addr e;
     ee_sem := ee_sem e; ee_refs := ee_refs e; ee_readonly := ee_readonly e;
     ee_size := ee_size e; ee_pgsize := ee_pgsize e;
     ee_addrlen := ee_addrlen e; ee_haddrbits := ee_haddrbits e;
     ee_haddrshift := ee_haddrshift e |}.

Definition with_sem (e : ee24xx_dev_s) (n : Z) : ee24xx_dev_s :=
  {| ee_i2c := ee_i2c e; ee_freq := ee_freq e; ee_addr := ee_addr e;
     ee_sem := n; ee_refs := ee_refs e; ee_readonly := ee_readonly e;
     ee_size := ee_size e; ee_pgsize := ee_pgsize e;
     ee_addrlen := ee_addrlen e; ee_haddrbits := ee_haddrbits e;
     ee_haddrshift := ee_haddrshift e |}.

Definition with_refs (e : ee24xx_dev_s) (n : Z) : ee24xx_dev_s :=
  {| ee_i2c := ee_i2c e; ee_freq := ee_freq e; ee_addr := ee_addr e;
     ee_sem := ee_sem e; ee_refs := n; ee_readonly := ee_readonly e;
     ee_size := ee_size e; ee_pgsize := ee_pgsize e;
     ee_addrlen := ee_addrlen e; ee_haddrbits := ee_haddrbits e;
     ee_haddrshift := ee_haddrshift e |}.

(** An open file of the driver: its position and the device that its
    inode holds as private data. *)
Record file := {
  f_pos : Z;
  f_inode : ee24xx_dev_s
}.

Definition with_inode (filep : file) (e : ee24xx_dev_s) : file :=
  {| f_pos := f_pos filep; f_inode := e |}.

(** The device address and the address bytes of a transfer at [memaddr],
    as [ee24xx_waitwritecomplete], [ee24xx_writepage] and [ee24xx_read]
    each compute them. *)
Definition msg_devaddr (eedev : ee24xx_dev_s) (memaddr : Z) : Z :=
  let addr_hi := Z.shiftr memaddr (Z.shiftl (ee_addrlen eedev) 3) in
  Z.lor (ee_addr eedev)
        (Z.land addr_hi (Z.shiftl 1 (ee_haddrbits eedev) - 1)).

Definition msg_maddr (eedev : ee24xx_dev_s) (memaddr : Z) : list Z :=
  let maddr := [to_u8 (Z.shiftr memaddr 8); Z.land memaddr 255] in
  firstn (Z.to_nat (ee_addrlen eedev))
         (if ee_addrlen eedev =? 2 then maddr else skipn 1 maddr).

Section Eeprom.

Variable ecfg : eeconfig.

(** The do-while loop of [ee24xx_waitwritecomplete]; [retries] is the
    count before the transfer. *)
Fixpoint ack_poll (retries : nat) (bus : i2c_master_s)
    (msgs : list i2c_msg_s) : Z * i2c_master_s :=
  let '(ret, _, bus') := I2C_TRANSFER bus msgs in
  match retries with
  | O => (ret, bus')
  | S retries' =>
      if negb (ret =? 0) && (0 <? Z.of_nat retries')
      then ack_poll retries' bus' msgs
      else (ret, bus')
  end.

Definition ack_msg (eedev : ee24xx_dev_s) (memaddr : Z) : i2c_msg_s :=
  {| msg_frequency := ee_freq eedev;
     msg_addr := msg_devaddr eedev memaddr;
     msg_flags := I2C_M_READ ecfg;
     msg_buffer := [];
     msg_length := 1 |}.

Definition ee24xx_waitwritecomplete (eedev : ee24xx_dev_s) (memaddr : Z)
    : Z * ee24xx_dev_s :=
  let (ret, bus) := ack_poll 100 (ee_i2c eedev) [ack_msg eedev memaddr] in
  (ret, with_i2c eedev bus).

Definition page_msgs (eedev : ee24xx_dev_s) (memaddr : Z)
    (buffer : list Z) (len : Z) : list i2c_msg_s :=
  [ {| msg_frequency := ee_freq eedev;
       msg_addr := msg_devaddr eedev memaddr;
       msg_flags := 0;
       msg_buffer := msg_maddr eedev memaddr;
       msg_length := ee_addrlen eedev |};
    {| msg_frequency := ee_freq eedev;
       msg_addr := msg_devaddr eedev memaddr;
       msg_flags := I2C_M_NOSTART ecfg;
       msg_buffer := firstn (Z.to_nat len) buffer;
       msg_length := len |} ].

Definition ee24xx_writepage (eedev : ee24xx_dev_s) (memaddr : Z)
    (buffer : list Z) (len : Z) : Z * ee24xx_dev_s :=
  let '(ret, _, bus) :=
    I2C_TRANSFER (ee_i2c eedev) (page_msgs eedev memaddr buffer len) in
  (ret, with_i2c eedev bus).

(** The semaphore is taken and given by one task; a wait that blocks is
    not modelled. *)
Definition ee24xx_semtake (eedev : ee24xx_dev_s) : ee24xx_dev_s :=
  with_sem eedev (ee_sem eedev - 1).

Definition ee24xx_semgive (eedev : ee24xx_dev_s) : ee24xx_dev_s :=
  with_sem eedev (ee_sem eedev + 1).

(** The test of [ee24xx_open] is on [refs + 1], an [int] after the
    integer promotion of the [uint8_t] count; the increment wraps in the
    field. *)
Definition ee24xx_open (filep : file) : Z * file :=
  let eedev := ee24xx_semtake (f_inode filep) in
  let (ret, eedev) :=
    if ee_refs eedev + 1 =? 0
    then (- EMFILE, eedev)
    else (OKK, with_refs eedev (to_u8 (ee_refs eedev + 1))) in
  (ret, with_inode filep (ee24xx_semgive eedev)).

Definition ee24xx_close (filep : file) : Z * file :=
  let eedev := ee24xx_semtake (f_inode filep) in
  let (ret, eedev) :=
    if ee_refs eedev =? 0
    then (- EIO, eedev)
    else (OKK, with_refs eedev (to_u8 (ee_refs eedev - 1))) in
  (ret, with_inode filep (ee24xx_semgive eedev)).

(** [newpos] is an [off_t]: the sum with the position is a sum of two
    [off_t], the sum with the [uint32_t] size is made unsigned and
    converted; the result goes through [int ret]. *)
Definition ee24xx_seek (filep : file) (offset whence : Z) : Z * file :=
  let eedev := ee24xx_semtake (f_inode filep) in
  let newpos :=
    if whence =? SEEK_CUR ecfg then Some (to_s32 (f_pos filep + offset))
    else if whence =? SEEK_SET ecfg then Some offset
    else if whence =? SEEK_END ecfg
    then Some (to_s32 (to_u32 (ee_size eedev + offset)))
    else None in
  match newpos with
  | None => (- EINVAL, with_inode filep (ee24xx_semgive eedev))
  | Some newpos =>
      if 0 <=? newpos
      then (to_s32 newpos,
            {| f_pos := newpos; f_inode := ee24xx_semgive eedev |})
      else (- EINVAL, with_inode filep (ee24xx_semgive eedev))
  end.

Definition read_msgs (eedev : ee24xx_dev_s) (memaddr len : Z)
    : list i2c_msg_s :=
  [ {| msg_frequency := ee_freq eedev;
       msg_addr := msg_devaddr eedev memaddr;
       msg_flags := 0;
       msg_buffer := msg_maddr eedev memaddr;
       msg_length := ee_addrlen eedev |};
    {| msg_frequency := ee_freq eedev;
       msg_addr := msg_devaddr eedev memaddr;
       msg_flags := I2C_M_READ ecfg;
       msg_buffer := [];
       msg_length := len |} ].

(** [ee24xx_read] returns its result, the bytes that the transfer put in
    the caller's buffer, and the file.  [len] is a [size_t]: the sum of
    the position and [len] and the difference of the size and the
    position are unsigned 32-bit values; the count goes back through
    [int ret], and the new position is an [off_t]. *)
Definition ee24xx_read (filep : file) (len : Z) : Z * list Z * file :=
  let eedev := ee24xx_semtake (f_inode filep) in
  let len :=
    if to_u32 (f_pos filep + len) >? ee_size eedev
    then to_u32 (ee_size eedev - f_pos filep) else len in
  if len =? 0 then (0, [], with_inode filep (ee24xx_semgive eedev))
  else
    let '(ret, data, bus) :=
      I2C_TRANSFER (ee_i2c eedev) (read_msgs eedev (f_pos filep) len) in
    let eedev := with_i2c eedev bus in
    if ret <? 0 then (ret, data, with_inode filep (ee24xx_semgive eedev))
    else (to_s32 len, data,
          {| f_pos := to_s32 (to_u32 (f_pos filep + len));
             f_inode := ee24xx_semgive eedev |}).

Definition uuid_msgs (eedev : ee24xx_dev_s) (len : Z) : list i2c_msg_s :=
  [ {| msg_frequency := ee_freq eedev;
       msg_addr := ee_addr eedev + 8;
       msg_flags := 0;
       msg_buffer := [128];
       msg_length := 1 |};
    {| msg_frequency := ee_freq eedev;
       msg_addr := ee_addr eedev + 8;
       msg_flags := I2C_M_READ ecfg;
       msg_buffer := [];
       msg_length := len |} ].

(** [at24cs_read_uuid], with the arithmetic of [ee24xx_read]: the sum
    of the position and [len] is unsigned, and so is its comparison
    with [UUID_SIZE]. *)
Definition at24cs_read_uuid (filep : file) (len : Z) : Z * list Z * file :=
  let eedev := ee24xx_semtake (f_inode filep) in
  let len :=
    if to_u32 (f_pos filep + len) >? UUID_SIZE
    then to_u32 (UUID_SIZE - f_pos filep) else len in
  if len =? 0 then (0, [], with_inode filep (ee24xx_semgive eedev))
  else
    let '(ret, data, bus) :=
      I2C_TRANSFER (ee_i2c eedev) (uuid_msgs eedev len) in
    let eedev := with_i2c eedev bus in
    if ret <? 0 then (ret, data, with_inode filep (ee24xx_semgive eedev))
    else (to_s32 len, data,
          {| f_pos := to_s32 (to_u32 (f_pos filep + len));
             f_inode := ee24xx_semgive eedev |}).

(** One page of [ee24xx_write]: the page write, the ACK polling and the
    advance, which the source has for the unaligned head and again in
    the loop.  The left result is a failure, on the way to [done]. *)
Definition write_page_step (filep : file) (buffer : list Z) (len cnt : Z)
    : (Z * file) + (file * list Z * Z) :=
  let (ret, eedev) :=
    ee24xx_writepage (f_inode filep) (f_pos filep) buffer cnt in
  if ret <? 0 then inl (ret, with_inode filep eedev)
  else
    let (ret, eedev) := ee24xx_waitwritecomplete eedev (f_pos filep) in
    if ret <? 0 then inl (ret, with_inode filep eedev)
    else inr ({| f_pos := f_pos filep + cnt; f_inode := eedev |},
              skipn (Z.to_nat cnt) buffer, len - cnt).

(** The loop over the aligned pages; [None] when [fuel] iterations did
    not end it. *)
Fixpoint write_aligned (fuel : nat) (filep : file) (buffer : list Z)
    (len : Z) : option ((Z * file) + file) :=
  if 0 <? len then
    match fuel with
    | O => None
    | S fuel' =>
        let cnt := len in
        let cnt :=
          if cnt >? ee_pgsize (f_inode filep)
          then ee_pgsize (f_inode filep) else cnt in
        match write_page_step filep buffer len cnt with
        | inl failed => Some (inl failed)
        | inr (filep', buffer', len') =>
            write_aligned fuel' filep' buffer' len'
        end
    end
  else Some (inr filep).

Definition write_done (ret : Z) (filep : file) : Z * file :=
  (ret, with_inode filep (ee24xx_semgive (f_inode filep))).

(** [ee24xx_write]: [len] is the size of [buffer], an object that the
    caller holds in memory, so that the position plus [len] stays below
    2^31; for such a length the sum of the clamp test, the lengths that
    remain and [savelen] do not wrap, and they are written in [Z]. *)
Definition ee24xx_write (fuel : nat) (filep : file) (buffer : list Z)
    (len : Z) : option (Z * file) :=
  let eedev := f_inode filep in
  if ee_readonly eedev then Some (- EACCES, filep)
  else if f_pos filep >=? ee_size eedev then Some (- EFBIG, filep)
  else
    let len :=
      if len + f_pos filep >? ee_size eedev
      then ee_size eedev - f_pos filep else len in
    let savelen := len in
    let filep := with_inode filep (ee24xx_semtake eedev) in
    let pageoff := Z.land (f_pos filep) (ee_pgsize eedev - 1) in
    let cnt := ee_pgsize eedev - pageoff in
    let cnt := if cnt >? len then len else cnt in
    let head :=
      if 0 <? pageoff then write_page_step filep buffer len cnt
      else inr (filep, buffer, len) in
    match head with
    | inl (ret, filep') => Some (write_done ret filep')
    | inr (filep', buffer', len') =>
        match write_aligned fuel filep' buffer' len' with
        | None => None
        | Some (inl (ret, filep'')) => Some (write_done ret filep'')
        | Some (inr filep'') => Some (write_done savelen filep'')
        end
    end.

Definition ee24xx_ioctl (filep : file) (cmd arg : Z) : Z := - EINVAL.

(** [ee24xx_initialize]: the allocations and [register_driver] belong to
    the kernel; [init_env] says how each one ends.  The result is the
    return value and the calls of [register_driver], in order. *)
Inductive fops := ee24xx_fops | at24cs_uuid_fops.

Record registration := {
  reg_path : list Z;
  reg_fops : fops;
  reg_mode : Z;
  reg_priv : ee24xx_dev_s
}.

Record init_env := {
  alloc_eedev : bool;
  alloc_uuidname : bool;
  register_uuid : Z;
  register_main : Z
}.

Definition uuid_suffix : list Z := [46; 117; 117; 105; 100].

(** The end of [ee24xx_initialize]: the UUID driver, where it is
    configured, then the EEPROM driver. *)
Definition register_drivers (env : init_env) (devname : list Z)
    (eedev : ee24xx_dev_s) : Z * list registration :=
  let main :=
    {| reg_path := devname; reg_fops := ee24xx_fops;
       reg_mode := 438; reg_priv := eedev |} in
  if CONFIG_AT24CS_UUID ecfg then
    if negb (alloc_uuidname env) then (- ENOMEM, [])
    else
      let uuid :=
        {| reg_path := devname ++ uuid_suffix;
           reg_fops := at24cs_uuid_fops;
           reg_mode := 292; reg_priv := eedev |} in
      if negb (OKK =? register_uuid env)
      then (register_uuid env, [uuid])
      else (register_main env, [uuid; main])
  else (register_main env, [main]).

Definition ee24xx_initialize (env : init_env) (bus : i2c_master_s)
    (devaddr : Z) (devname : list Z) (devtype readonly : Z)
    : Z * list registration :=
  if (devtype <? 0) || (devtype >=? Z.of_nat (length g_ee24xx_devices))
  then (- EINVAL, [])
  else if negb (alloc_eedev env) then (- ENOMEM, [])
  else
    let g := nth (Z.to_nat devtype) g_ee24xx_devices (geom 0 0 0 0 0) in
    let eedev :=
      {| ee_i2c := bus;
         ee_freq := CONFIG_EE24XX_FREQUENCY ecfg;
         ee_addr := devaddr;
         ee_sem := 1;
         ee_refs := 0;
         ee_readonly := negb (readonly =? 0);
         ee_size := Z.shiftl 128 (geo_bytes g);
         ee_pgsize := Z.shiftl 8 (geo_pagesize g);
         ee_addrlen := geo_addrlen g;
         ee_haddrbits := geo_abits g;
         ee_haddrshift := 0 |} in
    let special :=
      if negb (geo_special g =? 0) then
        if devtype =? EEPROM_24xx00 ecfg then
          inr {| ee_i2c := bus;
                 ee_freq := ee_freq eedev;
                 ee_addr := ee_addr eedev;
                 ee_sem := ee_sem eedev;
                 ee_refs := ee_refs eedev;
                 ee_readonly := ee_readonly eedev;
                 ee_size := 16;
                 ee_pgsize := 1;
                 ee_addrlen := ee_addrlen eedev;
                 ee_haddrbits := ee_haddrbits eedev;
                 ee_haddrshift := ee_haddrshift eedev |}
        else if devtype =? EEPROM_24xx1025 ecfg then inl (- ENODEV)
        else inr eedev
      else inr eedev in
    match special with
    | inl ret => (ret, [])
    | inr eedev => register_drivers env devname eedev
    end.

End Eeprom.

Definition sample_ecfg : eeconfig :=
  {| CONFIG_EE24XX_FREQUENCY := 100000;
     CONFIG_AT24CS_UUID := true;
     EEPROM_24xx00 := 0;
     EEPROM_24xx1025 := 11;
     I2C_M_READ := 1;
     I2C_M_NOSTART := 64;
     SEEK_SET := 0;
     SEEK_CUR := 1;
     SEEK_END := 2 |}.

Definition sample_bus : i2c_master_s :=
  {| i2c_ret := fun _ => 0; i2c_data := fun _ => []; i2c_log := [] |}.

Definition sample_init_env : init_env :=
  {| alloc_eedev := true; alloc_uuidname := true;
     register_uuid := 0; register_main := 0 |}.

(** What the geometry of a device promises to the file operations. *)
Definition geometry_ok (e : ee24xx_dev_s) : Prop :=
  (exists k, 0 <= k /\ ee_pgsize e = 2 ^ k)
  /\ (ee_pgsize e | ee_size e)
  /\ (ee_addrlen e = 1 \/ ee_addrlen e = 2)
  /\ 0 <= ee_haddrbits e <= 3
  /\ 0 < ee_size e <= 2 ^ (8 * ee_addrlen e + ee_haddrbits e).

(** [logged e e' l]: [e'] is [e] after the transfers [l] on its bus. *)
Definition logged (e e' : ee24xx_dev_s) (l : list (list i2c_msg_s)) : Prop :=
  e' = with_i2c e {| i2c_ret := i2c_ret (ee_i2c e);
                     i2c_data := i2c_data (ee_i2c e);
                     i2c_log := i2c_log (ee_i2c e) ++ l |}.

(** The memory address that a device address and address bytes stand
    for. *)
Definition be_value (bs : list Z) : Z :=
  fold_left (fun acc b => acc * 256 + b) bs 0.

Definition msg_memaddr (e : ee24xx_dev_s) (devaddr : Z) (bs : list Z) : Z :=
  Z.shiftl (Z.land devaddr (Z.shiftl 1 (ee_haddrbits e) - 1))
           (8 * ee_addrlen e)
  + be_value bs.

(** A run of page writes from [pos] on: each one writes a chunk that is
    not empty and stays within one page, is followed by one ACK poll,
    and the next one goes on where it ended. *)
Inductive page_run (ecfg : eeconfig) (e : ee24xx_dev_s)
    : Z -> list Z -> list (list i2c_msg_s) -> Prop :=
| run_done pos : page_run ecfg e pos [] []
| run_page pos chunk rest l :
    chunk <> [] ->
    pos mod ee_pgsize e + Z.of_nat (length chunk) <= ee_pgsize e ->
    page_run ecfg e (pos + Z.of_nat (length chunk)) rest l ->
    page_run ecfg e pos (chunk ++ rest)
      (page_msgs ecfg e pos chunk (Z.of_nat (length chunk))
       :: [ack_msg ecfg e pos] :: l).

Definition sample_eedev : ee24xx_dev_s :=
  {| ee_i2c := sample_bus; ee_freq := 100000; ee_addr := 80;
     ee_sem := 1; ee_refs := 0; ee_readonly := false;
     ee_size := 512; ee_pgsize := 16; ee_addrlen := 1;
     ee_haddrbits := 1; ee_haddrshift := 0 |}.

Definition sample_file (pos : Z) : file :=
  {| f_pos := pos; f_inode := sample_eedev |}.

(** [geometry_ok] as a test. *)
Definition geometry_okb (e : ee24xx_dev_s) : bool :=
  (0 <? ee_pgsize e) && (2 ^ Z.log2 (ee_pgsize e) =? ee_pgsize e)
  && (ee_size e mod ee_pgsize e =? 0)
  && ((ee_addrlen e =? 1) || (ee_addrlen e =? 2))
  && (0 <=? ee_haddrbits e) && (ee_haddrbits e <=? 3)
  && (0 <? ee_size e)
  && (ee_size e <=? 2 ^ (8 * ee_addrlen e + ee_haddrbits e)).

(** The device that [ee24xx_initialize] sets up for a row of the table,
    before the special cases. *)
Definition expanded (cfg : eeconfig) (bus : i2c_master_s)
    (devaddr readonly : Z) (g : ee24xx_geom_s) : ee24xx_dev_s :=
  {| ee_i2c := bus; ee_freq := CONFIG_EE24XX_FREQUENCY cfg;
     ee_addr := devaddr; ee_sem := 1; ee_refs := 0;
     ee_readonly := negb (readonly =? 0);
     ee_size := Z.shiftl 128 (geo_bytes g);
     ee_pgsize := Z.shiftl 8 (geo_pagesize g);
     ee_addrlen := geo_addrlen g; ee_haddrbits := geo_abits g;
     ee_haddrshift := 0 |}.

(** * Properties *)

Section Handler_properties.

Variable cfg : netconfig.

(** [sendto_request] writes the device and the statistics only. *)
Lemma sendto_request_frame (w : world) :
  w_pstate (sendto_request cfg w) = w_pstate w
  /\ w_calls (sendto_request cfg w) = w_calls w
  /\ w_conn (sendto_request cfg w) = w_conn w
  /\ w_clock (sendto_request cfg w) = w_clock w.
Proof.
  unfold sendto_request.
  destruct (CONFIG_NET_STATISTICS cfg); cbn; auto.
Qed.

(** What [end_wait] leaves behind, field by field. *)
Lemma end_wait_world (w : world) (r flags : Z) :
  end_wait (with_result w r) flags =
  (flags,
   {| w_conn := w_conn w; w_dev := w_dev w;
      w_pstate :=
        set_sem (set_cb (set_result (w_pstate w) r)
                        (option_map (fun _ => cleared_cb)
                                    (snd_cb (w_pstate w))))
                (snd_sem (w_pstate w) + 1);
      w_clock := w_clock w; w_stats := w_stats w;
      w_calls := w_calls w ++ [Call_nxsem_post] |}).
Proof. reflexivity. Qed.

(** The three ways the handler ends with a non-NULL state: it returns at
    once having changed nothing, or it runs the code under [end_wait] on
    a world that differs from [w] by the result and, if a packet was
    built, by the device and the statistics. *)
Lemma handler_cases (w : world) (flags : Z) :
  sendto_eventhandler cfg w (Some tt) flags = (flags, w)
  \/ exists w1 r,
       sendto_eventhandler cfg w (Some tt) flags
       = end_wait (with_result w1 r) flags
       /\ In r [- ENETUNREACH; OKK; - ETIMEDOUT]
       /\ w_pstate w1 = w_pstate w
       /\ w_calls w1 = w_calls w
       /\ w_conn w1 = w_conn w.
Proof.
  unfold sendto_eventhandler.
  destruct (negb (Z.land flags (NETDEV_DOWN cfg) =? 0)).
  { right. exists w, (- ENETUNREACH). cbn. auto 6. }
  destruct ((d_sndlen (w_dev w) <=? 0)
            && (Z.land flags (ICMPv6_NEWDATA cfg) =? 0)).
  { right. exists (sendto_request cfg w), OKK.
    destruct (sendto_request_frame w) as (Hp & Hc & Hn & _).
    cbn. auto 7. }
  destruct (CONFIG_NET_SOCKOPTS cfg && sendto_timeout (w_clock w) (w_pstate w)).
  { right.
    destruct (negb (net_ipv6addr_maskcmp (snd_toaddr (w_pstate w))
                      (d_ipv6addr (w_dev w)) (d_ipv6netmask (w_dev w)))).
    - exists w, (- ENETUNREACH). cbn. auto 6.
    - exists w, (- ETIMEDOUT). cbn. auto 8. }
  left. reflexivity.
Qed.

(** One dispatch either leaves request state, session and calls alone or
    is the terminal transition. *)
Lemma devif_conn_event_outcome (w : world) (flags : Z) :
  outcome w (snd (devif_conn_event cfg w flags)).
Proof.
  unfold devif_conn_event.
  destruct (snd_cb (w_pstate w)) as [cb|] eqn:Hcb;
    [| now apply Still_waiting].
  destruct (cb_event cb) as [[]|]; [| now apply Still_waiting].
  destruct (Z.land flags (cb_flags cb) =? 0); [now apply Still_waiting|].
  destruct (cb_priv cb) as [[]|]; [| now apply Still_waiting].
  destruct (handler_cases w flags) as [E | (w1 & r & E & Hr & Hp & Hc & Hn)];
    rewrite E.
  - now apply Still_waiting.
  - rewrite end_wait_world. cbn [snd].
    apply Resolved_once with (r := r);
      [exact Hr | cbn; rewrite Hp, Hcb; reflexivity
      | cbn; congruence | cbn; congruence].
Qed.

(** Once the callback is cleared the dispatch does not reach the handler. *)
Lemma devif_conn_event_cleared (w : world) (flags : Z) :
  snd_cb (w_pstate w) = Some cleared_cb ->
  devif_conn_event cfg w flags = (flags, w).
Proof.
  intros H. unfold devif_conn_event. rewrite H. reflexivity.
Qed.

Lemma poll_cycle_outcome (w : world) (ev : poll_event) :
  outcome w (poll_cycle cfg w ev).
Proof.
  unfold poll_cycle.
  match goal with |- outcome _ (snd (devif_conn_event _ ?w0 _)) =>
    destruct (devif_conn_event_outcome w0 (ev_flags ev))
      as [Hp Hc Hn | r Hr Hp Hc Hn]
  end; cbn in Hp, Hc, Hn.
  - now apply Still_waiting.
  - now apply Resolved_once with (r := r).
Qed.

Lemma poll_cycle_cleared (w : world) (ev : poll_event) :
  snd_cb (w_pstate w) = Some cleared_cb ->
  w_pstate (poll_cycle cfg w ev) = w_pstate w
  /\ w_calls (poll_cycle cfg w ev) = w_calls w
  /\ w_conn (poll_cycle cfg w ev) = w_conn w.
Proof.
  intros H. unfold poll_cycle.
  rewrite devif_conn_event_cleared by exact H. cbn. auto.
Qed.

Lemma poll_cycles_cleared (evs : list poll_event) : forall w,
  snd_cb (w_pstate w) = Some cleared_cb ->
  w_pstate (poll_cycles cfg w evs) = w_pstate w
  /\ w_calls (poll_cycles cfg w evs) = w_calls w
  /\ w_conn (poll_cycles cfg w evs) = w_conn w.
Proof.
  induction evs as [|ev evs IH]; intros w H; cbn; auto.
  destruct (poll_cycle_cleared w ev H) as (Hp & Hc & Hn).
  destruct (IH (poll_cycle cfg w ev)) as (Hp' & Hc' & Hn').
  - rewrite Hp. exact H.
  - unfold poll_cycles in *. repeat split; congruence.
Qed.

(** Any number of poll cycles: at most one terminal transition. *)
Lemma poll_cycles_outcome (evs : list poll_event) : forall w,
  outcome w (poll_cycles cfg w evs).
Proof.
  induction evs as [|ev evs IH]; intros w; cbn.
  - now apply Still_waiting.
  - destruct (poll_cycle_outcome w ev) as [Hp Hc Hn | r Hr Hp Hc Hn].
    + destruct (IH (poll_cycle cfg w ev)) as [Hp' Hc' Hn' | r Hr Hp' Hc' Hn'];
        unfold poll_cycles in *.
      * apply Still_waiting; congruence.
      * apply Resolved_once with (r := r); congruence.
    + destruct (poll_cycles_cleared evs (poll_cycle cfg w ev))
        as (Hp' & Hc' & Hn').
      * rewrite Hp. reflexivity.
      * unfold poll_cycles in *.
        apply Resolved_once with (r := r); congruence.
Qed.

End Handler_properties.

(** The number of calls of one kind after one more call. *)
Lemma count_calls_app (c c' : call) (l : list call) :
  count_calls c (l ++ [c']) =
  (count_calls c l + (if call_eqb c c' then 1 else 0))%nat.
Proof.
  unfold count_calls. rewrite filter_app, length_app. cbn.
  destruct (call_eqb c c'); reflexivity.
Qed.

(** C10: invoked with a NULL private-state pointer, [sendto_eventhandler]
    returns the flags it was given and leaves the whole world as it was:
    no field of the request state changes, no byte of the transmit buffer
    is written and the semaphore is not posted. *)
Theorem eventhandler_null_priv (cfg : netconfig) (w : world) (flags : Z) :
  sendto_eventhandler cfg w None flags = (flags, w)
  /\ (forall i,
        d_buf (w_dev (snd (sendto_eventhandler cfg w None flags))) i
        = d_buf (w_dev w) i)
  /\ w_pstate (snd (sendto_eventhandler cfg w None flags)) = w_pstate w
  /\ count_calls Call_nxsem_post
       (w_calls (snd (sendto_eventhandler cfg w None flags)))
     = count_calls Call_nxsem_post (w_calls w).
Proof. repeat split. Qed.

(** C1: during one call, whose callback [cb] is allocated, every
    invocation of the handler either keeps waiting and changes nothing, or
    is a terminal transition that posts [snd_sem] in a world where the
    callback is already cleared; and over every sequence of poll cycles
    the semaphore is posted not at all while the callback is still
    registered, and exactly once as soon as it is cleared. *)
Theorem wake_exactly_once (cfg : netconfig) (w : world)
    (cb : devif_callback_s) :
  snd_cb (w_pstate w) = Some cb ->
  (forall flags,
     sendto_eventhandler cfg w (Some tt) flags = (flags, w)
     \/ exists w1,
          sendto_eventhandler cfg w (Some tt) flags = (flags, nxsem_post w1)
          /\ snd_cb (w_pstate w1) = Some cleared_cb
          /\ w_calls w1 = w_calls w
          /\ snd_sem (w_pstate w1) = snd_sem (w_pstate w))
  /\ (forall evs,
        let w' := poll_cycles cfg w evs in
        (snd_cb (w_pstate w') = Some cb
         /\ snd_sem (w_pstate w') = snd_sem (w_pstate w)
         /\ count_calls Call_nxsem_post (w_calls w')
            = count_calls Call_nxsem_post (w_calls w))
        \/ (snd_cb (w_pstate w') = Some cleared_cb
            /\ snd_sem (w_pstate w') = snd_sem (w_pstate w) + 1
            /\ count_calls Call_nxsem_post (w_calls w')
               = S (count_calls Call_nxsem_post (w_calls w)))).
Proof.
  intros Hcb. split.
  - intros flags.
    destruct (handler_cases cfg w flags)
      as [E | (w1 & r & E & _ & Hp & Hc & _)]; [now left | right].
    exists (clear_callback (with_result w1 r)). split; [exact E|].
    cbn. rewrite Hp, Hcb. auto.
  - intros evs w'. subst w'.
    destruct (poll_cycles_outcome cfg evs w) as [Hp Hc _ | r _ Hp Hc _].
    + left. rewrite Hp, Hc. auto.
    + right. rewrite Hp, Hc, count_calls_app. cbn.
      repeat split. lia.
Qed.

Lemma wake_exactly_once_witness :
  snd_cb (w_pstate (sample_world addr_fe80_2 0)) = Some sample_cb
  /\ count_calls Call_nxsem_post
       (w_calls (poll_cycles sample_cfg (sample_world addr_fe80_2 0)
                             sample_polls)) = 1%nat.
Proof.
  split; [reflexivity|].
  destruct (proj2 (wake_exactly_once sample_cfg (sample_world addr_fe80_2 0)
                     sample_cb eq_refl) sample_polls)
    as [(H & _) | (_ & _ & H)].
  - discriminate H.
  - exact H.
Defined.

(** C4: with CONFIG_NET_SOCKOPTS, in the branch of the handler that is
    reached when the interface is up and no packet can be built: a send
    timeout of 0 never resolves the call; a timeout other than 0 fires
    exactly when the ticks elapsed since [snd_time] reach or exceed it,
    the boundary included; and when it fires the call resolves with
    -ETIMEDOUT if the destination lies in the subnet of the device under
    its netmask and with -ENETUNREACH if not. *)
Theorem timeout_branch (cfg : netconfig) (w : world) (psock : socket)
    (flags : Z) :
  CONFIG_NET_SOCKOPTS cfg = true ->
  snd_sock (w_pstate w) = Some psock ->
  Z.land flags (NETDEV_DOWN cfg) = 0 ->
  (d_sndlen (w_dev w) <=? 0) && (Z.land flags (ICMPv6_NEWDATA cfg) =? 0)
  = false ->
  let elapsed := w_clock w - snd_time (w_pstate w) in
  let on_subnet :=
    net_ipv6addr_maskcmp (snd_toaddr (w_pstate w)) (d_ipv6addr (w_dev w))
                         (d_ipv6netmask (w_dev w)) in
  let failcode := if on_subnet then - ETIMEDOUT else - ENETUNREACH in
  (sendto_timeout (w_clock w) (w_pstate w) = true
   <-> s_sndtimeo psock <> 0 /\ s_sndtimeo psock <= elapsed)
  /\ (s_sndtimeo psock = 0 ->
      sendto_eventhandler cfg w (Some tt) flags = (flags, w))
  /\ (elapsed < s_sndtimeo psock ->
      sendto_eventhandler cfg w (Some tt) flags = (flags, w))
  /\ (s_sndtimeo psock <> 0 -> s_sndtimeo psock <= elapsed ->
      sendto_eventhandler cfg w (Some tt) flags
      = end_wait (with_result w failcode) flags
      /\ snd_result
           (w_pstate (snd (sendto_eventhandler cfg w (Some tt) flags)))
         = failcode).
Proof.
  intros Hopt Hsock Hup Hbusy elapsed on_subnet failcode.
  assert (Ht : sendto_timeout (w_clock w) (w_pstate w) = true
               <-> s_sndtimeo psock <> 0 /\ s_sndtimeo psock <= elapsed).
  { unfold sendto_timeout, net_timeo. rewrite Hsock. subst elapsed.
    destruct (Z.eqb_spec (s_sndtimeo psock) 0) as [E|E]; cbn.
    - split; [discriminate | intros [H _]; contradiction].
    - rewrite Z.leb_le. tauto. }
  assert (Hh : sendto_eventhandler cfg w (Some tt) flags
               = if sendto_timeout (w_clock w) (w_pstate w)
                 then end_wait (with_result w failcode) flags
                 else (flags, w)).
  { unfold sendto_eventhandler. rewrite Hup, Hbusy, Hopt.
    fold on_subnet. change (negb (0 =? 0)) with false. cbv iota.
    change (true && ?b) with b.
    destruct (sendto_timeout (w_clock w) (w_pstate w)); [|reflexivity].
    subst failcode. destruct on_subnet; reflexivity. }
  split; [exact Ht|].
  destruct (sendto_timeout (w_clock w) (w_pstate w)) eqn:Et.
  - destruct Ht as [Ht _]. destruct (Ht eq_refl) as [Hnz Hle].
    split; [intros; lia|]. split; [intros; lia|].
    intros _ _. rewrite Hh. split; reflexivity.
  - split; [intros; exact Hh|]. split; [intros; exact Hh|].
    intros Hnz Hle. destruct Ht as [_ Ht].
    discriminate (Ht (conj Hnz Hle)).
Qed.

Lemma timeout_branch_witness :
  snd_result
    (w_pstate
       (snd (sendto_eventhandler sample_cfg
               (sample_busy_world addr_fe80_2 50 150) (Some tt) 0x1000)))
  = - ETIMEDOUT.
Proof.
  refine (proj2 (proj2 (proj2 (proj2
    (timeout_branch sample_cfg (sample_busy_world addr_fe80_2 50 150)
       {| s_sndtimeo := 50 |} 0x1000 eq_refl eq_refl eq_refl eq_refl)))
    _ _)).
  - discriminate.
  - cbn. lia.
Defined.

(** ** The packet builder *)

Lemma peek16_poke16 (b : buffer) (off v : Z) :
  peek16 (poke16 b off v) off = v.
Proof.
  unfold peek16, poke16, poke.
  rewrite Z.eqb_refl.
  destruct (Z.eqb_spec off (off + 1)); [lia|].
  rewrite Z.eqb_refl. pose proof (Z.div_mod v 256). lia.
Qed.

Lemma poke16_twice (b : buffer) (off u v i : Z) :
  poke16 (poke16 b off u) off v i = poke16 b off v i.
Proof.
  unfold poke16, poke.
  destruct (i =? off + 1); [reflexivity|].
  destruct (i =? off); reflexivity.
Qed.

Lemma poke16_other (b : buffer) (off v i : Z) :
  i <> off -> i <> off + 1 -> poke16 b off v i = b i.
Proof.
  intros H1 H2. unfold poke16, poke.
  destruct (Z.eqb_spec i (off + 1)); [contradiction|].
  destruct (Z.eqb_spec i off); [contradiction|]. reflexivity.
Qed.

(** Decide the tests of [poke] and [memcpy] at an offset by arithmetic. *)
Ltac buf_tests :=
  repeat match goal with
  | |- context [?i =? ?j] =>
      destruct (Z.eqb_spec i j); cbn [andb orb]; try lia
  | |- context [?i <=? ?j] =>
      destruct (Z.leb_spec i j); cbn [andb orb]; try lia
  | |- context [?i <? ?j] =>
      destruct (Z.ltb_spec i j); cbn [andb orb]; try lia
  end.

(** The device after the checksum is stored: only the checksum field of
    the buffer changes. *)
Lemma request_checksum_dev (dev : net_driver_s) :
  let c := not_u16 (icmpv6_chksum dev IPv6_HDRLEN) in
  let dev' := request_checksum dev in
  d_llhdrlen dev' = d_llhdrlen dev
  /\ d_len dev' = d_len dev
  /\ d_sndlen dev' = d_sndlen dev
  /\ forall i, d_buf dev' i
       = poke16 (d_buf dev) (chksum_off dev)
                (if c =? 0 then 0xffff else c) i.
Proof.
  intros c dev'. subst dev'. unfold request_checksum. cbv zeta.
  cbn [set_buf d_buf d_llhdrlen chksum_off].
  fold (chksum_off dev). fold c. rewrite peek16_poke16.
  destruct (c =? 0); cbn; repeat split; try reflexivity.
  intros i. apply poke16_twice.
Qed.

(** The device of the world after [sendto_request]. *)
Lemma sendto_request_dev (cfg : netconfig) (w : world) :
  let dev := w_dev w in
  let pstate := w_pstate w in
  let pkt := request_packet (request_lengths cfg dev pstate) pstate in
  let dev' := w_dev (sendto_request cfg w) in
  d_llhdrlen dev' = d_llhdrlen dev
  /\ d_len dev' = to_u16 (IPv6_HDRLEN + snd_buflen pstate)
  /\ d_sndlen dev' = to_u16 (d_sndlen dev + snd_buflen pstate)
  /\ forall i, d_buf dev' i
       = poke16 (d_buf pkt) (chksum_off dev) (request_chksum cfg dev pstate) i.
Proof.
  intros dev pstate pkt dev'.
  assert (E : dev' = request_checksum pkt).
  { subst dev'. unfold sendto_request.
    destruct (CONFIG_NET_STATISTICS cfg); reflexivity. }
  rewrite E.
  destruct (request_checksum_dev pkt) as (Hl & Hn & Hs & Hb).
  rewrite Hl, Hn, Hs. repeat split. exact Hb.
Qed.

(** The bytes of the packet before the checksum is stored. *)
Lemma request_packet_buf (cfg : netconfig) (dev : net_driver_s)
    (pstate : icmpv6_sendto_s) (i : Z) :
  let ip := d_llhdrlen dev in
  let n := snd_buflen pstate in
  d_buf (request_packet (request_lengths cfg dev pstate) pstate) i =
  if (i =? ip + 42) || (i =? ip + 43) then 0
  else if (ip + 40 <=? i) && (i <? ip + 40 + n)
       then nth (Z.to_nat (i - (ip + 40))) (snd_buf pstate) 0
  else if (ip + 24 <=? i) && (i <? ip + 40)
       then nth (Z.to_nat (i - (ip + 24))) (snd_toaddr pstate) 0
  else if (ip + 8 <=? i) && (i <? ip + 24)
       then nth (Z.to_nat (i - (ip + 8))) (d_ipv6addr dev) 0
  else if i =? ip + 7 then 255
  else if i =? ip + 6 then IP_PROTO_ICMP6
  else if i =? ip + 5 then to_u8 (Z.land n 0xff)
  else if i =? ip + 4 then to_u8 (Z.shiftr n 8)
  else if (i =? ip + 3) || (i =? ip + 2) || (i =? ip + 1) then 0
  else if i =? ip then 0x60
  else d_buf dev i.
Proof.
  intros ip n. subst ip n.
  unfold request_packet, request_lengths, ipv6_header, chksum_off,
    IPv6_HDRLEN, poke16, poke, memcpy.
  cbn [set_buf d_buf d_llhdrlen d_ipv6addr].
  change (0 / 256) with 0. change (0 mod 256) with 0.
  buf_tests; try reflexivity; repeat f_equal; lia.
Qed.

Lemma to_u8_shiftr (n : Z) : u16_ok n -> to_u8 (Z.shiftr n 8) = n / 256.
Proof.
  intros H. unfold to_u8, u16_ok in *.
  rewrite Z.shiftr_div_pow2 by lia. change (2 ^ 8) with 256.
  apply Z.mod_small. split.
  - apply Z.div_pos; lia.
  - apply Z.div_lt_upper_bound; lia.
Qed.

Lemma to_u8_land (n : Z) : to_u8 (Z.land n 0xff) = n mod 256.
Proof.
  unfold to_u8. change 0xff with (Z.ones 8).
  rewrite Z.land_ones by lia. change (2 ^ 8) with 256.
  apply Z.mod_mod. lia.
Qed.

(** C3, as amended: invoked while waiting with the interface up, no
    pending send on the device and no incoming data flagged, the handler
    builds the packet and resolves with success.  The packet starts with
    0x60, three zero bytes, the payload length in two bytes, big-endian,
    the next header IP_PROTO_ICMP6 and the hop limit 255, then the
    address of the device and the destination of the request; the bytes
    of the caller follow the IPv6 header unchanged, but for the two bytes
    of the checksum field, which hold the computed checksum; [d_len] is
    the IPv6 header length plus the payload length as a 16-bit value, the
    sum itself when that is at most 0xffff. *)
Theorem build_and_resolve (cfg : netconfig) (w : world) (flags : Z) :
  u16_ok (snd_buflen (w_pstate w)) ->
  Z.land flags (NETDEV_DOWN cfg) = 0 ->
  d_sndlen (w_dev w) <= 0 ->
  Z.land flags (ICMPv6_NEWDATA cfg) = 0 ->
  let pstate := w_pstate w in
  let n := snd_buflen pstate in
  let ip := d_llhdrlen (w_dev w) in
  let w' := snd (sendto_eventhandler cfg w (Some tt) flags) in
  let pkt := d_buf (w_dev w') in
  sendto_eventhandler cfg w (Some tt) flags
  = end_wait (with_result (sendto_request cfg w) OKK) flags
  /\ snd_result (w_pstate w') = OKK
  /\ pkt ip = 0x60 /\ pkt (ip + 1) = 0 /\ pkt (ip + 2) = 0 /\ pkt (ip + 3) = 0
  /\ pkt (ip + 4) = n / 256 /\ pkt (ip + 5) = n mod 256
  /\ peek16 pkt (ip + 4) = n
  /\ pkt (ip + 6) = IP_PROTO_ICMP6
  /\ pkt (ip + 7) = 255
  /\ (forall k, 0 <= k < 16 ->
        pkt (ip + 8 + k) = nth (Z.to_nat k) (d_ipv6addr (w_dev w)) 0)
  /\ (forall k, 0 <= k < 16 ->
        pkt (ip + 24 + k) = nth (Z.to_nat k) (snd_toaddr pstate) 0)
  /\ (forall k, 0 <= k < n -> k <> 2 -> k <> 3 ->
        pkt (ip + IPv6_HDRLEN + k) = nth (Z.to_nat k) (snd_buf pstate) 0)
  /\ peek16 pkt (ip + IPv6_HDRLEN + 2) = request_chksum cfg (w_dev w) pstate
  /\ d_len (w_dev w') = to_u16 (IPv6_HDRLEN + n)
  /\ (IPv6_HDRLEN + n <= 0xffff -> d_len (w_dev w') = IPv6_HDRLEN + n).
Proof.
  intros Hn Hup Hfree Hnew pstate n ip w' pkt.
  assert (E : sendto_eventhandler cfg w (Some tt) flags
              = end_wait (with_result (sendto_request cfg w) OKK) flags).
  { unfold sendto_eventhandler. rewrite Hup, Hnew.
    destruct (Z.leb_spec (d_sndlen (w_dev w)) 0); [reflexivity | lia]. }
  destruct (sendto_request_dev cfg w) as (Hl & Hlen & _ & Hb).
  assert (Hpkt : forall i,
             pkt i = poke16
                       (d_buf (request_packet
                                 (request_lengths cfg (w_dev w) pstate)
                                 pstate))
                       (chksum_off (w_dev w))
                       (request_chksum cfg (w_dev w) pstate) i).
  { intros i. subst pkt w'. rewrite E. exact (Hb i). }
  assert (Hhdr : forall i, i <> ip + 42 -> i <> ip + 43 ->
             pkt i = d_buf (request_packet
                              (request_lengths cfg (w_dev w) pstate)
                              pstate) i).
  { intros i H1 H2. rewrite Hpkt. apply poke16_other;
      unfold chksum_off, IPv6_HDRLEN; fold ip; lia. }
  assert (Hdl : d_len (w_dev w') = to_u16 (IPv6_HDRLEN + n)).
  { subst w'. rewrite E. exact Hlen. }
  split; [exact E|].
  split; [subst w'; rewrite E; reflexivity|].
  unfold IPv6_HDRLEN in *.
  repeat match goal with
  | |- _ /\ _ => split
  end.
  all: try (rewrite Hhdr by lia; rewrite request_packet_buf;
            fold ip; fold n; buf_tests; reflexivity).
  - rewrite Hhdr by lia. rewrite request_packet_buf.
    fold ip; fold n; buf_tests. apply to_u8_shiftr; exact Hn.
  - rewrite Hhdr by lia. rewrite request_packet_buf.
    fold ip; fold n; buf_tests. apply to_u8_land.
  - unfold peek16. rewrite !Hhdr by lia. rewrite !request_packet_buf.
    fold ip; fold n; buf_tests.
    rewrite to_u8_shiftr by exact Hn. rewrite to_u8_land.
    pose proof (Z.div_mod n 256). lia.
  - intros k Hk. rewrite Hhdr by lia. rewrite request_packet_buf.
    fold ip; fold n; buf_tests. f_equal. lia.
  - intros k Hk. rewrite Hhdr by lia. rewrite request_packet_buf.
    fold ip; fold n; buf_tests. f_equal. lia.
  - intros k Hk H2 H3. rewrite Hhdr by lia. rewrite request_packet_buf.
    fold ip; fold n; buf_tests. f_equal. lia.
  - unfold peek16. rewrite !Hpkt.
    replace (ip + 40 + 2) with (chksum_off (w_dev w))
      by (unfold chksum_off, IPv6_HDRLEN; reflexivity).
    apply peek16_poke16.
  - exact Hdl.
  - intros Hle. rewrite Hdl. subst n pstate. unfold to_u16, u16_ok in *.
    apply Z.mod_small. lia.
Qed.

Lemma build_and_resolve_witness :
  u16_ok (snd_buflen (w_pstate (sample_world addr_fe80_2 0)))
  /\ d_sndlen (w_dev (sample_world addr_fe80_2 0)) <= 0
  /\ d_len (w_dev (snd (sendto_eventhandler sample_cfg
                          (sample_world addr_fe80_2 0) (Some tt) 0x1000)))
     = IPv6_HDRLEN + 8.
Proof.
  assert (H1 : u16_ok (snd_buflen (w_pstate (sample_world addr_fe80_2 0))))
    by (unfold u16_ok; cbn; lia).
  assert (H2 : d_sndlen (w_dev (sample_world addr_fe80_2 0)) <= 0)
    by (cbn; lia).
  split; [exact H1|]. split; [exact H2|].
  apply (build_and_resolve sample_cfg (sample_world addr_fe80_2 0) 0x1000
           H1 eq_refl H2 eq_refl).
  cbn. lia.
Defined.

(** C3 as stated fails.  In the packet built for the sample echo request
    the bytes behind the IPv6 header are not those of the caller, whose
    checksum field holds 0 where the packet holds 0x7083.  And for a
    request of 65535 bytes [d_len] is 39, not the IPv6 header length plus
    the payload length. *)
Lemma build_verbatim_counterexample :
  (let w := sample_world addr_fe80_2 0 in
   let w' := snd (sendto_eventhandler sample_cfg w (Some tt) 0x1000) in
   Z.land 0x1000 (NETDEV_DOWN sample_cfg) = 0
   /\ d_sndlen (w_dev w) <= 0
   /\ Z.land 0x1000 (ICMPv6_NEWDATA sample_cfg) = 0
   /\ snd_result (w_pstate w') = OKK
   /\ ~ (forall k, 0 <= k < snd_buflen (w_pstate w) ->
           d_buf (w_dev w') (d_llhdrlen (w_dev w) + IPv6_HDRLEN + k)
           = nth (Z.to_nat k) (snd_buf (w_pstate w)) 0))
  /\ (let w := sample_big_world in
      let w' := snd (sendto_eventhandler sample_cfg w (Some tt) 0x1000) in
      d_sndlen (w_dev w) <= 0
      /\ snd_result (w_pstate w') = OKK
      /\ d_len (w_dev w') = 39
      /\ d_len (w_dev w') <> IPv6_HDRLEN + snd_buflen (w_pstate w)).
Proof.
  split; cbv zeta.
  - split; [reflexivity|]. split; [cbn; lia|].
    split; [reflexivity|]. split; [reflexivity|].
    intros H. specialize (H 2). vm_compute in H.
    assert (E : 112 = 0) by (apply H; split; [discriminate | reflexivity]).
    discriminate E.
  - split; [lazy; discriminate|]. split; [lazy; reflexivity|].
    assert (E : d_len (w_dev (snd (sendto_eventhandler sample_cfg
                                     sample_big_world (Some tt) 0x1000)))
                = 39).
    { change (sendto_eventhandler sample_cfg sample_big_world (Some tt)
                                  0x1000)
        with (end_wait (with_result
                          (sendto_request sample_cfg sample_big_world) OKK)
                       0x1000).
      unfold end_wait, nxsem_post, clear_callback, with_result.
      cbn [snd log_call set_pstate w_dev].
      rewrite (proj1 (proj2 (sendto_request_dev sample_cfg
                               sample_big_world))).
      reflexivity. }
    split; [exact E|]. rewrite E. lazy. discriminate.
Qed.

(** ** The ones'-complement checksum *)







Lemma read_bytes_ext (b1 b2 : buffer) (off : Z) (n : nat) :
  (forall i, b1 i = b2 i) -> read_bytes b1 off n = read_bytes b2 off n.
Proof. intros H. unfold read_bytes. apply map_ext. intros; apply H. Qed.


Lemma icmpv6_chksum_ext (d1 d2 : net_driver_s) (n : Z) :
  d_llhdrlen d1 = d_llhdrlen d2 ->
  (forall i, d_buf d1 i = d_buf d2 i) ->
  icmpv6_chksum d1 n = icmpv6_chksum d2 n.
Proof.
  intros Hl Hb. unfold icmpv6_chksum, peek16. rewrite Hl, !Hb.
  rewrite (read_bytes_ext (d_buf d1) (d_buf d2) (d_llhdrlen d2 + 8))
    by exact Hb.
  rewrite (read_bytes_ext (d_buf d1) (d_buf d2) (d_llhdrlen d2 + n))
    by exact Hb.
  reflexivity.
Qed.











(** ** The entry point *)

Section Sendto_properties.

Variable cfg : netconfig.

(** The wait ends with the request state as it was, when a signal woke the
    caller, or after one terminal transition whose post the caller took. *)
Lemma net_lockedwait_outcome (w : world) (evs : list poll_event) :
  snd_sem (w_pstate w) = 0 ->
  let w' := net_lockedwait cfg w evs in
  (w_pstate w' = w_pstate w /\ w_calls w' = w_calls w
   /\ w_conn w' = w_conn w)
  \/ exists r,
       In r [- ENETUNREACH; OKK; - ETIMEDOUT]
       /\ w_pstate w'
          = set_sem (set_cb (set_result (w_pstate w) r) (Some cleared_cb)) 0
       /\ w_calls w' = w_calls w ++ [Call_nxsem_post]
       /\ w_conn w' = w_conn w.
Proof.
  intros Hsem w'. subst w'. unfold net_lockedwait.
  destruct (poll_cycles_outcome cfg evs w) as [Hp Hc Hn | r Hr Hp Hc Hn].
  - left. rewrite Hp, Hsem. cbn. auto.
  - right. exists r. rewrite Hp, Hsem. cbn. auto.
Qed.

(** A poll event that [ev_waits] accepts changes nothing of the call. *)
Lemma poll_cycle_waits (w : world) (psock : socket) (ev : poll_event) :
  snd_sock (w_pstate w) = Some psock ->
  snd_cb (w_pstate w) = Some (registered_cb cfg) ->
  ev_waits cfg psock (snd_time (w_pstate w)) ev = true ->
  w_pstate (poll_cycle cfg w ev) = w_pstate w
  /\ w_calls (poll_cycle cfg w ev) = w_calls w
  /\ w_conn (poll_cycle cfg w ev) = w_conn w.
Proof.
  intros Hsock Hcb Hev. unfold poll_cycle, devif_conn_event.
  cbn [w_pstate]. rewrite Hcb. cbn [registered_cb cb_event cb_flags cb_priv].
  unfold ev_waits in Hev.
  destruct (Z.land (ev_flags ev) (Z.lor (ICMPv6_POLL cfg) (NETDEV_DOWN cfg))
            =? 0); [cbn; auto|].
  cbn [orb] in Hev.
  apply andb_prop in Hev. destruct Hev as [Hev Htime].
  apply andb_prop in Hev. destruct Hev as [Hup Hbusy].
  unfold sendto_eventhandler. cbn [w_dev d_sndlen w_clock w_pstate].
  rewrite Hup. cbn [negb].
  apply negb_true_iff in Hbusy. rewrite Hbusy.
  apply negb_true_iff in Htime.
  unfold sendto_timeout. rewrite Hsock.
  destruct (CONFIG_NET_SOCKOPTS cfg); [|cbn; auto].
  cbn [andb] in *.
  destruct (negb (s_sndtimeo psock =? 0)); [|cbn; auto].
  cbn [andb] in Htime. rewrite Htime. cbn. auto.
Qed.

Lemma poll_cycles_waits (psock : socket) (evs : list poll_event) :
  forall w,
  snd_sock (w_pstate w) = Some psock ->
  snd_cb (w_pstate w) = Some (registered_cb cfg) ->
  forallb (ev_waits cfg psock (snd_time (w_pstate w))) evs = true ->
  w_pstate (poll_cycles cfg w evs) = w_pstate w
  /\ w_calls (poll_cycles cfg w evs) = w_calls w
  /\ w_conn (poll_cycles cfg w evs) = w_conn w.
Proof.
  induction evs as [|ev evs IH]; intros w Hsock Hcb Hall; [cbn; auto|].
  cbn [forallb] in Hall. apply andb_prop in Hall. destruct Hall as [Hev Hall].
  destruct (poll_cycle_waits w psock ev Hsock Hcb Hev) as (Hp & Hc & Hn).
  destruct (IH (poll_cycle cfg w ev)) as (Hp' & Hc' & Hn').
  - rewrite Hp. exact Hsock.
  - rewrite Hp. exact Hcb.
  - rewrite Hp. exact Hall.
  - unfold poll_cycles in *. cbn [fold_left].
    repeat split; congruence.
Qed.

(** The recorded session depends on the session alone. *)
Lemma session_record_conn (w : world) (buf : list Z) (dev : Z) :
  w_conn (session_record w buf dev) =
  {| conn_id := if icmpv6_type buf =? ICMPv6_ECHO_REQUEST
                then icmpv6_id buf else conn_id (w_conn w);
     conn_nreqs := if icmpv6_type buf =? ICMPv6_ECHO_REQUEST
                   then 1 else conn_nreqs (w_conn w);
     conn_dev := Some dev;
     conn_readahead := conn_readahead (w_conn w) |}.
Proof.
  unfold session_record.
  destruct (icmpv6_type buf =? ICMPv6_ECHO_REQUEST); reflexivity.
Qed.

Lemma session_record_frame (w : world) (buf : list Z) (dev : Z) :
  w_pstate (session_record w buf dev) = w_pstate w
  /\ w_calls (session_record w buf dev) = w_calls w.
Proof.
  unfold session_record.
  destruct (icmpv6_type buf =? ICMPv6_ECHO_REQUEST); cbn; auto.
Qed.

(** A call that passes the checks, finds a device and a neighbor and gets
    a callback ends in one of three ways: interrupted, failed by the
    handler, or sent. *)
Lemma icmpv6_sendto_waited (env : environment) (w : world) (psock : socket)
    (buf : list Z) (len flags : Z) (to : list Z) (tolen : Z) (dev : Z) :
  (len <? ICMPv6_HDRLEN cfg) || (tolen <? SIZEOF_SOCKADDR_IN6 cfg) = false ->
  env_route env = Some dev ->
  CONFIG_NET_ICMPv6_NEIGHBOR cfg && (env_neighbor env <? 0) = false ->
  env_alloc env = true ->
  let w1 := session_reconcile w buf dev in
  let res := icmpv6_sendto cfg env w psock buf len flags to tolen in
  (fst res = - EINTR
   /\ w_conn (snd res) = empty_session
   /\ w_calls (snd res)
      = w_calls w1 ++ [Call_netdev_txnotify_dev; Call_iob_free_queue])
  \/ (exists r, In r [- ENETUNREACH; - ETIMEDOUT]
        /\ fst res = r
        /\ w_conn (snd res) = empty_session
        /\ w_calls (snd res)
           = w_calls w1 ++ [Call_netdev_txnotify_dev; Call_nxsem_post;
                            Call_iob_free_queue])
  \/ (fst res = len
      /\ w_conn (snd res) = w_conn (session_record w1 buf dev)
      /\ w_calls (snd res)
         = w_calls w1 ++ [Call_netdev_txnotify_dev; Call_nxsem_post]).
Proof.
  intros Hval Hroute Hnb Halloc w1 res. subst res.
  unfold icmpv6_sendto. rewrite Hval, Hroute. fold w1. rewrite Hnb, Halloc.
  set (w2 := set_pstate w1 (initial_state w1 psock buf len to)).
  set (w3 := sendto_registered cfg w2 buf dev).
  assert (Hconn3 : w_conn w3 = w_conn (session_record w1 buf dev)).
  { subst w3. unfold sendto_registered. cbn [log_call w_conn].
    rewrite !session_record_conn. reflexivity. }
  assert (Hcalls3 : w_calls w3 = w_calls w1 ++ [Call_netdev_txnotify_dev]).
  { subst w3. unfold sendto_registered. cbn [log_call w_calls].
    rewrite (proj2 (session_record_frame _ _ _)). reflexivity. }
  assert (Hp3 : w_pstate w3
                = set_result (set_cb (initial_state w1 psock buf len to)
                                     (Some (registered_cb cfg))) (- EINTR)).
  { subst w3. unfold sendto_registered. cbn [log_call w_pstate].
    rewrite (proj1 (session_record_frame _ _ _)). reflexivity. }
  destruct (net_lockedwait_outcome w3 (env_polls env))
    as [(Hp & Hc & Hn) | (r & Hr & Hp & Hc & Hn)].
  { rewrite Hp3. reflexivity. }
  - left. unfold icmpv6_callback_free. cbn [set_pstate w_pstate].
    rewrite Hp, Hp3. cbn [set_cb set_result snd_result].
    change (- EINTR <? 0) with true. cbv iota.
    unfold errout, session_reset. cbn. rewrite Hc, Hcalls3, <- !app_assoc.
    auto.
  - unfold icmpv6_callback_free. cbn [set_pstate w_pstate].
    rewrite Hp, Hp3. cbn [set_cb set_result set_sem snd_result].
    destruct Hr as [<- | [<- | [<- | []]]].
    + right; left. exists (- ENETUNREACH).
      change (- ENETUNREACH <? 0) with true. cbv iota.
      unfold errout, session_reset. cbn -[In].
      rewrite Hc, Hcalls3, <- !app_assoc. cbn; auto.
    + right; right. change (OKK <? 0) with false. cbv iota.
      cbn. rewrite Hc, Hcalls3, Hn, Hconn3, <- !app_assoc. auto.
    + right; left. exists (- ETIMEDOUT).
      change (- ETIMEDOUT <? 0) with true. cbv iota.
      unfold errout, session_reset. cbn -[In].
      rewrite Hc, Hcalls3, <- !app_assoc. cbn; auto.
Qed.

End Sendto_properties.

(** C2: a call with at least a header's worth of payload and a device to
    route to returns the length it was given or a negative value, never
    zero and never another positive value. *)
Theorem sendto_return_value (cfg : netconfig) (env : environment)
    (w : world) (psock : socket) (buf : list Z) (len flags : Z)
    (to : list Z) (tolen : Z) (dev : Z) :
  0 < ICMPv6_HDRLEN cfg ->
  ICMPv6_HDRLEN cfg <= len ->
  env_route env = Some dev ->
  let r := fst (icmpv6_sendto cfg env w psock buf len flags to tolen) in
  (r = len \/ r < 0) /\ r <> 0 /\ (0 < r -> r = len).
Proof.
  intros Hpos Hlen Hroute r. subst r. unfold icmpv6_sendto.
  destruct ((len <? ICMPv6_HDRLEN cfg) || (tolen <? SIZEOF_SOCKADDR_IN6 cfg)).
  { cbn. unfold EINVAL. lia. }
  rewrite Hroute.
  destruct (CONFIG_NET_ICMPv6_NEIGHBOR cfg && (env_neighbor env <? 0)).
  { cbn. unfold ENETUNREACH. lia. }
  cbv zeta.
  match goal with
  | |- context [snd_result (w_pstate ?wx) <? 0] =>
      generalize wx
  end.
  intros w'.
  destruct (Z.ltb_spec (snd_result (w_pstate w')) 0); cbn [fst errout]; lia.
Qed.

Lemma sendto_return_value_witness :
  fst (icmpv6_sendto sample_cfg (sample_env true sample_polls)
         (sample_world [] 0) {| s_sndtimeo := 0 |} sample_echo 8 0
         addr_fe80_2 28) = 8.
Proof.
  destruct (sendto_return_value sample_cfg (sample_env true sample_polls)
              (sample_world [] 0) {| s_sndtimeo := 0 |} sample_echo 8 0
              addr_fe80_2 28 7 eq_refl
              ltac:(cbn; lia) eq_refl) as (_ & _ & H).
  apply H. reflexivity.
Defined.







Lemma session_reconcile_frame (w : world) (buf : list Z) (dev : Z) :
  w_clock (session_reconcile w buf dev) = w_clock w
  /\ w_dev (session_reconcile w buf dev) = w_dev w.
Proof.
  unfold session_reconcile.
  destruct (session_mismatch buf dev (w_conn w)); cbn; auto.
Qed.

(** C8: once the callback is allocated the result is seeded with -EINTR
    before the wait; and a call whose wait ends although no poll cycle
    resolved it, as when a signal wakes the caller, returns -EINTR, which
    is negative and not the length. *)
Theorem interrupted_wait (cfg : netconfig) (env : environment)
    (w : world) (psock : socket) (buf : list Z) (len flags : Z)
    (to : list Z) (tolen : Z) (dev : Z) :
  0 <= len ->
  (len <? ICMPv6_HDRLEN cfg) || (tolen <? SIZEOF_SOCKADDR_IN6 cfg) = false ->
  env_route env = Some dev ->
  CONFIG_NET_ICMPv6_NEIGHBOR cfg && (env_neighbor env <? 0) = false ->
  env_alloc env = true ->
  forallb (ev_waits cfg psock (w_clock w)) (env_polls env) = true ->
  let r := fst (icmpv6_sendto cfg env w psock buf len flags to tolen) in
  (forall w0, snd_result (w_pstate (sendto_registered cfg w0 buf dev))
              = - EINTR)
  /\ r = - EINTR /\ r < 0 /\ r <> len.
Proof.
  intros Hlen Hval Hroute Hnb Halloc Hwait r.
  assert (Hseed : forall w0,
             snd_result (w_pstate (sendto_registered cfg w0 buf dev))
             = - EINTR).
  { intros w0. unfold sendto_registered. cbn [log_call w_pstate].
    rewrite (proj1 (session_record_frame _ _ _)). reflexivity. }
  split; [exact Hseed|].
  assert (E : r = - EINTR).
  { subst r. unfold icmpv6_sendto. rewrite Hval, Hroute, Hnb, Halloc.
    cbv zeta.
    set (w1 := session_reconcile w buf dev).
    set (w3 := sendto_registered cfg
                 (set_pstate w1 (initial_state w1 psock buf len to)) buf dev).
    assert (Hp3 : w_pstate w3
                  = set_result (set_cb (initial_state w1 psock buf len to)
                                       (Some (registered_cb cfg)))
                               (- EINTR)).
    { subst w3. unfold sendto_registered. cbn [log_call w_pstate].
      rewrite (proj1 (session_record_frame _ _ _)). reflexivity. }
    destruct (poll_cycles_waits cfg psock (env_polls env) w3)
      as (Hp & _ & _).
    - rewrite Hp3. reflexivity.
    - rewrite Hp3. reflexivity.
    - rewrite Hp3. cbn [set_result set_cb initial_state snd_time].
      subst w1. rewrite (proj1 (session_reconcile_frame _ _ _)).
      exact Hwait.
    - unfold net_lockedwait, icmpv6_callback_free. rewrite Hp, Hp3.
      cbn [set_result set_cb initial_state snd_sem]. cbn [Z.ltb Z.compare].
      cbn [set_pstate w_pstate]. rewrite Hp, Hp3. reflexivity. }
  rewrite E. unfold EINTR. lia.
Qed.

Lemma interrupted_wait_witness :
  fst (icmpv6_sendto sample_cfg
         (sample_env true
            [ {| ev_flags := 0x1000; ev_sndlen := 20; ev_clock := 101 |};
              {| ev_flags := 0x0002; ev_sndlen := 0; ev_clock := 102 |} ])
         (sample_world [] 0) {| s_sndtimeo := 50 |} sample_echo 8 0
         addr_fe80_2 28)
  = - EINTR.
Proof.
  refine (proj1 (proj2 (interrupted_wait sample_cfg
            (sample_env true
               [ {| ev_flags := 0x1000; ev_sndlen := 20; ev_clock := 101 |};
                 {| ev_flags := 0x0002; ev_sndlen := 0; ev_clock := 102 |} ])
            (sample_world [] 0) {| s_sndtimeo := 50 |} sample_echo 8 0
            addr_fe80_2 28 7 _ eq_refl eq_refl eq_refl eq_refl eq_refl))).
  lia.
Defined.

(** C6: the reconciliation of the echo session in [icmpv6_sendto].  If
    the request is not an echo request, or its id is not the stored id,
    or the device found is not the stored device, the session is reset to
    its empty value and the read-ahead queue is flushed, once.  If it is
    an echo request with the stored id on the stored device, nothing is
    touched.  The set-up that follows stores the id of an echo request
    and the count 1, whatever the count was, and records the device
    whatever the request is, leaving the queue alone.  A call that
    returns the length leaves the session as reconciled and recorded and
    has flushed the queue only in the reconciliation. *)
Theorem session_reconciliation (cfg : netconfig) (env : environment)
    (w : world) (psock : socket) (buf : list Z) (len flags : Z)
    (to : list Z) (tolen : Z) (dev : Z) :
  let conn := w_conn w in
  let w1 := session_reconcile w buf dev in
  ((icmpv6_type buf <> ICMPv6_ECHO_REQUEST
    \/ icmpv6_id buf <> conn_id conn
    \/ conn_dev conn <> Some dev) ->
   w_conn w1 = empty_session
   /\ w_calls w1 = w_calls w ++ [Call_iob_free_queue]
   /\ count_calls Call_iob_free_queue (w_calls w1)
      = S (count_calls Call_iob_free_queue (w_calls w)))
  /\ (icmpv6_type buf = ICMPv6_ECHO_REQUEST ->
      icmpv6_id buf = conn_id conn ->
      conn_dev conn = Some dev ->
      w1 = w)
  /\ (forall w0,
        let c := w_conn (session_record w0 buf dev) in
        conn_dev c = Some dev
        /\ conn_readahead c = conn_readahead (w_conn w0)
        /\ (icmpv6_type buf = ICMPv6_ECHO_REQUEST ->
            conn_id c = icmpv6_id buf /\ conn_nreqs c = 1)
        /\ (icmpv6_type buf <> ICMPv6_ECHO_REQUEST ->
            conn_id c = conn_id (w_conn w0)
            /\ conn_nreqs c = conn_nreqs (w_conn w0)))
  /\ (0 <= len ->
      (len <? ICMPv6_HDRLEN cfg) || (tolen <? SIZEOF_SOCKADDR_IN6 cfg)
      = false ->
      env_route env = Some dev ->
      let res := icmpv6_sendto cfg env w psock buf len flags to tolen in
      fst res = len ->
      w_conn (snd res) = w_conn (session_record w1 buf dev)
      /\ count_calls Call_iob_free_queue (w_calls (snd res))
         = count_calls Call_iob_free_queue (w_calls w1)).
Proof.
  intros conn w1. split; [|split; [|split]].
  - intros Hmis.
    assert (E : session_mismatch buf dev conn = true).
    { unfold session_mismatch, dev_eqb.
      destruct (Z.eqb_spec (icmpv6_type buf) ICMPv6_ECHO_REQUEST);
        [|reflexivity].
      destruct (Z.eqb_spec (icmpv6_id buf) (conn_id conn)); [|reflexivity].
      destruct (conn_dev conn) as [d|]; [|reflexivity].
      destruct (Z.eqb_spec dev d); [|reflexivity].
      exfalso. destruct Hmis as [H | [H | H]]; congruence. }
    subst w1. unfold session_reconcile. fold conn. rewrite E.
    unfold session_reset, iob_free_queue.
    cbn [log_call set_conn w_conn w_calls].
    repeat split. rewrite count_calls_app. cbn. lia.
  - intros Ht Hi Hd.
    subst w1. unfold session_reconcile, session_mismatch, dev_eqb.
    fold conn. rewrite Ht, Hi, Hd, !Z.eqb_refl. reflexivity.
  - intros w0 c. subst c. rewrite session_record_conn.
    cbn [conn_dev conn_readahead conn_id conn_nreqs].
    split; [reflexivity|]. split; [reflexivity|]. split.
    + intros Ht. rewrite Ht, Z.eqb_refl. auto.
    + intros Ht. destruct (Z.eqb_spec (icmpv6_type buf) ICMPv6_ECHO_REQUEST);
        [contradiction | auto].
  - intros Hlen Hval Hroute res Hok.
    destruct (CONFIG_NET_ICMPv6_NEIGHBOR cfg && (env_neighbor env <? 0))
      eqn:Hnb.
    { exfalso. revert Hok. subst res. unfold icmpv6_sendto.
      rewrite Hval, Hroute, Hnb. cbn [fst errout]. unfold ENETUNREACH. lia. }
    destruct (env_alloc env) eqn:Halloc.
    2:{ exfalso. revert Hok. subst res. unfold icmpv6_sendto.
        rewrite Hval, Hroute, Hnb, Halloc. cbn. unfold ENOMEM. lia. }
    destruct (icmpv6_sendto_waited cfg env w psock buf len flags to tolen
                dev Hval Hroute Hnb Halloc)
      as [(E & _) | [(r & Hr & E & _) | (_ & Hconn & Hcalls)]];
      fold res in E || fold res in Hconn, Hcalls.
    + exfalso. rewrite E in Hok. unfold EINTR in Hok. lia.
    + exfalso. rewrite E in Hok.
      destruct Hr as [<- | [<- | []]];
        unfold ENETUNREACH, ETIMEDOUT in Hok; lia.
    + split; [exact Hconn|]. rewrite Hcalls. fold w1.
      change [Call_netdev_txnotify_dev; Call_nxsem_post]
        with ([Call_netdev_txnotify_dev] ++ [Call_nxsem_post]).
      rewrite app_assoc, !count_calls_app. cbn. lia.
Qed.

Lemma session_reconciliation_witness :
  w_conn
    (snd (icmpv6_sendto sample_cfg (sample_env true sample_polls)
            (sample_world [] 0) {| s_sndtimeo := 0 |} sample_echo 8 0
            addr_fe80_2 28))
  = sample_conn.
Proof.
  refine (eq_trans
            (proj1 (proj2 (proj2 (proj2
               (session_reconciliation sample_cfg
                  (sample_env true sample_polls) (sample_world [] 0)
                  {| s_sndtimeo := 0 |} sample_echo 8 0 addr_fe80_2 28 7)))
               _ eq_refl eq_refl _)) _).
  - lia.
  - vm_compute. reflexivity.
  - reflexivity.
Defined.

(** ** The scenarios of the specification *)

(** Scenario A: fe80::1 to fe80::2, an 8-byte echo request, no timeout,
    a free buffer at the first poll: 8 bytes sent, the session tracks the
    id of the request, one packet counted. *)
Example scenario_A :
  let res :=
    icmpv6_sendto sample_cfg
      (sample_env true
         [ {| ev_flags := 0x1000; ev_sndlen := 0; ev_clock := 101 |} ])
      (sample_world [] 0) {| s_sndtimeo := 0 |} sample_echo 8 0
      addr_fe80_2 28 in
  fst res = 8
  /\ conn_id (w_conn (snd res)) = 0x1234
  /\ d_len (w_dev (snd res)) = 48
  /\ read_bytes (d_buf (w_dev (snd res))) 54 8
     = [128; 0; 0x70; 0x83; 0x12; 0x34; 0; 1].
Proof. vm_compute. repeat split. Qed.

(** Scenario B: 2001:db8::1, the interface goes down at the first poll:
    -ENETUNREACH, and the transmit buffer is as it was. *)
Example scenario_B :
  let res :=
    icmpv6_sendto sample_cfg
      (sample_env true
         [ {| ev_flags := 0x2000; ev_sndlen := 0; ev_clock := 101 |} ])
      (sample_world [] 0) {| s_sndtimeo := 0 |} sample_echo 8 0
      addr_2001_db8_1 28 in
  fst res = - ENETUNREACH
  /\ read_bytes (d_buf (w_dev (snd res))) 14 48 = repeat 0 48
  /\ d_len (w_dev (snd res)) = 0.
Proof. vm_compute. repeat split. Qed.

(** Scenario C: a timeout of 50 ticks, a start at tick 100 and a buffer
    that never frees: at tick 149 the call is still waiting, and returns
    -EINTR if it is woken then; at tick 150 it resolves, with -ETIMEDOUT
    on the subnet of the device and -ENETUNREACH off it. *)
Example scenario_C :
  let busy t := {| ev_flags := 0x1000; ev_sndlen := 20; ev_clock := t |} in
  let call polls to :=
    fst (icmpv6_sendto sample_cfg (sample_env true polls)
           (sample_world [] 0) {| s_sndtimeo := 50 |} sample_echo 8 0
           to 28) in
  call [busy 101; busy 149] addr_fe80_2 = - EINTR
  /\ call [busy 101; busy 150] addr_fe80_2 = - ETIMEDOUT
  /\ call [busy 101; busy 150] addr_2001_db8_1 = - ENETUNREACH.
Proof. vm_compute. repeat split. Qed.

(** * Further properties of icmpv6_sendto.c *)

Section Transmit_properties.

Variable cfg : netconfig.

Lemma dev_kept_refl (d : net_driver_s) : dev_kept d d.
Proof. unfold dev_kept. auto 7. Qed.

Lemma dev_kept_trans (d1 d2 d3 : net_driver_s) :
  dev_kept d1 d2 -> dev_kept d2 d3 -> dev_kept d1 d3.
Proof.
  unfold dev_kept. intros (A1 & A2 & A3 & A4 & A5 & A6)
                          (B1 & B2 & B3 & B4 & B5 & B6).
  repeat split; congruence.
Qed.

Lemma event_world_kept (w : world) (ev : poll_event) :
  dev_kept (w_dev w) (w_dev (event_world w ev)).
Proof. unfold dev_kept. cbn. auto 7. Qed.

Lemma request_checksum_buf (d : net_driver_s) :
  d_buf (request_checksum d) =
  if peek16 (poke16 (d_buf d) (chksum_off d)
                    (not_u16 (icmpv6_chksum d IPv6_HDRLEN)))
            (chksum_off d) =? 0
  then poke16 (poke16 (d_buf d) (chksum_off d)
                      (not_u16 (icmpv6_chksum d IPv6_HDRLEN)))
              (chksum_off d) 0xffff
  else poke16 (d_buf d) (chksum_off d)
              (not_u16 (icmpv6_chksum d IPv6_HDRLEN)).
Proof.
  assert (E1 : forall d0 b, d_buf (set_buf d0 b) = b) by reflexivity.
  assert (E2 : forall d0 b, chksum_off (set_buf d0 b) = chksum_off d0)
    by reflexivity.
  unfold request_checksum. cbv zeta. rewrite !E2, !E1.
  match goal with |- context [if ?c then _ else _] => destruct c end;
    rewrite ?E1; reflexivity.
Qed.

Lemma sendto_request_buf (w : world) :
  d_buf (w_dev (sendto_request cfg w))
  = d_buf (request_checksum
             (request_packet (request_lengths cfg (w_dev w) (w_pstate w))
                             (w_pstate w))).
Proof.
  unfold sendto_request. destruct (CONFIG_NET_STATISTICS cfg); reflexivity.
Qed.

(** The packet [sendto_request] builds depends on the request, on the
    buffer, on the link header length and on the address of the device,
    and on nothing else. *)
Lemma sendto_request_buf_indep (w1 w2 : world) :
  w_pstate w1 = w_pstate w2 ->
  dev_kept (w_dev w1) (w_dev w2) ->
  d_buf (w_dev (sendto_request cfg w2)) = d_buf (w_dev (sendto_request cfg w1)).
Proof.
  intros Hp (Hb & _ & _ & Hl & Ha & _).
  rewrite !sendto_request_buf, !request_checksum_buf, <- Hp.
  set (p1 := request_packet (request_lengths cfg (w_dev w1) (w_pstate w1))
                            (w_pstate w1)).
  set (p2 := request_packet (request_lengths cfg (w_dev w2) (w_pstate w1))
                            (w_pstate w1)).
  assert (E1 : d_buf p2 = d_buf p1).
  { subst p1 p2. unfold request_packet, request_lengths, ipv6_header,
      chksum_off. cbn [set_buf d_buf d_llhdrlen d_ipv6addr].
    rewrite Hb, Hl, Ha. reflexivity. }
  assert (E2 : chksum_off p2 = chksum_off p1).
  { subst p1 p2. unfold chksum_off. cbn. rewrite Hl. reflexivity. }
  assert (E3 : icmpv6_chksum p2 IPv6_HDRLEN = icmpv6_chksum p1 IPv6_HDRLEN).
  { apply icmpv6_chksum_ext.
    - subst p1 p2. cbn. exact Hl.
    - intros i. rewrite E1. reflexivity. }
  rewrite E1, E2, E3. reflexivity.
Qed.

Lemma sendto_request_flags_stats (w : world) :
  d_flags (w_dev (sendto_request cfg w)) = IFF_SET_IPv6 cfg (d_flags (w_dev w))
  /\ w_stats (sendto_request cfg w) = count_sent cfg (w_stats w).
Proof.
  unfold sendto_request, count_sent, request_checksum. cbv zeta.
  destruct (CONFIG_NET_STATISTICS cfg); cbn [w_dev w_stats set_stats set_dev];
    (split; [|reflexivity]);
    match goal with |- context [if ?c then _ else _] => destruct c end;
    reflexivity.
Qed.

(** One invocation of the handler of a call whose callback is allocated. *)
Lemma handler_phase (w : world) (cb : devif_callback_s) (flags : Z) :
  snd_cb (w_pstate w) = Some cb ->
  phase cfg w (snd (sendto_eventhandler cfg w (Some tt) flags)).
Proof.
  intros Hcb.
  assert (Hres : forall w1 r,
             w_pstate w1 = w_pstate w ->
             w_pstate (snd (end_wait (with_result w1 r) flags))
             = resolved_state (w_pstate w) r).
  { intros w1 r Hp. rewrite end_wait_world. cbn [snd w_pstate].
    rewrite Hp, Hcb. reflexivity. }
  unfold sendto_eventhandler.
  destruct (negb (Z.land flags (NETDEV_DOWN cfg) =? 0)).
  { apply Ph_failed with (r := - ENETUNREACH);
      [apply Hres; reflexivity | now left | apply dev_kept_refl
      | reflexivity]. }
  destruct ((d_sndlen (w_dev w) <=? 0)
            && (Z.land flags (ICMPv6_NEWDATA cfg) =? 0)).
  { destruct (sendto_request_frame cfg w) as (Hp & _).
    destruct (sendto_request_dev cfg w) as (Hl & Hn & _ & _).
    destruct (sendto_request_flags_stats w) as (Hf & Hs).
    apply Ph_sent; [apply Hres; exact Hp | reflexivity | exact Hn
                   | exact Hf | exact Hl | exact Hs]. }
  destruct (CONFIG_NET_SOCKOPTS cfg) eqn:Hopt; cbn [andb].
  2:{ apply Ph_waiting; [reflexivity | apply dev_kept_refl | reflexivity]. }
  destruct (sendto_timeout (w_clock w) (w_pstate w)) eqn:Ht.
  2:{ apply Ph_waiting; [reflexivity | apply dev_kept_refl | reflexivity]. }
  assert (Hsock : exists psock, snd_sock (w_pstate w) = Some psock
                                /\ s_sndtimeo psock <> 0).
  { unfold sendto_timeout in Ht.
    destruct (snd_sock (w_pstate w)) as [psock|]; [|discriminate].
    exists psock. split; [reflexivity|].
    destruct (Z.eqb_spec (s_sndtimeo psock) 0); [discriminate | assumption]. }
  cbv zeta.
  destruct (negb (net_ipv6addr_maskcmp (snd_toaddr (w_pstate w))
                    (d_ipv6addr (w_dev w)) (d_ipv6netmask (w_dev w)))).
  - apply Ph_failed with (r := - ENETUNREACH);
      [apply Hres; reflexivity | now left | apply dev_kept_refl
      | reflexivity].
  - apply Ph_failed with (r := - ETIMEDOUT);
      [apply Hres; reflexivity | right; auto | apply dev_kept_refl
      | reflexivity].
Qed.

(** A phase seen from a world that differs by a wait. *)
Lemma phase_after_wait (w0 w w' : world) :
  w_pstate w = w_pstate w0 ->
  dev_kept (w_dev w0) (w_dev w) ->
  w_stats w = w_stats w0 ->
  phase cfg w w' -> phase cfg w0 w'.
Proof.
  intros Hp Hd Hs [Hp' Hd' Hs' | r Hp' Hr Hd' Hs' | Hp' Hb Hn Hf Hl Hs'].
  - apply Ph_waiting; [congruence | eapply dev_kept_trans; eassumption
                      | congruence].
  - apply Ph_failed with (r := r);
      [congruence | rewrite <- Hp; exact Hr
      | eapply dev_kept_trans; eassumption | congruence].
  - pose proof Hd as (_ & _ & Hfl & Hll & _).
    apply Ph_sent; try congruence.
    rewrite Hb. apply sendto_request_buf_indep; [congruence | exact Hd].
Qed.

Lemma poll_cycle_phase (w : world) (ev : poll_event) :
  phase cfg w (poll_cycle cfg w ev).
Proof.
  change (poll_cycle cfg w ev)
    with (snd (devif_conn_event cfg (event_world w ev) (ev_flags ev))).
  assert (Hwait : phase cfg w (event_world w ev)).
  { apply Ph_waiting; [reflexivity | apply event_world_kept | reflexivity]. }
  unfold devif_conn_event.
  destruct (snd_cb (w_pstate (event_world w ev))) as [cb|] eqn:Hcb;
    [|exact Hwait].
  destruct (cb_event cb) as [[]|]; [|exact Hwait].
  destruct (Z.land (ev_flags ev) (cb_flags cb) =? 0); [exact Hwait|].
  destruct (cb_priv cb) as [[]|]; [|exact Hwait].
  apply phase_after_wait with (w := event_world w ev);
    [reflexivity | apply event_world_kept | reflexivity|].
  apply handler_phase with (cb := cb). exact Hcb.
Qed.

(** After the terminal transition the poll cycles change the
    pending-send length and the clock and nothing else. *)
Lemma poll_cycles_cleared_kept (evs : list poll_event) : forall w,
  snd_cb (w_pstate w) = Some cleared_cb ->
  w_pstate (poll_cycles cfg w evs) = w_pstate w
  /\ dev_kept (w_dev w) (w_dev (poll_cycles cfg w evs))
  /\ w_stats (poll_cycles cfg w evs) = w_stats w.
Proof.
  induction evs as [|ev evs IH]; intros w H.
  - cbn. split; [reflexivity|]. split; [apply dev_kept_refl | reflexivity].
  - assert (E : poll_cycle cfg w ev = event_world w ev).
    { unfold poll_cycle. rewrite devif_conn_event_cleared by exact H.
      reflexivity. }
    unfold poll_cycles in *. cbn [fold_left]. rewrite E.
    destruct (IH (event_world w ev) H) as (Hp & Hd & Hs).
    split; [exact Hp|]. split; [|exact Hs].
    eapply dev_kept_trans; [apply event_world_kept | exact Hd].
Qed.

(** Any number of poll cycles. *)
Lemma poll_cycles_phase (evs : list poll_event) : forall w,
  phase cfg w (poll_cycles cfg w evs).
Proof.
  induction evs as [|ev evs IH]; intros w.
  - apply Ph_waiting; [reflexivity | apply dev_kept_refl | reflexivity].
  - change (poll_cycles cfg w (ev :: evs))
      with (poll_cycles cfg (poll_cycle cfg w ev) evs).
    destruct (poll_cycle_phase w ev)
      as [Hp Hd Hs | r Hp Hr Hd Hs | Hp Hb Hn Hf Hl Hs].
    + apply phase_after_wait with (w := poll_cycle cfg w ev);
        [exact Hp | exact Hd | exact Hs | apply IH].
    + destruct (poll_cycles_cleared_kept evs (poll_cycle cfg w ev))
        as (Hp' & Hd' & Hs'); [rewrite Hp; reflexivity|].
      apply Ph_failed with (r := r);
        [congruence | exact Hr | eapply dev_kept_trans; eassumption
        | congruence].
    + destruct (poll_cycles_cleared_kept evs (poll_cycle cfg w ev))
        as (Hp' & (Hb' & Hn' & Hf' & Hl' & _) & Hs');
        [rewrite Hp; reflexivity|].
      apply Ph_sent; congruence.
Qed.

End Transmit_properties.

Section Call_properties.

Variable cfg : netconfig.

(** The world at the time of the wait: device and statistics are those of
    the caller. *)
Lemma sendto_registered_frame (w : world) (psock : socket) (buf : list Z)
    (len : Z) (to : list Z) (dev : Z) :
  let w1 := session_reconcile w buf dev in
  let w3 := sendto_registered cfg
              (set_pstate w1 (initial_state w1 psock buf len to)) buf dev in
  w_dev w3 = w_dev w /\ w_stats w3 = w_stats w
  /\ w_pstate w3
     = set_result (set_cb (initial_state w1 psock buf len to)
                          (Some (registered_cb cfg))) (- EINTR).
Proof.
  intros w1 w3. subst w3 w1.
  unfold sendto_registered, session_record, session_reconcile.
  destruct (session_mismatch buf dev (w_conn w));
    destruct (icmpv6_type buf =? ICMPv6_ECHO_REQUEST); cbn; auto.
Qed.

(** Taking the semaphore and freeing the callback leave device,
    statistics and result alone. *)
Lemma wait_frame (w : world) (evs : list poll_event) :
  w_dev (icmpv6_callback_free (net_lockedwait cfg w evs))
  = w_dev (poll_cycles cfg w evs)
  /\ w_stats (icmpv6_callback_free (net_lockedwait cfg w evs))
     = w_stats (poll_cycles cfg w evs)
  /\ snd_result (w_pstate (icmpv6_callback_free (net_lockedwait cfg w evs)))
     = snd_result (w_pstate (poll_cycles cfg w evs)).
Proof.
  unfold icmpv6_callback_free, net_lockedwait.
  destruct (0 <? snd_sem (w_pstate (poll_cycles cfg w evs))); cbn; auto.
Qed.

Lemma errout_frame (w : world) (ret : Z) :
  fst (errout w ret) = ret
  /\ w_dev (snd (errout w ret)) = w_dev w
  /\ w_stats (snd (errout w ret)) = w_stats w.
Proof. repeat split. Qed.

(** The transmit side of a call that passes the checks, finds a device
    and a neighbor and gets a callback: it fails and has written nothing,
    or it returns the length and has built the packet once. *)
Lemma icmpv6_sendto_transmit (env : environment) (w : world)
    (psock : socket) (buf : list Z) (len flags : Z) (to : list Z)
    (tolen : Z) (dev : Z) :
  (len <? ICMPv6_HDRLEN cfg) || (tolen <? SIZEOF_SOCKADDR_IN6 cfg) = false ->
  env_route env = Some dev ->
  CONFIG_NET_ICMPv6_NEIGHBOR cfg && (env_neighbor env <? 0) = false ->
  env_alloc env = true ->
  let w1 := session_reconcile w buf dev in
  let w3 := sendto_registered cfg
              (set_pstate w1 (initial_state w1 psock buf len to)) buf dev in
  let res := icmpv6_sendto cfg env w psock buf len flags to tolen in
  (fst res < 0
   /\ (fst res = - ETIMEDOUT ->
       CONFIG_NET_SOCKOPTS cfg = true /\ s_sndtimeo psock <> 0)
   /\ dev_kept (w_dev w) (w_dev (snd res))
   /\ w_stats (snd res) = w_stats w)
  \/ (fst res = len
      /\ d_buf (w_dev (snd res)) = d_buf (w_dev (sendto_request cfg w3))
      /\ d_len (w_dev (snd res)) = to_u16 (IPv6_HDRLEN + to_u16 len)
      /\ d_flags (w_dev (snd res)) = IFF_SET_IPv6 cfg (d_flags (w_dev w))
      /\ d_llhdrlen (w_dev (snd res)) = d_llhdrlen (w_dev w)
      /\ w_stats (snd res) = count_sent cfg (w_stats w)).
Proof.
  intros Hval Hroute Hnb Halloc w1 w3 res. subst res.
  unfold icmpv6_sendto. rewrite Hval, Hroute. fold w1. rewrite Hnb, Halloc.
  cbv zeta. fold w3.
  destruct (sendto_registered_frame w psock buf len to dev)
    as (Hd3 & Hs3 & Hp3).
  fold w1 in Hd3, Hs3, Hp3. fold w3 in Hd3, Hs3, Hp3.
  destruct (wait_frame w3 (env_polls env)) as (Hdf & Hsf & Hrf).
  set (wf := icmpv6_callback_free (net_lockedwait cfg w3 (env_polls env)))
    in *.
  assert (Hst : snd_sock (w_pstate w3) = Some psock
                /\ snd_buflen (w_pstate w3) = to_u16 len
                /\ snd_result (w_pstate w3) = - EINTR).
  { rewrite Hp3. repeat split. }
  destruct Hst as (Hsock & Hlen & Hres).
  destruct (poll_cycles_phase cfg (env_polls env) w3)
    as [Hp Hd Hs | r Hp Hr Hd Hs | Hp Hb Hn Hf Hl Hs].
  - left. rewrite Hrf, Hp, Hres.
    change ((- EINTR) <? 0) with true. cbv iota.
    destruct (errout_frame wf (- EINTR)) as (E1 & E2 & E3).
    rewrite E1, E2, E3, Hdf, Hsf, Hs, Hs3, <- Hd3.
    split; [reflexivity|]. split; [discriminate|]. split; [exact Hd|].
    reflexivity.
  - left. rewrite Hrf, Hp.
    change (snd_result (resolved_state (w_pstate w3) r)) with r.
    assert (Hneg : (r <? 0) = true).
    { destruct Hr as [-> | [-> _]]; reflexivity. }
    rewrite Hneg.
    destruct (errout_frame wf r) as (E1 & E2 & E3).
    rewrite E1, E2, E3, Hdf, Hsf, Hs, Hs3, <- Hd3.
    split; [apply Z.ltb_lt; exact Hneg|]. split; [|split; [exact Hd|]].
    + intros ->. destruct Hr as [E | (_ & Hopt & ps & Hps & Hnz)];
        [discriminate E|].
      rewrite Hsock in Hps. injection Hps as <-. auto.
    + reflexivity.
  - right. rewrite Hrf, Hp.
    change (snd_result (resolved_state (w_pstate w3) OKK) <? 0) with false. cbv iota. cbn [fst snd].
    rewrite Hdf, Hsf, Hb, Hn, Hf, Hl, Hs, Hlen, Hd3, Hs3. auto 7.
Qed.

(** The paths through [icmpv6_sendto]. *)
Lemma icmpv6_sendto_paths (env : environment) (w : world) (psock : socket)
    (buf : list Z) (len flags : Z) (to : list Z) (tolen : Z) :
  let res := icmpv6_sendto cfg env w psock buf len flags to tolen in
  let refused :=
    (len <? ICMPv6_HDRLEN cfg) || (tolen <? SIZEOF_SOCKADDR_IN6 cfg) in
  let no_neighbor :=
    CONFIG_NET_ICMPv6_NEIGHBOR cfg && (env_neighbor env <? 0) in
  (refused = true /\ res = (- EINVAL, w))
  \/ (refused = false /\ env_route env = None
      /\ res = errout w (- ENETUNREACH))
  \/ (exists dev,
        refused = false /\ env_route env = Some dev /\ no_neighbor = true
        /\ res = errout (session_reconcile w buf dev) (- ENETUNREACH))
  \/ (exists dev,
        refused = false /\ env_route env = Some dev /\ no_neighbor = false
        /\ env_alloc env = false
        /\ res = errout
                   (set_pstate (session_reconcile w buf dev)
                      (initial_state (session_reconcile w buf dev) psock
                                     buf len to))
                   (- ENOMEM))
  \/ (exists dev,
        refused = false /\ env_route env = Some dev /\ no_neighbor = false
        /\ env_alloc env = true).
Proof.
  cbv zeta. unfold icmpv6_sendto.
  destruct ((len <? ICMPv6_HDRLEN cfg) || (tolen <? SIZEOF_SOCKADDR_IN6 cfg));
    [now left | right].
  destruct (env_route env) as [dev|]; [right | now left].
  destruct (CONFIG_NET_ICMPv6_NEIGHBOR cfg && (env_neighbor env <? 0));
    [left; exists dev; auto | right].
  destruct (env_alloc env); [right; exists dev; auto | left].
  exists dev. repeat split.
Qed.


End Call_properties.

(** What the handler leaves alone. *)
Lemma handler_frame (cfg : netconfig) (w : world) (p : pstate_ptr)
    (flags : Z) :
  let res := sendto_eventhandler cfg w p flags in
  fst res = flags
  /\ w_conn (snd res) = w_conn w
  /\ w_clock (snd res) = w_clock w
  /\ ((p = None \/ Z.land flags (NETDEV_DOWN cfg) <> 0
       \/ 0 < d_sndlen (w_dev w)
       \/ Z.land flags (ICMPv6_NEWDATA cfg) <> 0) ->
      w_dev (snd res) = w_dev w /\ w_stats (snd res) = w_stats w)
  /\ (p <> None -> Z.land flags (NETDEV_DOWN cfg) <> 0 ->
      snd_result (w_pstate (snd res)) = - ENETUNREACH).
Proof.
  cbv zeta. unfold sendto_eventhandler.
  destruct p as [[]|].
  2:{ repeat split; intros; congruence. }
  destruct (Z.eqb_spec (Z.land flags (NETDEV_DOWN cfg)) 0) as [Hup|Hdown];
    cbn [negb].
  2:{ repeat split. }
  destruct (Z.leb_spec (d_sndlen (w_dev w)) 0) as [Hfree|Hbusy]; cbn [andb].
  - destruct (Z.eqb_spec (Z.land flags (ICMPv6_NEWDATA cfg)) 0)
      as [Hnone|Hnew].
    + destruct (sendto_request_frame cfg w) as (_ & _ & Hn & Hk).
      rewrite end_wait_world. cbn [fst snd w_conn w_clock].
      split; [reflexivity|]. split; [exact Hn|]. split; [exact Hk|].
      split; [|intros _ H; contradiction].
      intros [H | [H | [H | H]]]; [discriminate | contradiction | lia
                                  | contradiction].
    + destruct (CONFIG_NET_SOCKOPTS cfg
                && sendto_timeout (w_clock w) (w_pstate w));
        repeat split; intros; contradiction.
  - destruct (CONFIG_NET_SOCKOPTS cfg
              && sendto_timeout (w_clock w) (w_pstate w));
      repeat split; intros; contradiction.
Qed.

(** X1: [sendto_eventhandler] always returns the flags it was given and
    never touches the session or the clock.  It writes the device and the
    statistics only to build the packet: with a NULL state, with the
    interface down, with a pending send on the device or with incoming
    data flagged, device and statistics stay as they are.  The down flag
    comes first: it resolves the call with -ENETUNREACH even when the
    buffer is free. *)
Theorem eventhandler_frame (cfg : netconfig) (w : world) (p : pstate_ptr)
    (flags : Z) :
  let res := sendto_eventhandler cfg w p flags in
  fst res = flags
  /\ w_conn (snd res) = w_conn w
  /\ w_clock (snd res) = w_clock w
  /\ ((p = None \/ Z.land flags (NETDEV_DOWN cfg) <> 0
       \/ 0 < d_sndlen (w_dev w)
       \/ Z.land flags (ICMPv6_NEWDATA cfg) <> 0) ->
      w_dev (snd res) = w_dev w /\ w_stats (snd res) = w_stats w)
  /\ (p <> None -> Z.land flags (NETDEV_DOWN cfg) <> 0 ->
      snd_result (w_pstate (snd res)) = - ENETUNREACH).
Proof. apply handler_frame. Qed.

Lemma eventhandler_frame_witness :
  w_dev (snd (sendto_eventhandler sample_cfg (sample_world addr_fe80_2 0)
                (Some tt) 0x2000))
  = w_dev (sample_world addr_fe80_2 0).
Proof.
  refine (proj1 (proj1 (proj2 (proj2 (proj2
            (eventhandler_frame sample_cfg (sample_world addr_fe80_2 0)
               (Some tt) 0x2000)))) _)).
  right; left. discriminate.
Defined.

(** X2: [sendto_request] writes the transmit buffer from the start of the
    IPv6 header to the end of the payload, and the two bytes of the
    checksum field, which lie behind the payload of a request shorter
    than four bytes.  Every byte of the buffer before the IPv6 header,
    the link header included, and every byte behind is left as it was;
    so are the link header length, the addresses and the netmask of the
    device. *)
Theorem sendto_request_buffer_frame (cfg : netconfig) (w : world) (i : Z) :
  let dev := w_dev w in
  let dev' := w_dev (sendto_request cfg w) in
  let ip := d_llhdrlen dev in
  (i < ip \/ ip + IPv6_HDRLEN + Z.max (snd_buflen (w_pstate w)) 4 <= i ->
   d_buf dev' i = d_buf dev i)
  /\ d_llhdrlen dev' = d_llhdrlen dev
  /\ d_ipv6addr dev' = d_ipv6addr dev
  /\ d_ipv6netmask dev' = d_ipv6netmask dev.
Proof.
  cbv zeta.
  destruct (sendto_request_dev cfg w) as (Hl & _ & _ & Hb).
  split; [|split; [exact Hl|]].
  - intros Hi. rewrite Hb. unfold chksum_off, IPv6_HDRLEN in *.
    rewrite poke16_other by lia.
    rewrite request_packet_buf. buf_tests; reflexivity.
  - unfold sendto_request, request_checksum. cbv zeta.
    destruct (CONFIG_NET_STATISTICS cfg); cbn [w_dev set_stats set_dev];
      match goal with |- context [if ?c then _ else _] => destruct c end;
      split; reflexivity.
Qed.

Lemma sendto_request_buffer_frame_witness :
  d_buf (w_dev (sendto_request sample_cfg (sample_world addr_fe80_2 0))) 13
  = d_buf (w_dev (sample_world addr_fe80_2 0)) 13.
Proof.
  apply (sendto_request_buffer_frame sample_cfg
           (sample_world addr_fe80_2 0) 13).
  left. cbn. lia.
Defined.



(** X4: [icmpv6_sendto] notifies the driver ([netdev_txnotify_dev])
    exactly once in a call that passes the checks, finds a device and a
    neighbor and gets its callback, and not at all in any other call. *)
Theorem sendto_txnotify_once (cfg : netconfig) (env : environment)
    (w : world) (psock : socket) (buf : list Z) (len flags : Z)
    (to : list Z) (tolen : Z) :
  let res := icmpv6_sendto cfg env w psock buf len flags to tolen in
  let registered :=
    negb ((len <? ICMPv6_HDRLEN cfg) || (tolen <? SIZEOF_SOCKADDR_IN6 cfg))
    && match env_route env with Some _ => true | None => false end
    && negb (CONFIG_NET_ICMPv6_NEIGHBOR cfg && (env_neighbor env <? 0))
    && env_alloc env in
  count_calls Call_netdev_txnotify_dev (w_calls (snd res))
  = (count_calls Call_netdev_txnotify_dev (w_calls w)
     + (if registered then 1 else 0))%nat.
Proof.
  cbv zeta.
  assert (Hrec : forall dev,
             count_calls Call_netdev_txnotify_dev
               (w_calls (session_reconcile w buf dev))
             = count_calls Call_netdev_txnotify_dev (w_calls w)).
  { intros dev. unfold session_reconcile.
    destruct (session_mismatch buf dev (w_conn w)); [|reflexivity].
    unfold session_reset, iob_free_queue. cbn [log_call w_calls set_conn].
    rewrite count_calls_app. cbn. lia. }
  destruct (icmpv6_sendto_paths cfg env w psock buf len flags to tolen)
    as [(Hv & E) | [(Hv & Hr & E) | [(dev & Hv & Hr & Hn & E)
       | [(dev & Hv & Hr & Hn & Ha & E) | (dev & Hv & Hr & Hn & Ha)]]]].
  - rewrite E, Hv. cbn. lia.
  - rewrite E, Hv, Hr. unfold errout, session_reset, iob_free_queue.
    cbn [snd log_call w_calls set_conn]. rewrite count_calls_app. cbn. lia.
  - rewrite E, Hv, Hr, Hn. unfold errout, session_reset, iob_free_queue.
    cbn [snd log_call w_calls set_conn]. rewrite count_calls_app, Hrec.
    cbn. lia.
  - rewrite E, Hv, Hr, Hn, Ha. unfold errout, session_reset, iob_free_queue.
    cbn [snd log_call w_calls set_conn set_pstate].
    rewrite count_calls_app, Hrec. cbn. lia.
  - rewrite Hv, Hr, Hn, Ha. cbn [negb andb].
    destruct (icmpv6_sendto_waited cfg env w psock buf len flags to tolen
                dev Hv Hr Hn Ha)
      as [(_ & _ & E) | [(r & _ & _ & _ & E) | (_ & _ & E)]]; rewrite E.
    + change [Call_netdev_txnotify_dev; Call_iob_free_queue]
        with ([Call_netdev_txnotify_dev] ++ [Call_iob_free_queue]).
      rewrite app_assoc, !count_calls_app, Hrec. cbn. lia.
    + change [Call_netdev_txnotify_dev; Call_nxsem_post; Call_iob_free_queue]
        with (([Call_netdev_txnotify_dev] ++ [Call_nxsem_post])
              ++ [Call_iob_free_queue]).
      rewrite !app_assoc, !count_calls_app, Hrec. cbn. lia.
    + change [Call_netdev_txnotify_dev; Call_nxsem_post]
        with ([Call_netdev_txnotify_dev] ++ [Call_nxsem_post]).
      rewrite app_assoc, !count_calls_app, Hrec. cbn. lia.
Qed.

(** What a call that returns the length has done, for the theorems that
    follow. *)
Lemma sendto_success (cfg : netconfig) (env : environment) (w : world)
    (psock : socket) (buf : list Z) (len flags : Z) (to : list Z)
    (tolen : Z) :
  0 <= len ->
  let res := icmpv6_sendto cfg env w psock buf len flags to tolen in
  fst res = len ->
  exists dev,
    env_route env = Some dev
    /\ (forall i,
          d_buf (w_dev (snd res)) i
          = d_buf (w_dev (sendto_request cfg
                            (sendto_registered cfg
                               (set_pstate (session_reconcile w buf dev)
                                  (initial_state
                                     (session_reconcile w buf dev)
                                     psock buf len to))
                               buf dev))) i)
    /\ d_len (w_dev (snd res)) = to_u16 (IPv6_HDRLEN + to_u16 len)
    /\ d_flags (w_dev (snd res)) = IFF_SET_IPv6 cfg (d_flags (w_dev w))
    /\ d_llhdrlen (w_dev (snd res)) = d_llhdrlen (w_dev w)
    /\ w_stats (snd res) = count_sent cfg (w_stats w)
    /\ w_conn (snd res)
       = w_conn (session_record (session_reconcile w buf dev) buf dev)
    /\ w_calls (snd res)
       = w_calls (session_reconcile w buf dev)
         ++ [Call_netdev_txnotify_dev; Call_nxsem_post].
Proof.
  intros Hlen res Hok. subst res.
  destruct (icmpv6_sendto_paths cfg env w psock buf len flags to tolen)
    as [(Hv & E) | [(Hv & Hr & E) | [(dev & Hv & Hr & Hn & E)
       | [(dev & Hv & Hr & Hn & Ha & E) | (dev & Hv & Hr & Hn & Ha)]]]];
    try (exfalso; rewrite E in Hok; cbn [fst errout] in Hok;
         unfold EINVAL, ENETUNREACH, ENOMEM in Hok; lia).
  exists dev. split; [exact Hr|].
  destruct (icmpv6_sendto_transmit cfg env w psock buf len flags to tolen
              dev Hv Hr Hn Ha)
    as [(Hneg & _) | (_ & Hb & Hdl & Hf & Hl & Hs)]; [lia|].
  destruct (icmpv6_sendto_waited cfg env w psock buf len flags to tolen
              dev Hv Hr Hn Ha)
    as [(E & _) | [(r & Hin & E & _) | (_ & Hc & Hcalls)]].
  - exfalso. rewrite E in Hok. unfold EINTR in Hok. lia.
  - exfalso. rewrite E in Hok.
    destruct Hin as [<- | [<- | []]];
      unfold ENETUNREACH, ETIMEDOUT in Hok; lia.
  - split; [intros i; rewrite Hb; reflexivity|]. auto 7.
Qed.



Lemma net_ipv6addr_copy_nth (a : list Z) (k : nat) :
  (k < 16)%nat -> nth k (net_ipv6addr_copy a) 0 = nth k a 0.
Proof.
  intros Hk. unfold net_ipv6addr_copy.
  do 16 (destruct k as [|k]; [reflexivity|]). lia.
Qed.

(** The packet a call that returns the length leaves behind. *)
Lemma sendto_success_packet (cfg : netconfig) (env : environment)
    (w : world) (psock : socket) (buf : list Z) (len flags : Z)
    (to : list Z) (tolen : Z) :
  0 <= len ->
  let res := icmpv6_sendto cfg env w psock buf len flags to tolen in
  fst res = len ->
  let ip := d_llhdrlen (w_dev w) in
  let pkt := d_buf (w_dev (snd res)) in
  let n := to_u16 len in
  peek16 pkt (ip + 4) = n
  /\ pkt (ip + 6) = IP_PROTO_ICMP6
  /\ (forall k, 0 <= k < 16 ->
        pkt (ip + 8 + k) = nth (Z.to_nat k) (d_ipv6addr (w_dev w)) 0)
  /\ (forall k, 0 <= k < 16 -> pkt (ip + 24 + k) = nth (Z.to_nat k) to 0)
  /\ (forall k, 0 <= k < n -> k <> 2 -> k <> 3 ->
        pkt (ip + IPv6_HDRLEN + k) = nth (Z.to_nat k) buf 0)
  /\ peek16 pkt (ip + IPv6_HDRLEN + 2) <> 0
  /\ d_len (w_dev (snd res)) = to_u16 (IPv6_HDRLEN + n)
  /\ w_stats (snd res) = count_sent cfg (w_stats w).
Proof.
  intros Hlen res Hok ip pkt n.
  destruct (sendto_success cfg env w psock buf len flags to tolen Hlen Hok)
    as (dev & _ & Hb & Hdl & _ & _ & Hs & _ & _).
  fold res in Hb, Hdl, Hs. fold pkt in Hb.
  destruct (sendto_registered_frame cfg w psock buf len to dev)
    as (Hd3 & _ & Hp3).
  set (w3 := sendto_registered cfg
               (set_pstate (session_reconcile w buf dev)
                  (initial_state (session_reconcile w buf dev) psock buf
                                 len to)) buf dev) in *.
  destruct (sendto_request_dev cfg w3) as (_ & _ & _ & Hreq).
  rewrite Hd3, Hp3 in Hreq.
  set (st := set_result
               (set_cb (initial_state (session_reconcile w buf dev) psock
                                      buf len to)
                       (Some (registered_cb cfg))) (- EINTR)) in *.
  assert (Hn16 : u16_ok n).
  { subst n. unfold to_u16, u16_ok. apply Z.mod_pos_bound. lia. }
  assert (Hpkt : forall i, i <> ip + 42 -> i <> ip + 43 ->
             pkt i = d_buf (request_packet
                              (request_lengths cfg (w_dev w) st) st) i).
  { intros i H1 H2. rewrite Hb, Hreq. apply poke16_other;
      unfold chksum_off, IPv6_HDRLEN; fold ip; lia. }
  assert (Est : snd_buflen st = n /\ snd_buf st = buf
                /\ snd_toaddr st = net_ipv6addr_copy to) by (repeat split).
  destruct Est as (En & Eb & Et).
  unfold IPv6_HDRLEN in *.
  split; [|split; [|split; [|split; [|split; [|split; [|split]]]]]].
  - unfold peek16. rewrite !Hpkt by lia. rewrite !request_packet_buf.
    fold ip. rewrite En. buf_tests.
    rewrite to_u8_shiftr by exact Hn16. rewrite to_u8_land.
    pose proof (Z.div_mod n 256). lia.
  - rewrite Hpkt by lia. rewrite request_packet_buf. fold ip.
    buf_tests; reflexivity.
  - intros k Hk. rewrite Hpkt by lia. rewrite request_packet_buf. fold ip.
    buf_tests. f_equal. lia.
  - intros k Hk. rewrite Hpkt by lia. rewrite request_packet_buf. fold ip.
    rewrite Et. buf_tests.
    replace (ip + 24 + k - (ip + 24)) with k by lia.
    apply net_ipv6addr_copy_nth. lia.
  - intros k Hk H2 H3. rewrite Hpkt by lia. rewrite request_packet_buf.
    fold ip. rewrite En, Eb. buf_tests. f_equal. lia.
  - unfold peek16. rewrite !Hb, !Hreq.
    replace (ip + 40 + 2) with (chksum_off (w_dev w))
      by (unfold chksum_off, IPv6_HDRLEN; reflexivity).
    fold (peek16 (poke16 (d_buf (request_packet
                                   (request_lengths cfg (w_dev w) st) st))
                         (chksum_off (w_dev w))
                         (request_chksum cfg (w_dev w) st))
                 (chksum_off (w_dev w))).
    rewrite peek16_poke16. unfold request_chksum.
    match goal with |- (if ?c =? 0 then _ else _) <> 0 =>
      destruct (Z.eqb_spec c 0); [discriminate | assumption]
    end.
  - exact Hdl.
  - exact Hs.
Qed.

(** X6: a call of [icmpv6_sendto] that returns the length leaves the
    packet in the transmit buffer of the device: the length field holds
    the length modulo 2^16, the destination is the address of the caller,
    the bytes of the caller follow the IPv6 header (but for the checksum
    field); [d_len] is the IPv6 header length plus that 16-bit length,
    and the packet is counted once in the statistics, if they are
    configured. *)
Theorem successful_call_builds_packet (cfg : netconfig) (env : environment)
    (w : world) (psock : socket) (buf : list Z) (len flags : Z)
    (to : list Z) (tolen : Z) :
  0 <= len ->
  let res := icmpv6_sendto cfg env w psock buf len flags to tolen in
  fst res = len ->
  let ip := d_llhdrlen (w_dev w) in
  let pkt := d_buf (w_dev (snd res)) in
  let n := to_u16 len in
  peek16 pkt (ip + 4) = n
  /\ pkt (ip + 6) = IP_PROTO_ICMP6
  /\ (forall k, 0 <= k < 16 ->
        pkt (ip + 8 + k) = nth (Z.to_nat k) (d_ipv6addr (w_dev w)) 0)
  /\ (forall k, 0 <= k < 16 -> pkt (ip + 24 + k) = nth (Z.to_nat k) to 0)
  /\ (forall k, 0 <= k < n -> k <> 2 -> k <> 3 ->
        pkt (ip + IPv6_HDRLEN + k) = nth (Z.to_nat k) buf 0)
  /\ peek16 pkt (ip + IPv6_HDRLEN + 2) <> 0
  /\ d_len (w_dev (snd res)) = to_u16 (IPv6_HDRLEN + n)
  /\ w_stats (snd res) = count_sent cfg (w_stats w).
Proof. apply sendto_success_packet. Qed.

Lemma successful_call_builds_packet_witness :
  d_len
    (w_dev
       (snd (icmpv6_sendto sample_cfg (sample_env true sample_polls)
               (sample_world [] 0) {| s_sndtimeo := 0 |} sample_echo 8 0
               addr_fe80_2 28)))
  = to_u16 (IPv6_HDRLEN + to_u16 8).
Proof.
  refine (proj1 (proj2 (proj2 (proj2 (proj2 (proj2 (proj2
            (successful_call_builds_packet sample_cfg
               (sample_env true sample_polls) (sample_world [] 0)
               {| s_sndtimeo := 0 |} sample_echo 8 0 addr_fe80_2 28
               _ _)))))))).
  - lia.
  - vm_compute. reflexivity.
Defined.


(** X7: for a length of 65536 or more a call of [icmpv6_sendto] that
    succeeds returns that length, while the packet it built carries only
    the length modulo 2^16: the length field of the IPv6 header and the
    frame length [d_len] of the device are both below the value
    returned. *)
Theorem oversized_length_truncated (cfg : netconfig) (env : environment)
    (w : world) (psock : socket) (buf : list Z) (len flags : Z)
    (to : list Z) (tolen : Z) :
  65536 <= len ->
  let res := icmpv6_sendto cfg env w psock buf len flags to tolen in
  fst res = len ->
  peek16 (d_buf (w_dev (snd res))) (d_llhdrlen (w_dev w) + 4)
  = len mod 65536
  /\ peek16 (d_buf (w_dev (snd res))) (d_llhdrlen (w_dev w) + 4) < fst res
  /\ d_len (w_dev (snd res)) < fst res.
Proof.
  intros Hlen res Hok.
  assert (H0 : 0 <= len) by lia.
  destruct (sendto_success_packet cfg env w psock buf len flags to tolen
              H0 Hok) as (Hf & _ & _ & _ & _ & _ & Hd & _).
  fold res in Hf, Hd. rewrite Hf, Hd, Hok. unfold to_u16.
  pose proof (Z.mod_pos_bound len 65536).
  pose proof (Z.mod_pos_bound (IPv6_HDRLEN + len mod 65536) 65536).
  repeat split; lia.
Qed.

Lemma oversized_length_truncated_witness :
  let res :=
    icmpv6_sendto sample_cfg (sample_env true sample_polls)
      (sample_world [] 0) {| s_sndtimeo := 0 |} sample_long_request 65544 0
      addr_fe80_2 28 in
  fst res = 65544 /\ d_len (w_dev (snd res)) < fst res.
Proof.
  cbv zeta.
  assert (Hok : fst (icmpv6_sendto sample_cfg (sample_env true sample_polls)
                       (sample_world [] 0) {| s_sndtimeo := 0 |}
                       sample_long_request 65544 0 addr_fe80_2 28)
                = 65544) by (vm_compute; reflexivity).
  split; [exact Hok|].
  refine (proj2 (proj2 (oversized_length_truncated sample_cfg
            (sample_env true sample_polls) (sample_world [] 0)
            {| s_sndtimeo := 0 |} sample_long_request 65544 0 addr_fe80_2
            28 _ Hok))).
  lia.
Defined.



(** X9: two echo requests with the same id, sent one after the other
    through the same device, both successfully: the second call does not
    flush the read-ahead queue and leaves the session exactly as the
    first call left it. *)
Theorem repeated_echo_keeps_session (cfg : netconfig)
    (env1 env2 : environment) (w : world) (psock1 psock2 : socket)
    (buf1 buf2 : list Z) (len1 len2 flags1 flags2 : Z) (to1 to2 : list Z)
    (tolen1 tolen2 : Z) (dev : Z) :
  0 <= len1 -> 0 <= len2 ->
  icmpv6_type buf1 = ICMPv6_ECHO_REQUEST ->
  icmpv6_type buf2 = ICMPv6_ECHO_REQUEST ->
  icmpv6_id buf2 = icmpv6_id buf1 ->
  env_route env1 = Some dev ->
  env_route env2 = Some dev ->
  let res1 := icmpv6_sendto cfg env1 w psock1 buf1 len1 flags1 to1 tolen1 in
  let res2 :=
    icmpv6_sendto cfg env2 (snd res1) psock2 buf2 len2 flags2 to2 tolen2 in
  fst res1 = len1 ->
  fst res2 = len2 ->
  w_conn (snd res2) = w_conn (snd res1)
  /\ count_calls Call_iob_free_queue (w_calls (snd res2))
     = count_calls Call_iob_free_queue (w_calls (snd res1)).
Proof.
  intros Hl1 Hl2 Ht1 Ht2 Hid Hr1 Hr2 res1 res2 Hok1 Hok2.
  destruct (sendto_success cfg env1 w psock1 buf1 len1 flags1 to1 tolen1
              Hl1 Hok1) as (d1 & Hd1 & _ & _ & _ & _ & _ & Hc1 & _).
  fold res1 in Hc1. rewrite Hr1 in Hd1. injection Hd1 as <-.
  rewrite session_record_conn, Ht1, Z.eqb_refl in Hc1.
  destruct (sendto_success cfg env2 (snd res1) psock2 buf2 len2 flags2 to2
              tolen2 Hl2 Hok2) as (d2 & Hd2 & _ & _ & _ & _ & _ & Hc2 & Hk2).
  fold res2 in Hc2, Hk2. rewrite Hr2 in Hd2. injection Hd2 as <-.
  assert (E : session_reconcile (snd res1) buf2 dev = snd res1).
  { unfold session_reconcile, session_mismatch. rewrite Hc1.
    cbn [conn_id conn_dev dev_eqb]. rewrite Ht2, Hid, !Z.eqb_refl.
    reflexivity. }
  rewrite E in Hc2, Hk2. split.
  - rewrite Hc2, session_record_conn, Ht2, Z.eqb_refl, Hid, Hc1.
    reflexivity.
  - rewrite Hk2.
    change [Call_netdev_txnotify_dev; Call_nxsem_post]
      with ([Call_netdev_txnotify_dev] ++ [Call_nxsem_post]).
    rewrite app_assoc, !count_calls_app. cbn. lia.
Qed.

Lemma repeated_echo_keeps_session_witness :
  let res1 :=
    icmpv6_sendto sample_cfg (sample_env true sample_polls)
      (sample_world [] 0) {| s_sndtimeo := 0 |} [128; 0; 0; 0; 0; 9; 0; 1]
      8 0 addr_fe80_2 28 in
  let res2 :=
    icmpv6_sendto sample_cfg (sample_env true sample_polls) (snd res1)
      {| s_sndtimeo := 0 |} [128; 0; 0; 0; 0; 9; 0; 2] 8 0 addr_fe80_2 28 in
  w_conn (snd res2) = w_conn (snd res1).
Proof.
  cbv zeta.
  refine (proj1 (repeated_echo_keeps_session sample_cfg
            (sample_env true sample_polls) (sample_env true sample_polls)
            (sample_world [] 0) {| s_sndtimeo := 0 |} {| s_sndtimeo := 0 |}
            [128; 0; 0; 0; 0; 9; 0; 1] [128; 0; 0; 0; 0; 9; 0; 2]
            8 8 0 0 addr_fe80_2 addr_fe80_2 28 28 7
            _ _ eq_refl eq_refl eq_refl eq_refl eq_refl _ _)).
  - lia.
  - lia.
  - vm_compute. reflexivity.
  - vm_compute. reflexivity.
Defined.

(** X10: a packet built by the handler claims the transmit buffer.  When
    the handler builds a request of 1 to 65535 bytes on a device without
    a pending send, the pending-send length of the device becomes the
    length of the request; and whatever request is polled next on that
    device, with whatever flags, the handler leaves the device and the
    packet in it untouched. *)
Theorem built_packet_claims_buffer (cfg : netconfig) (w : world)
    (flags : Z) :
  0 < snd_buflen (w_pstate w) < 65536 ->
  d_sndlen (w_dev w) = 0 ->
  Z.land flags (NETDEV_DOWN cfg) = 0 ->
  Z.land flags (ICMPv6_NEWDATA cfg) = 0 ->
  let w' := snd (sendto_eventhandler cfg w (Some tt) flags) in
  snd_result (w_pstate w') = OKK
  /\ d_sndlen (w_dev w') = snd_buflen (w_pstate w)
  /\ forall other p2 flags2,
       w_dev (snd (sendto_eventhandler cfg (set_pstate w' other) p2 flags2))
       = w_dev w'.
Proof.
  intros Hn Hfree Hup Hnew w'.
  assert (E : sendto_eventhandler cfg w (Some tt) flags
              = end_wait (with_result (sendto_request cfg w) OKK) flags).
  { unfold sendto_eventhandler. rewrite Hup, Hnew, Hfree. reflexivity. }
  assert (Hs : d_sndlen (w_dev w') = snd_buflen (w_pstate w)).
  { subst w'. rewrite E.
    destruct (sendto_request_dev cfg w) as (_ & _ & Hs & _).
    cbn [end_wait snd]. unfold nxsem_post, clear_callback, with_result.
    cbn [log_call set_pstate w_dev]. rewrite Hs, Hfree. unfold to_u16.
    apply Z.mod_small. lia. }
  split; [subst w'; rewrite E; reflexivity|]. split; [exact Hs|].
  intros other p2 flags2.
  apply (handler_frame cfg (set_pstate w' other) p2 flags2).
  right; right; left. cbn [set_pstate w_dev]. rewrite Hs. lia.
Qed.

Lemma built_packet_claims_buffer_witness :
  d_sndlen
    (w_dev (snd (sendto_eventhandler sample_cfg (sample_world addr_fe80_2 0)
                   (Some tt) 0x1000)))
  = 8.
Proof.
  refine (proj1 (proj2 (built_packet_claims_buffer sample_cfg
            (sample_world addr_fe80_2 0) 0x1000 _ eq_refl eq_refl
            eq_refl))).
  cbn. lia.
Defined.

(** * sched/environ/env_foreach.c *)

Lemma strlen_string (e rest : list Z) :
  is_string e -> strlen (e ++ 0 :: rest) = length e.
Proof.
  induction 1 as [|c e Hc _ IH]; cbn; [reflexivity|].
  destruct (Z.eqb_spec c 0); [contradiction|]. rewrite IH. reflexivity.
Qed.

Lemma string_at_entry (e rest : list Z) :
  is_string e -> string_at (e ++ 0 :: rest) = e.
Proof.
  intros H. unfold string_at. rewrite strlen_string by exact H.
  rewrite firstn_app, Nat.sub_diag, firstn_all. cbn. apply app_nil_r.
Qed.

Lemma skip_entry (e rest : list Z) :
  is_string e -> skipn (strlen (e ++ 0 :: rest) + 1) (e ++ 0 :: rest) = rest.
Proof.
  intros H. rewrite strlen_string by exact H.
  rewrite skipn_app.
  replace (length e + 1 - length e)%nat with 1%nat by lia.
  rewrite skipn_all2 by lia. reflexivity.
Qed.

Lemma env_foreach_loop_visit {A : Type} (cb : A -> list Z -> Z * A)
    (mem junk : list Z) (size : nat) (entries : list (list Z)) :
  forall fuel ptr arg ret,
  Forall is_string entries ->
  skipn ptr mem = env_bytes entries ++ junk ->
  (ptr + length (env_bytes entries) = size)%nat ->
  (length (env_bytes entries) <= fuel)%nat ->
  env_foreach_loop fuel cb arg mem size ptr ret
  = Some (match entries with
          | [] => (ret, arg)
          | _ :: _ => visit cb arg entries
          end).
Proof.
  induction entries as [|e rest IH]; intros fuel ptr arg ret Hs Hmem Hsz Hfuel.
  - cbn [env_bytes map concat length] in Hsz.
    assert (E : (ptr <? size)%nat = false) by (apply Nat.ltb_ge; lia).
    destruct fuel; cbn [env_foreach_loop]; rewrite E; reflexivity.
  - inversion Hs as [|? ? He Hrest]; subst.
    change (env_bytes (e :: rest)) with ((e ++ [0]) ++ env_bytes rest) in *.
    rewrite <- !app_assoc in Hmem. cbn [app] in Hmem.
    rewrite !length_app in *. cbn [length] in *.
    destruct fuel as [|fuel]; [lia|].
    assert (E : (ptr <? ptr + (length e + 1 + length (env_bytes rest)))%nat
                = true) by (apply Nat.ltb_lt; lia).
    cbn [env_foreach_loop visit]. rewrite E, Hmem.
    rewrite string_at_entry by exact He.
    destruct (cb arg e) as [ret' arg'].
    destruct (negb (ret' =? 0)) eqn:Hret; [reflexivity|].
    rewrite strlen_string by exact He.
    rewrite (IH fuel (ptr + (length e + 1))%nat arg' ret').
    + destruct rest; [|reflexivity].
      apply negb_false_iff, Z.eqb_eq in Hret. subst. reflexivity.
    + exact Hrest.
    + rewrite Nat.add_comm, <- skipn_skipn, Hmem.
      rewrite <- (strlen_string e (env_bytes rest ++ junk)) by exact He.
      apply skip_entry. exact He.
    + lia.
    + lia.
Qed.

(** The whole loop on a well-formed environment. *)
Lemma env_foreach_loop_visit_all {A : Type} (cb : A -> list Z -> Z * A)
    (arg : A) (entries : list (list Z)) (junk : list Z) :
  Forall is_string entries ->
  env_foreach {| tg_envsize := length (env_bytes entries);
                 tg_envp := env_bytes entries ++ junk |} cb arg
  = Some (visit cb arg entries).
Proof.
  intros Hs. unfold env_foreach. cbn [tg_envp tg_envsize].
  rewrite (env_foreach_loop_visit cb _ junk _ entries)
    by (try assumption; try reflexivity; lia).
  destruct entries; reflexivity.
Qed.

(** X11: on an environment whose [tg_envsize] bytes hold the strings
    [entries], [env_foreach] terminates and does what visiting the
    strings one by one does: it calls the callback on each string in
    order, threading the argument through, stops at the first call that
    returns a value other than zero and returns that value, and returns
    zero when no call did, without any call when the environment is
    empty.  What lies in memory behind the environment is not read. *)
Theorem env_foreach_visits_entries {A : Type} (cb : A -> list Z -> Z * A)
    (arg : A) (entries : list (list Z)) (junk : list Z) :
  Forall is_string entries ->
  env_foreach {| tg_envsize := length (env_bytes entries);
                 tg_envp := env_bytes entries ++ junk |} cb arg
  = Some (visit cb arg entries).
Proof. apply env_foreach_loop_visit_all. Qed.

Lemma env_foreach_visits_entries_witness :
  env_foreach
    {| tg_envsize := 12;
       tg_envp := env_bytes [[80; 61; 49]; [72; 61; 50]; [88; 61; 51]]
                  ++ [7; 7] |}
    (sample_env_cb [72]) []
  = Some (1, [[80; 61; 49]; [72; 61; 50]]).
Proof.
  refine (eq_trans
            (env_foreach_visits_entries (sample_env_cb [72]) []
               [[80; 61; 49]; [72; 61; 50]; [88; 61; 51]] [7; 7] _) _).
  - repeat constructor; discriminate.
  - reflexivity.
Defined.

Lemma visit_log (f : list Z -> Z) (entries : list (list Z)) :
  forall seen0,
  let res := visit (log_cb f) seen0 entries in
  (fst res = 0 /\ snd res = seen0 ++ entries
   /\ Forall (fun e => f e = 0) entries)
  \/ (exists pre e post,
        entries = pre ++ e :: post
        /\ Forall (fun e' => f e' = 0) pre
        /\ f e <> 0 /\ fst res = f e
        /\ snd res = seen0 ++ pre ++ [e]).
Proof.
  induction entries as [|e rest IH]; intros seen0; cbn [visit log_cb].
  - left. cbn. rewrite app_nil_r. auto.
  - destruct (Z.eqb_spec (f e) 0) as [E|E]; cbn [negb].
    + destruct (IH (seen0 ++ [e])) as [(H1 & H2 & H3)
        | (pre & e' & post & H1 & H2 & H3 & H4 & H5)].
      * left. rewrite H1, H2, <- app_assoc. auto.
      * right. exists (e :: pre), e', post. subst rest.
        rewrite H4, H5, <- app_assoc. cbn. auto 6.
    + right. exists [], e, rest. cbn. auto 6.
Qed.

(** X12: [env_foreach] stops early.  With a callback that records the
    strings it is shown, on an environment that holds [entries]: either
    every string was shown, each call returned zero and so does
    [env_foreach]; or the strings shown are those up to the first one on
    which the callback returns a value other than zero, that value is
    what [env_foreach] returns, and no later string is shown. *)
Theorem env_foreach_stops_early (f : list Z -> Z)
    (entries : list (list Z)) (junk : list Z) :
  Forall is_string entries ->
  exists ret seen,
    env_foreach {| tg_envsize := length (env_bytes entries);
                   tg_envp := env_bytes entries ++ junk |} (log_cb f) []
    = Some (ret, seen)
    /\ ((ret = 0 /\ seen = entries /\ Forall (fun e => f e = 0) entries)
        \/ (exists pre e post,
              entries = pre ++ e :: post
              /\ Forall (fun e' => f e' = 0) pre
              /\ f e <> 0 /\ ret = f e /\ seen = pre ++ [e])).
Proof.
  intros Hs.
  exists (fst (visit (log_cb f) [] entries)),
         (snd (visit (log_cb f) [] entries)).
  split.
  - rewrite (env_foreach_loop_visit_all (log_cb f) [] entries junk Hs).
    destruct (visit (log_cb f) [] entries); reflexivity.
  - exact (visit_log f entries []).
Qed.

Lemma env_foreach_stops_early_witness :
  exists ret seen,
    env_foreach
      {| tg_envsize := 8;
         tg_envp := env_bytes [[80; 61; 49]; [72; 61; 50]] ++ [7] |}
      (log_cb (fun e => nth 0 e 0 - 80)) []
    = Some (ret, seen)
    /\ ((ret = 0 /\ seen = [[80; 61; 49]; [72; 61; 50]]
         /\ Forall (fun e => nth 0 e 0 - 80 = 0)
                   [[80; 61; 49]; [72; 61; 50]])
        \/ (exists pre e post,
              [[80; 61; 49]; [72; 61; 50]] = pre ++ e :: post
              /\ Forall (fun e' => nth 0 e' 0 - 80 = 0) pre
              /\ nth 0 e 0 - 80 <> 0 /\ ret = nth 0 e 0 - 80
              /\ seen = pre ++ [e])).
Proof.
  apply (env_foreach_stops_early (fun e => nth 0 e 0 - 80)
           [[80; 61; 49]; [72; 61; 50]] [7]).
  repeat constructor; discriminate.
Defined.

(** * Properties of the EEPROM driver *)

Section Eeprom_properties.

Variable ecfg : eeconfig.

Lemma with_sem_give_take (e : ee24xx_dev_s) :
  ee24xx_semgive (ee24xx_semtake e) = e.
Proof.
  destruct e. unfold ee24xx_semgive, ee24xx_semtake, with_sem. cbn.
  f_equal. lia.
Qed.

Lemma logged_nil (e : ee24xx_dev_s) : logged e e [].
Proof.
  unfold logged, with_i2c. destruct e as [[r d l] ? ? ? ? ? ? ? ? ? ?]. cbn.
  now rewrite app_nil_r.
Qed.

Lemma logged_trans (e1 e2 e3 : ee24xx_dev_s) l1 l2 :
  logged e1 e2 l1 -> logged e2 e3 l2 -> logged e1 e3 (l1 ++ l2).
Proof.
  unfold logged. intros -> ->. unfold with_i2c. cbn.
  now rewrite app_assoc.
Qed.

End Eeprom_properties.

Section Eeprom_file_properties.

Variable ecfg : eeconfig.

Lemma geometry_okb_sound (e : ee24xx_dev_s) :
  geometry_okb e = true -> geometry_ok e.
Proof.
  unfold geometry_okb, geometry_ok. intros H.
  repeat (apply andb_prop in H; destruct H as [H ?]).
  repeat match goal with
         | H : (_ =? _) = true |- _ => apply Z.eqb_eq in H
         | H : (_ <? _) = true |- _ => apply Z.ltb_lt in H
         | H : (_ <=? _) = true |- _ => apply Z.leb_le in H
         | H : (_ || _) = true |- _ => apply orb_prop in H
         end.
  split; [| split; [| split; [| split]]].
  - exists (Z.log2 (ee_pgsize e)). split; [apply Z.log2_nonneg | congruence].
  - apply Z.mod_divide; [lia | assumption].
  - destruct H4 as [E | E]; apply Z.eqb_eq in E; auto.
  - lia.
  - lia.
Qed.

(** Every row of the table gives a sound geometry, also with the sizes
    of the 16-byte part. *)
Lemma table_geometry (bus : i2c_master_s) (devaddr readonly : Z)
    (g : ee24xx_geom_s) :
  In g g_ee24xx_devices ->
  geometry_okb (expanded ecfg bus devaddr readonly g) = true
  /\ (geo_special g <> 0 -> geo_addrlen g = 1 /\ geo_abits g = 0
      \/ geo_addrlen g = 2 /\ geo_abits g = 1).
Proof.
  intros Hin. unfold g_ee24xx_devices in Hin. cbn [In] in Hin.
  repeat (destruct Hin as [<- | Hin];
          [ split; [ reflexivity
                   | cbn; intros H; first [ now elim H | auto ] ] | ]).
  contradiction.
Qed.

Lemma nth_table (devtype : Z) :
  0 <= devtype < Z.of_nat (length g_ee24xx_devices) ->
  In (nth (Z.to_nat devtype) g_ee24xx_devices (geom 0 0 0 0 0))
     g_ee24xx_devices.
Proof. intros H. apply nth_In. lia. Qed.

(** X13: [ee24xx_initialize] hands [register_driver] only devices with
    a sound geometry: the page size is a power of two that divides the
    device size, the data address has one or two bytes, and every byte of
    the device has an address within those bytes and the high address
    bits.  The device starts with a free semaphore and no reference, on
    the bus and at the address given.  A device type outside the table
    returns -EINVAL and registers nothing. *)
Theorem initialize_geometry (env : init_env) (bus : i2c_master_s)
    (devaddr : Z) (devname : list Z) (devtype readonly : Z) :
  let res := ee24xx_initialize ecfg env bus devaddr devname devtype readonly in
  (forall r, In r (snd res) ->
     geometry_ok (reg_priv r)
     /\ ee_sem (reg_priv r) = 1 /\ ee_refs (reg_priv r) = 0
     /\ ee_i2c (reg_priv r) = bus /\ ee_addr (reg_priv r) = devaddr
     /\ 0 <= devtype < 17)
  /\ (devtype < 0 \/ 17 <= devtype -> res = (- EINVAL, [])).
Proof.
  cbv zeta. unfold ee24xx_initialize.
  change (Z.of_nat (length g_ee24xx_devices)) with 17.
  destruct (Z.ltb_spec devtype 0) as [Hlo | Hlo]; cbn [orb].
  { split; [intros r [] | reflexivity]. }
  destruct (devtype >=? 17) eqn:Hhi.
  { split; [intros r [] | reflexivity]. }
  assert (Hr : 0 <= devtype < 17) by lia.
  split; [| lia].
  destruct (alloc_eedev env); cbn [negb]; [| intros r []].
  pose proof (nth_table devtype Hr) as Hin.
  set (g := nth (Z.to_nat devtype) g_ee24xx_devices (geom 0 0 0 0 0)) in *.
  destruct (table_geometry bus devaddr readonly g Hin) as [Hok Hsp].
  assert (Hsmall : geometry_ok
    {| ee_i2c := bus; ee_freq := CONFIG_EE24XX_FREQUENCY ecfg;
       ee_addr := devaddr; ee_sem := 1; ee_refs := 0;
       ee_readonly := negb (readonly =? 0); ee_size := 16; ee_pgsize := 1;
       ee_addrlen := geo_addrlen g; ee_haddrbits := geo_abits g;
       ee_haddrshift := 0 |}).
  { destruct (Z.eq_dec (geo_special g) 0) as [E | E].
    - apply geometry_okb_sound in Hok.
      destruct Hok as (_ & _ & Hal & Hab & Hsz).
      unfold geometry_ok;
        cbn [ee_pgsize ee_size ee_addrlen ee_haddrbits expanded] in *.
      split; [exists 0; split; [lia | reflexivity] |].
      split; [apply Z.divide_1_l |].
      split; [assumption |]. split; [assumption |].
      split; [lia |].
      apply Z.le_trans with (2 ^ 8); [apply Z.leb_le; reflexivity |].
      apply Z.pow_le_mono_r; lia.
    - apply geometry_okb_sound.
      destruct (Hsp E) as [[-> ->] | [-> ->]]; reflexivity. }
  apply geometry_okb_sound in Hok. fold (expanded ecfg bus devaddr readonly g).
  assert (Hall : forall e,
            e = expanded ecfg bus devaddr readonly g
            \/ e = {| ee_i2c := bus; ee_freq := CONFIG_EE24XX_FREQUENCY ecfg;
                      ee_addr := devaddr; ee_sem := 1; ee_refs := 0;
                      ee_readonly := negb (readonly =? 0); ee_size := 16;
                      ee_pgsize := 1; ee_addrlen := geo_addrlen g;
                      ee_haddrbits := geo_abits g; ee_haddrshift := 0 |} ->
            geometry_ok e /\ ee_sem e = 1 /\ ee_refs e = 0
            /\ ee_i2c e = bus /\ ee_addr e = devaddr /\ 0 <= devtype < 17).
  { intros e [-> | ->]; cbn; auto 8. }
  assert (Hregs : forall e r,
            In r (snd (register_drivers ecfg env devname e)) ->
            reg_priv r = e).
  { intros e r. unfold register_drivers.
    destruct (CONFIG_AT24CS_UUID ecfg);
      [destruct (alloc_uuidname env); cbn [negb];
       [destruct (OKK =? register_uuid env); cbn [negb] |] |];
      cbn; intros H; repeat (destruct H as [<- | H]; [reflexivity |]);
      contradiction. }
  destruct (negb (geo_special g =? 0)).
  - destruct (devtype =? EEPROM_24xx00 ecfg).
    + intros r Hin'. apply Hall. right.
      apply (Hregs _ r Hin').
    + destruct (devtype =? EEPROM_24xx1025 ecfg); [intros r [] |].
      intros r Hin'. apply Hall. left.
      apply (Hregs _ r Hin').
  - intros r Hin'. apply Hall. left.
    apply (Hregs _ r Hin').
Qed.




(** X15: [ee24xx_open] never fails.  The test for too many references
    adds one to the count before comparing with zero, so it does not
    hold for any count of 0..255: the call returns OK, the count goes up
    by one modulo 256, and from 255 it wraps to 0, after which
    [ee24xx_close] fails with -EIO although the device is open. *)
Theorem open_never_fails (filep : file) :
  0 <= ee_refs (f_inode filep) <= 255 ->
  let res := ee24xx_open filep in
  fst res = OKK
  /\ snd res
     = with_inode filep
         (with_refs (f_inode filep)
            ((ee_refs (f_inode filep) + 1) mod 256))
  /\ (ee_refs (f_inode filep) = 255 ->
      fst (ee24xx_close (snd res)) = - EIO).
Proof.
  intros Hr. cbv zeta. unfold ee24xx_open.
  cbn [ee24xx_semtake with_sem ee_refs].
  destruct (Z.eqb_spec (ee_refs (f_inode filep) + 1) 0) as [E | E]; [lia |].
  cbn [fst snd]. split; [reflexivity |]. split.
  - unfold with_inode, ee24xx_semgive, with_refs, with_sem, to_u8.
    destruct filep as [pos e]; destruct e; cbn. do 2 f_equal. lia.
  - intros E255. unfold ee24xx_close.
    cbn [ee24xx_semtake ee24xx_semgive with_sem with_refs with_inode
         ee_refs f_inode]. rewrite E255. reflexivity.
Qed.


(** X16: a close undoes an open.  For a reference count below 255,
    [ee24xx_open] followed by [ee24xx_close] returns OK and leaves the
    file and the device as they were, semaphore included; a close with no
    reference fails with -EIO and changes nothing. *)
Theorem open_close_round_trip (filep : file) :
  0 <= ee_refs (f_inode filep) ->
  (ee_refs (f_inode filep) < 255 ->
   ee24xx_close (snd (ee24xx_open filep)) = (OKK, filep))
  /\ (ee_refs (f_inode filep) = 0 ->
      ee24xx_close filep = (- EIO, filep)).
Proof.
  intros Hr. split.
  - intros Hlt. unfold ee24xx_open.
    cbn [ee24xx_semtake with_sem ee_refs].
    destruct (Z.eqb_spec (ee_refs (f_inode filep) + 1) 0) as [E | E];
      [lia |].
    cbn [snd]. unfold ee24xx_close.
    cbn [ee24xx_semtake ee24xx_semgive with_sem with_refs with_inode
         ee_refs f_inode].
    unfold to_u8. rewrite (Z.mod_small (ee_refs (f_inode filep) + 1))
      by lia.
    destruct (Z.eqb_spec (ee_refs (f_inode filep) + 1) 0) as [E' | E'];
      [lia |].
    destruct filep as [pos e].
    destruct e as [bus fr ad sm rf ro sz pg al hb hs].
    cbn [ee_refs f_inode] in *.
    unfold with_inode, with_refs, with_sem; cbn.
    rewrite (Z.mod_small (rf + 1 - 1)) by lia.
    unfold ee24xx_semgive, with_sem; cbn.
    repeat f_equal; lia.
  - intros E0. unfold ee24xx_close.
    cbn [ee24xx_semtake with_sem ee_refs]. rewrite E0. cbn [Z.eqb].
    destruct filep as [pos e]; destruct e.
    unfold with_inode, ee24xx_semgive, with_sem; cbn. do 3 f_equal. lia.
Qed.


(** The conversions within their ranges. *)
Lemma to_u32_cases (z : Z) :
  0 <= to_u32 z < 4294967296
  /\ (0 <= z < 4294967296 -> to_u32 z = z)
  /\ (4294967296 <= z < 8589934592 -> to_u32 z = z - 4294967296)
  /\ (- 4294967296 <= z < 0 -> to_u32 z = z + 4294967296).
Proof. unfold to_u32. Z.div_mod_to_equations. lia. Qed.

Lemma to_s32_cases (z : Z) :
  - 2147483648 <= to_s32 z < 2147483648
  /\ (- 2147483648 <= z < 2147483648 -> to_s32 z = z)
  /\ (2147483648 <= z < 4294967296 -> to_s32 z = z - 4294967296)
  /\ to_s32 (to_u32 z) = to_s32 z.
Proof. unfold to_s32, to_u32. Z.div_mod_to_equations. lia. Qed.

(** X17: [ee24xx_seek] either fails with -EINVAL, for a [whence] that is
    none of the three or a new position that is negative as an [off_t],
    and then leaves the position as it was, or returns the new position
    and stores it.  The new position is the sum that the source asks for
    whenever that sum is an [off_t]; a sum from 2^31 up to 2^32 is a
    negative [off_t], so that seek fails.  A seek never leaves a negative
    position, it may leave one beyond the end of the device, and it
    gives back the semaphore on every path. *)
Theorem seek_position (filep : file) (offset whence : Z) :
  0 <= f_pos filep < 2147483648 ->
  - 2147483648 <= offset < 2147483648 ->
  let res := ee24xx_seek ecfg filep offset whence in
  let sum :=
    if whence =? SEEK_CUR ecfg then f_pos filep + offset
    else if whence =? SEEK_SET ecfg then offset
    else ee_size (f_inode filep) + offset in
  let newpos := to_s32 sum in
  let known :=
    whence = SEEK_CUR ecfg \/ whence = SEEK_SET ecfg
    \/ whence = SEEK_END ecfg in
  f_inode (snd res) = f_inode filep
  /\ 0 <= f_pos (snd res) < 2147483648
  /\ (known /\ 0 <= newpos ->
      fst res = newpos /\ f_pos (snd res) = newpos)
  /\ (~ (known /\ 0 <= newpos) ->
      fst res = - EINVAL /\ f_pos (snd res) = f_pos filep)
  /\ (- 2147483648 <= sum < 2147483648 -> newpos = sum)
  /\ (2147483648 <= sum < 4294967296 -> newpos < 0).
Proof.
  intros Hpos Hoff. cbv zeta. unfold ee24xx_seek.
  cbn [ee24xx_semtake with_sem ee_size].
  pose proof (with_sem_give_take (f_inode filep)) as Hsem.
  unfold ee24xx_semtake in Hsem.
  assert (Hset : to_s32 offset = offset)
    by (apply (to_s32_cases offset); lia).
  assert (Hend : to_s32 (to_u32 (ee_size (f_inode filep) + offset))
                 = to_s32 (ee_size (f_inode filep) + offset))
    by apply to_s32_cases.
  rewrite Hend.
  assert (Hidem : forall z, to_s32 (to_s32 z) = to_s32 z).
  { intros z. apply (to_s32_cases (to_s32 z)). apply to_s32_cases. }
  assert (Hrange : forall z, - 2147483648 <= to_s32 z < 2147483648)
    by (intros z; apply to_s32_cases).
  assert (Hlast : forall z,
            (- 2147483648 <= z < 2147483648 -> to_s32 z = z)
            /\ (2147483648 <= z < 4294967296 -> to_s32 z < 0)).
  { intros z. destruct (to_s32_cases z) as (_ & H1 & H2 & _).
    split; [exact H1 | intros H; rewrite (H2 H); lia]. }
  assert (Hgen : forall np (known : Prop),
            - 2147483648 <= np < 2147483648 -> known ->
            let res :=
              if 0 <=? np
              then (to_s32 np,
                    {| f_pos := np;
                       f_inode :=
                         ee24xx_semgive
                           (with_sem (f_inode filep)
                                     (ee_sem (f_inode filep) - 1)) |})
              else (- EINVAL,
                    with_inode filep
                      (ee24xx_semgive
                         (with_sem (f_inode filep)
                                   (ee_sem (f_inode filep) - 1)))) in
            f_inode (snd res) = f_inode filep
            /\ 0 <= f_pos (snd res) < 2147483648
            /\ (known /\ 0 <= np ->
                fst res = np /\ f_pos (snd res) = np)
            /\ (~ (known /\ 0 <= np) ->
                fst res = - EINVAL /\ f_pos (snd res) = f_pos filep)).
  { intros np known Hnp Hk. cbv zeta.
    assert (Hid : to_s32 np = np) by (apply (to_s32_cases np); lia).
    destruct (Z.leb_spec 0 np) as [Hn | Hn];
      cbn [fst snd with_inode f_pos f_inode]; rewrite ?Hid.
    - split; [exact Hsem |]. split; [lia |].
      split; [auto |]. intros Hno. exfalso. apply Hno. auto.
    - split; [exact Hsem |]. split; [lia |].
      split; [intros [_ ?]; lia | auto]. }
  destruct (Z.eqb_spec whence (SEEK_CUR ecfg)) as [Ec | Ec];
    [| destruct (Z.eqb_spec whence (SEEK_SET ecfg)) as [Es | Es];
       [| destruct (Z.eqb_spec whence (SEEK_END ecfg)) as [Ee | Ee]]].
  - destruct (Hgen (to_s32 (f_pos filep + offset))
                (whence = SEEK_CUR ecfg \/ whence = SEEK_SET ecfg
                 \/ whence = SEEK_END ecfg) (Hrange _) (or_introl Ec))
      as (HA & HB & HC & HD).
    exact (conj HA (conj HB (conj HC (conj HD (Hlast _))))).
  - destruct (Hgen offset
                (whence = SEEK_CUR ecfg \/ whence = SEEK_SET ecfg
                 \/ whence = SEEK_END ecfg) Hoff
                (or_intror (or_introl Es)))
      as (HA & HB & HC & HD).
    rewrite Hset in *.
    refine (conj HA (conj HB (conj HC (conj HD _)))).
    split; intros; lia.
  - destruct (Hgen (to_s32 (ee_size (f_inode filep) + offset))
                (whence = SEEK_CUR ecfg \/ whence = SEEK_SET ecfg
                 \/ whence = SEEK_END ecfg) (Hrange _)
                (or_intror (or_intror Ee)))
      as (HA & HB & HC & HD).
    exact (conj HA (conj HB (conj HC (conj HD (Hlast _))))).
  - cbn [fst snd with_inode f_pos f_inode].
    split; [exact Hsem |]. split; [assumption |].
    split; [intros [[?|[?|?]] _]; contradiction |].
    split; [auto |]. apply Hlast.
Qed.


End Eeprom_file_properties.

Lemma initialize_geometry_witness :
  geometry_ok (expanded sample_ecfg sample_bus 80 0 (geom 2 1 1 1 0)).
Proof.
  apply (proj1 (initialize_geometry sample_ecfg sample_init_env sample_bus 80 [101] 3 0)
           {| reg_path := [101]; reg_fops := ee24xx_fops; reg_mode := 438;
              reg_priv := expanded sample_ecfg sample_bus 80 0
                            (geom 2 1 1 1 0) |}).
  right. left. reflexivity.
Defined.


Lemma open_never_fails_witness :
  fst (ee24xx_open (sample_file 0)) = OKK.
Proof.
  apply (open_never_fails (sample_file 0)). cbn. lia.
Defined.

Lemma open_close_round_trip_witness :
  ee24xx_close (snd (ee24xx_open (sample_file 0))) = (OKK, sample_file 0).
Proof.
  apply (proj1 (open_close_round_trip (sample_file 0) ltac:(cbn; lia))).
  cbn. lia.
Defined.

Lemma seek_position_witness :
  f_pos (snd (ee24xx_seek sample_ecfg (sample_file 3) 5 1)) = 8
  /\ fst (ee24xx_seek sample_ecfg (sample_file 3) 2147483647 2) = - EINVAL.
Proof.
  split.
  - destruct (seek_position sample_ecfg (sample_file 3) 5 1)
      as (_ & _ & H & _); [cbn; lia | lia |].
    apply H. split; [auto | vm_compute; discriminate].
  - destruct (seek_position sample_ecfg (sample_file 3) 2147483647 2)
      as (_ & _ & _ & H & _); [cbn; lia | lia |].
    apply H. intros [_ Hn]. vm_compute in Hn. apply Hn. reflexivity.
Defined.

Section Eeprom_transfer_properties.

Variable ecfg : eeconfig.

Lemma give_logged_take (e : ee24xx_dev_s) (bus : i2c_master_s) :
  ee24xx_semgive (with_i2c (ee24xx_semtake e) bus) = with_i2c e bus.
Proof.
  destruct e. unfold ee24xx_semgive, ee24xx_semtake, with_i2c, with_sem.
  cbn. f_equal. lia.
Qed.

(** The page size as a mask. *)
Lemma page_offset (pos pgsize : Z) :
  (exists k, 0 <= k /\ pgsize = 2 ^ k) ->
  Z.land pos (pgsize - 1) = pos mod pgsize /\ 0 < pgsize.
Proof.
  intros (k & Hk & ->). split.
  - rewrite <- Z.land_ones by assumption. now rewrite Z.ones_equiv.
  - apply Z.pow_pos_nonneg; lia.
Qed.

(** ** Reading *)

(** X18: how much [ee24xx_read] asks of the device.  For a position
    within the device and a request whose end fits in a [size_t], the
    request is trimmed to the bytes that remain: when none remain the
    call returns 0 with no transfer at all; otherwise it makes one
    transfer for exactly that many bytes from the position, never beyond
    the end of the device, and either the bus fails, the error is
    returned and the position stays, or the count is returned and the
    position advances by it.  For a request so long that the sum of
    position and length wraps, the trim test does not hold: the transfer
    asks for the whole length, beyond the end of the device.  The
    semaphore is given back. *)
Theorem read_within_device (filep : file) (len : Z) :
  0 <= f_pos filep <= ee_size (f_inode filep) ->
  ee_size (f_inode filep) < 2147483648 ->
  0 <= len < 4294967296 ->
  let e := f_inode filep in
  let n := Z.min len (ee_size e - f_pos filep) in
  let k := length (i2c_log (ee_i2c e)) in
  let res := ee24xx_read ecfg filep len in
  (f_pos filep + len < 4294967296 ->
   (n = 0 -> res = (0, [], filep))
   /\ (0 < n ->
       logged e (f_inode (snd res)) [read_msgs ecfg e (f_pos filep) n]
       /\ f_pos filep + n <= ee_size e
       /\ snd (fst res) = i2c_data (ee_i2c e) k
       /\ (i2c_ret (ee_i2c e) k < 0 ->
           fst (fst res) = i2c_ret (ee_i2c e) k
           /\ f_pos (snd res) = f_pos filep)
       /\ (0 <= i2c_ret (ee_i2c e) k ->
           fst (fst res) = n /\ f_pos (snd res) = f_pos filep + n)))
  /\ (4294967296 <= f_pos filep + len ->
      logged e (f_inode (snd res)) [read_msgs ecfg e (f_pos filep) len]
      /\ ee_size e < f_pos filep + len).
Proof.
  intros Hpos Hsz Hlen. cbv zeta. unfold ee24xx_read.
  cbn [ee24xx_semtake with_sem ee_size ee_i2c].
  assert (Hlog : forall pos' m,
    logged (f_inode filep)
      (f_inode
         {| f_pos := pos';
            f_inode := ee24xx_semgive
              (with_i2c (with_sem (f_inode filep)
                                  (ee_sem (f_inode filep) - 1))
                 {| i2c_ret := i2c_ret (ee_i2c (f_inode filep));
                    i2c_data := i2c_data (ee_i2c (f_inode filep));
                    i2c_log := i2c_log (ee_i2c (f_inode filep))
                               ++ [read_msgs ecfg
                                     (with_sem (f_inode filep)
                                        (ee_sem (f_inode filep) - 1))
                                     (f_pos filep) m] |}) |})
      [read_msgs ecfg (f_inode filep) (f_pos filep) m]).
  { intros pos' m. cbn [f_inode]. unfold logged.
    apply (give_logged_take (f_inode filep)). }
  split.
  - intros Hfit.
    set (n := Z.min len (ee_size (f_inode filep) - f_pos filep)).
    assert (Hn : (if to_u32 (f_pos filep + len) >? ee_size (f_inode filep)
                  then to_u32 (ee_size (f_inode filep) - f_pos filep)
                  else len) = n).
    { rewrite (proj1 (proj2 (to_u32_cases (f_pos filep + len)))) by lia.
      rewrite (proj1 (proj2 (to_u32_cases
                               (ee_size (f_inode filep) - f_pos filep))))
        by lia.
      subst n. destruct (Z.gtb_spec (f_pos filep + len)
                           (ee_size (f_inode filep))); lia. }
    rewrite Hn. split.
    + intros ->. cbn [Z.eqb]. f_equal.
      destruct filep as [pos e]. unfold with_inode. cbn [f_pos f_inode].
      f_equal. apply (with_sem_give_take e).
    + intros Hn0. destruct (Z.eqb_spec n 0) as [E | _]; [lia |].
      assert (Hn1 : n <= ee_size (f_inode filep) - f_pos filep)
        by (subst n; lia).
      assert (Hret : to_s32 n = n) by (apply (to_s32_cases n); lia).
      assert (Hnew : to_s32 (to_u32 (f_pos filep + n)) = f_pos filep + n).
      { rewrite (proj2 (proj2 (proj2 (to_s32_cases (f_pos filep + n))))).
        apply (to_s32_cases (f_pos filep + n)). lia. }
      unfold I2C_TRANSFER.
      destruct (Z.ltb_spec
                  (i2c_ret (ee_i2c (f_inode filep))
                     (length (i2c_log (ee_i2c (f_inode filep))))) 0)
        as [Hr | Hr]; cbn [fst snd with_inode f_pos]; rewrite ?Hret, ?Hnew;
        (split; [apply Hlog |]); (split; [lia |]);
        (split; [reflexivity |]);
        (split; [intros ? | intros ?]); try lia; auto.
  - intros Hwrap.
    rewrite (proj1 (proj2 (proj2 (to_u32_cases (f_pos filep + len)))))
      by lia.
    destruct (Z.gtb_spec (f_pos filep + len - 4294967296)
                (ee_size (f_inode filep))) as [? | _]; [lia |].
    destruct (Z.eqb_spec len 0) as [? | _]; [lia |].
    unfold I2C_TRANSFER.
    destruct (i2c_ret (ee_i2c (f_inode filep))
                (length (i2c_log (ee_i2c (f_inode filep)))) <? 0);
      cbn [snd with_inode]; (split; [apply Hlog | lia]).
Qed.

(** X19: [at24cs_read_uuid] trims a request whose end fits in a
    [size_t] to what is left of the 16 bytes: with nothing left it
    returns 0 and makes no transfer; otherwise it makes the one transfer
    [uuid_msgs], which depends on the position only through the number
    of bytes, and then either fails or returns that number and advances
    the position by it, never beyond 16.  For a request so long that the
    sum of position and length wraps, the transfer asks for the whole
    length. *)
Theorem read_uuid_request (filep : file) (len : Z) :
  0 <= f_pos filep <= UUID_SIZE -> 0 <= len < 4294967296 ->
  let e := f_inode filep in
  let n := Z.min len (UUID_SIZE - f_pos filep) in
  let res := at24cs_read_uuid ecfg filep len in
  (f_pos filep + len < 4294967296 ->
   (n = 0 -> res = (0, [], filep))
   /\ (0 < n ->
       logged e (f_inode (snd res)) [uuid_msgs ecfg e n]
       /\ (fst (fst res) < 0 \/
           fst (fst res) = n /\ f_pos (snd res) = f_pos filep + n
           /\ f_pos (snd res) <= UUID_SIZE)))
  /\ (4294967296 <= f_pos filep + len ->
      logged e (f_inode (snd res)) [uuid_msgs ecfg e len]
      /\ UUID_SIZE < len).
Proof.
  intros Hpos Hlen. cbv zeta. unfold at24cs_read_uuid.
  cbn [ee24xx_semtake with_sem ee_i2c]. unfold UUID_SIZE in *.
  split.
  - intros Hfit.
    set (n := Z.min len (16 - f_pos filep)).
    assert (Hn : (if to_u32 (f_pos filep + len) >? 16
                  then to_u32 (16 - f_pos filep) else len) = n).
    { rewrite (proj1 (proj2 (to_u32_cases (f_pos filep + len)))) by lia.
      rewrite (proj1 (proj2 (to_u32_cases (16 - f_pos filep)))) by lia.
      subst n. destruct (Z.gtb_spec (f_pos filep + len) 16); lia. }
    rewrite Hn. split.
    + intros ->. cbn [Z.eqb]. f_equal.
      destruct filep as [pos e]. unfold with_inode. cbn [f_pos f_inode].
      f_equal. apply (with_sem_give_take e).
    + intros Hn0. destruct (Z.eqb_spec n 0) as [E | _]; [lia |].
      assert (Hn1 : n <= 16 - f_pos filep) by (subst n; lia).
      assert (Hret : to_s32 n = n) by (apply (to_s32_cases n); lia).
      assert (Hnew : to_s32 (to_u32 (f_pos filep + n)) = f_pos filep + n).
      { rewrite (proj2 (proj2 (proj2 (to_s32_cases (f_pos filep + n))))).
        apply (to_s32_cases (f_pos filep + n)). lia. }
      unfold I2C_TRANSFER.
      destruct (Z.ltb_spec
                  (i2c_ret (ee_i2c (f_inode filep))
                     (length (i2c_log (ee_i2c (f_inode filep))))) 0)
        as [Hr | Hr]; cbn [fst snd with_inode f_pos f_inode];
        rewrite ?Hret, ?Hnew;
        (split;
         [unfold logged; apply (give_logged_take (f_inode filep)) |]);
        [left; assumption | right; lia].
  - intros Hwrap.
    rewrite (proj1 (proj2 (proj2 (to_u32_cases (f_pos filep + len)))))
      by lia.
    destruct (Z.gtb_spec (f_pos filep + len - 4294967296) 16) as [? | _];
      [lia |].
    destruct (Z.eqb_spec len 0) as [? | _]; [lia |].
    unfold I2C_TRANSFER.
    destruct (i2c_ret (ee_i2c (f_inode filep))
                (length (i2c_log (ee_i2c (f_inode filep)))) <? 0);
      cbn [snd with_inode f_inode];
      (split; [unfold logged; apply (give_logged_take (f_inode filep))
              | lia]).
Qed.

(** ** ACK polling *)

Lemma ack_poll_S (n : nat) (bus : i2c_master_s) (msgs : list i2c_msg_s) :
  ack_poll (S n) bus msgs
  = if negb (i2c_ret bus (length (i2c_log bus)) =? 0) && (0 <? Z.of_nat n)
    then ack_poll n {| i2c_ret := i2c_ret bus; i2c_data := i2c_data bus;
                       i2c_log := i2c_log bus ++ [msgs] |} msgs
    else (i2c_ret bus (length (i2c_log bus)),
          {| i2c_ret := i2c_ret bus; i2c_data := i2c_data bus;
             i2c_log := i2c_log bus ++ [msgs] |}).
Proof. reflexivity. Qed.

Lemma ack_poll_spec (msgs : list i2c_msg_s) :
  forall (retries : nat) (bus : i2c_master_s),
  let k := length (i2c_log bus) in
  let res := ack_poll retries bus msgs in
  exists m : nat,
    (1 <= m <= Nat.max 1 retries)%nat
    /\ snd res = {| i2c_ret := i2c_ret bus; i2c_data := i2c_data bus;
                    i2c_log := i2c_log bus ++ repeat msgs m |}
    /\ fst res = i2c_ret bus (k + m - 1)%nat
    /\ (forall j, (j < m - 1)%nat -> i2c_ret bus (k + j)%nat <> 0)
    /\ (fst res <> 0 -> m = Nat.max 1 retries).
Proof.
  induction retries as [| n IH]; intros bus; cbv zeta.
  - exists 1%nat. cbn [ack_poll]. unfold I2C_TRANSFER. cbn [fst snd repeat].
    replace (length (i2c_log bus) + 1 - 1)%nat
      with (length (i2c_log bus)) by lia.
    split; [lia |]. split; [reflexivity |]. split; [reflexivity |].
    split; [intros j Hj; lia | reflexivity].
  - rewrite ack_poll_S.
    destruct (Z.eqb_spec (i2c_ret bus (length (i2c_log bus))) 0)
      as [E0 | E0]; cbn [negb andb].
    + exists 1%nat. cbn [fst snd repeat].
      replace (length (i2c_log bus) + 1 - 1)%nat
        with (length (i2c_log bus)) by lia.
      split; [lia |]. split; [reflexivity |]. split; [reflexivity |].
      split; [intros j Hj; lia | intros H; contradiction].
    + destruct (Z.ltb_spec 0 (Z.of_nat n)) as [Hn | Hn].
      * specialize (IH {| i2c_ret := i2c_ret bus;
                          i2c_data := i2c_data bus;
                          i2c_log := i2c_log bus ++ [msgs] |}).
        cbv zeta in IH. cbn [i2c_log i2c_ret i2c_data] in IH.
        rewrite length_app in IH. cbn [length] in IH.
        destruct IH as (m & Hm & Hlog & Hret & Hnz & Hlast).
        exists (S m). rewrite Hlog, Hret.
        split; [lia |]. split.
        { cbn [repeat]. rewrite <- app_assoc. reflexivity. }
        split.
        { f_equal. lia. }
        split.
        { intros j Hj. destruct j as [| j].
          - now rewrite Nat.add_0_r.
          - replace (length (i2c_log bus) + S j)%nat
              with (length (i2c_log bus) + 1 + j)%nat by lia.
            apply Hnz. lia. }
        intros H. rewrite Hret in Hlast. specialize (Hlast H). lia.
      * assert (n = 0%nat) by lia. subst n.
        exists 1%nat. cbn [fst snd repeat].
        replace (length (i2c_log bus) + 1 - 1)%nat
          with (length (i2c_log bus)) by lia.
        split; [lia |]. split; [reflexivity |]. split; [reflexivity |].
        split; [intros j Hj; lia | reflexivity].
Qed.

Lemma waitwritecomplete_spec (eedev : ee24xx_dev_s) (memaddr : Z) :
  let bus := ee_i2c eedev in
  let k := length (i2c_log bus) in
  let res := ee24xx_waitwritecomplete ecfg eedev memaddr in
  exists m : nat,
    (1 <= m <= 100)%nat
    /\ logged eedev (snd res) (repeat [ack_msg ecfg eedev memaddr] m)
    /\ fst res = i2c_ret bus (k + m - 1)%nat
    /\ (forall j, (j < m - 1)%nat -> i2c_ret bus (k + j)%nat <> 0)
    /\ (fst res <> 0 -> m = 100%nat).
Proof.
  cbv zeta. unfold ee24xx_waitwritecomplete.
  destruct (ack_poll_spec [ack_msg ecfg eedev memaddr] 100 (ee_i2c eedev))
    as (m & Hm & Hlog & Hret & Hnz & Hlast).
  destruct (ack_poll 100 (ee_i2c eedev) [ack_msg ecfg eedev memaddr])
    as [ret bus'] eqn:E.
  cbn [fst snd] in *. exists m. subst bus'.
  split; [lia |]. split; [reflexivity |]. split; [assumption |].
  split; [assumption |]. intros H. rewrite (Hlast H). reflexivity.
Qed.

(** X20: [ee24xx_waitwritecomplete] polls between one and a hundred
    times with the same one-byte read.  It stops at the first transfer
    that returns zero, every transfer before the last one returned
    something else, and the result is what the last transfer returned;
    a result other than zero means all hundred polls were made. *)
Theorem waitwritecomplete_polls (eedev : ee24xx_dev_s) (memaddr : Z) :
  let bus := ee_i2c eedev in
  let k := length (i2c_log bus) in
  let res := ee24xx_waitwritecomplete ecfg eedev memaddr in
  exists m : nat,
    (1 <= m <= 100)%nat
    /\ logged eedev (snd res) (repeat [ack_msg ecfg eedev memaddr] m)
    /\ fst res = i2c_ret bus (k + m - 1)%nat
    /\ (forall j, (j < m - 1)%nat -> i2c_ret bus (k + j)%nat <> 0)
    /\ (fst res <> 0 -> m = 100%nat).
Proof. apply waitwritecomplete_spec. Qed.

End Eeprom_transfer_properties.

Lemma read_within_device_witness :
  (fst (fst (ee24xx_read sample_ecfg (sample_file 500) 100)) = 12
   /\ f_pos (snd (ee24xx_read sample_ecfg (sample_file 500) 100)) = 512)
  /\ ee24xx_read sample_ecfg (sample_file 512) 8 = (0, [], sample_file 512).
Proof.
  split.
  - destruct (read_within_device sample_ecfg (sample_file 500) 100)
      as ((_ & H) & _); [cbn; lia | cbn; lia | lia | cbn; lia |].
    destruct H as (_ & _ & _ & _ & H); [cbn; lia |].
    apply H. cbn. lia.
  - destruct (read_within_device sample_ecfg (sample_file 512) 8)
      as ((H & _) & _); [cbn; lia | cbn; lia | lia | cbn; lia |].
    apply H. reflexivity.
Defined.

Lemma read_uuid_request_witness :
  (fst (fst (at24cs_read_uuid sample_ecfg (sample_file 10) 100)) < 0
   \/ fst (fst (at24cs_read_uuid sample_ecfg (sample_file 10) 100)) = 6
      /\ f_pos (snd (at24cs_read_uuid sample_ecfg (sample_file 10) 100)) = 16
      /\ f_pos (snd (at24cs_read_uuid sample_ecfg (sample_file 10) 100))
         <= UUID_SIZE)
  /\ at24cs_read_uuid sample_ecfg (sample_file 16) 4
     = (0, [], sample_file 16).
Proof.
  split.
  - destruct (read_uuid_request sample_ecfg (sample_file 10) 100)
      as ((_ & H) & _); [unfold UUID_SIZE; cbn; lia | lia | cbn; lia |].
    destruct H as (_ & H); [cbn; lia |]. exact H.
  - destruct (read_uuid_request sample_ecfg (sample_file 16) 4)
      as ((H & _) & _); [unfold UUID_SIZE; cbn; lia | lia | cbn; lia |].
    apply H. reflexivity.
Defined.

Section Eeprom_write_properties.

Variable ecfg : eeconfig.

Lemma logged_static (e e' : ee24xx_dev_s) l :
  logged e e' l ->
  ee_freq e' = ee_freq e /\ ee_addr e' = ee_addr e
  /\ ee_sem e' = ee_sem e /\ ee_refs e' = ee_refs e
  /\ ee_readonly e' = ee_readonly e /\ ee_size e' = ee_size e
  /\ ee_pgsize e' = ee_pgsize e /\ ee_addrlen e' = ee_addrlen e
  /\ ee_haddrbits e' = ee_haddrbits e
  /\ i2c_ret (ee_i2c e') = i2c_ret (ee_i2c e)
  /\ i2c_log (ee_i2c e') = i2c_log (ee_i2c e) ++ l.
Proof. intros ->. cbn. auto 12. Qed.

Lemma logged_msgs (e e' : ee24xx_dev_s) l :
  logged e e' l ->
  (forall pos buffer len,
     page_msgs ecfg e' pos buffer len = page_msgs ecfg e pos buffer len)
  /\ (forall pos, ack_msg ecfg e' pos = ack_msg ecfg e pos).
Proof. intros ->. split; reflexivity. Qed.

Lemma logged_step (e e' : ee24xx_dev_s) l (msgs : list i2c_msg_s) :
  logged e e' l ->
  logged e
    (with_i2c e' {| i2c_ret := i2c_ret (ee_i2c e');
                    i2c_data := i2c_data (ee_i2c e');
                    i2c_log := i2c_log (ee_i2c e') ++ [msgs] |})
    (l ++ [msgs]).
Proof.
  intros H. apply (logged_trans e e' _ l [msgs] H). reflexivity.
Qed.

(** One page, whatever the bus does: a failure leaves the position, a
    success advances position, buffer and length by [cnt]. *)
Lemma write_page_step_cases (filep : file) (buffer : list Z) (len cnt : Z) :
  match write_page_step ecfg filep buffer len cnt with
  | inl (ret, filep') =>
      ret < 0 /\ f_pos filep' = f_pos filep
      /\ exists l, logged (f_inode filep) (f_inode filep') l
  | inr (filep', buffer', len') =>
      f_pos filep' = f_pos filep + cnt
      /\ buffer' = skipn (Z.to_nat cnt) buffer /\ len' = len - cnt
      /\ exists l, logged (f_inode filep) (f_inode filep') l
  end.
Proof.
  unfold write_page_step, ee24xx_writepage, I2C_TRANSFER.
  set (e1 := with_i2c (f_inode filep) _).
  assert (H1 : logged (f_inode filep) e1 [page_msgs ecfg (f_inode filep)
                                            (f_pos filep) buffer cnt])
    by reflexivity.
  destruct (Z.ltb_spec
              (i2c_ret (ee_i2c (f_inode filep))
                 (length (i2c_log (ee_i2c (f_inode filep))))) 0) as [Hr | Hr].
  { cbn [with_inode f_pos f_inode]. split; [assumption |].
    split; [reflexivity |]. eexists; exact H1. }
  destruct (waitwritecomplete_spec ecfg e1 (f_pos filep))
    as (m & _ & Hlog & _).
  destruct (ee24xx_waitwritecomplete ecfg e1 (f_pos filep)) as [ret e2].
  cbn [snd] in Hlog.
  pose proof (logged_trans _ _ _ _ _ H1 Hlog) as H2.
  destruct (Z.ltb_spec ret 0) as [Hr2 | Hr2]; cbn [with_inode f_pos f_inode].
  - split; [assumption |]. split; [reflexivity |]. eexists; exact H2.
  - split; [reflexivity |]. split; [reflexivity |]. split; [reflexivity |].
    eexists; exact H2.
Qed.



End Eeprom_write_properties.

Section Eeprom_page_properties.

Variable ecfg : eeconfig.

Lemma firstn_add {A : Type} (a b : nat) (l : list A) :
  firstn (a + b) l = firstn a l ++ firstn b (skipn a l).
Proof.
  revert l. induction a as [| a IH]; intros [| x l]; cbn;
    try reflexivity.
  - now rewrite firstn_nil.
  - now rewrite IH.
Qed.

(** One page on a bus that answers every transfer with zero. *)
Lemma write_page_step_ok (filep : file) (buffer : list Z) (len cnt : Z) :
  (forall k, i2c_ret (ee_i2c (f_inode filep)) k = 0) ->
  write_page_step ecfg filep buffer len cnt
  = inr ({| f_pos := f_pos filep + cnt;
            f_inode :=
              with_i2c (f_inode filep)
                {| i2c_ret := i2c_ret (ee_i2c (f_inode filep));
                   i2c_data := i2c_data (ee_i2c (f_inode filep));
                   i2c_log := i2c_log (ee_i2c (f_inode filep))
                              ++ [page_msgs ecfg (f_inode filep)
                                    (f_pos filep) buffer cnt;
                                  [ack_msg ecfg (f_inode filep)
                                     (f_pos filep)]] |} |},
         skipn (Z.to_nat cnt) buffer, len - cnt).
Proof.
  intros Hbus. unfold write_page_step, ee24xx_writepage, I2C_TRANSFER.
  rewrite Hbus. cbn [Z.ltb Z.compare].
  unfold ee24xx_waitwritecomplete. change 100%nat with (S 99).
  rewrite ack_poll_S. cbn [with_i2c ee_i2c i2c_ret i2c_log i2c_data].
  rewrite Hbus. cbn [Z.eqb negb andb Z.ltb Z.compare].
  rewrite <- app_assoc. reflexivity.
Qed.

Lemma page_msgs_chunk (e : ee24xx_dev_s) (pos : Z) (buffer : list Z)
    (cnt : Z) :
  0 <= cnt <= Z.of_nat (length buffer) ->
  page_msgs ecfg e pos buffer cnt
  = page_msgs ecfg e pos (firstn (Z.to_nat cnt) buffer)
      (Z.of_nat (length (firstn (Z.to_nat cnt) buffer))).
Proof.
  intros Hc. unfold page_msgs.
  rewrite length_firstn, Nat.min_l by lia.
  rewrite Z2Nat.id by lia. rewrite firstn_firstn, Nat.min_id.
  reflexivity.
Qed.

Lemma write_aligned_run (e0 : ee24xx_dev_s) :
  (forall k, i2c_ret (ee_i2c e0) k = 0) ->
  0 < ee_pgsize e0 ->
  forall (fuel : nat) (filep : file) (buffer : list Z) (len : Z) l0,
  logged e0 (f_inode filep) l0 ->
  (0 < len -> f_pos filep mod ee_pgsize e0 = 0) ->
  0 <= len <= Z.of_nat (length buffer) ->
  len <= Z.of_nat fuel ->
  exists filep' l,
    write_aligned ecfg fuel filep buffer len = Some (inr filep')
    /\ f_pos filep' = f_pos filep + len
    /\ logged e0 (f_inode filep') (l0 ++ l)
    /\ page_run ecfg e0 (f_pos filep) (firstn (Z.to_nat len) buffer) l.
Proof.
  intros Hbus Hpg.
  induction fuel as [| fuel IH]; intros filep buffer len l0 Hl0 Hal Hlen Hfuel;
    cbn [write_aligned]; destruct (Z.ltb_spec 0 len) as [Hpos | Hpos];
    try lia.
  1, 3: exists filep, []; split; [reflexivity |]; split; [lia |];
        split; [now rewrite app_nil_r |];
        replace len with 0 by lia; cbn; constructor.
  destruct (logged_static _ _ _ Hl0)
    as (_ & _ & _ & _ & _ & _ & Epg & _ & _ & Eret & _).
  destruct (logged_msgs ecfg _ _ _ Hl0) as [Epm Eam].
  rewrite Epg.
  set (cnt := if len >? ee_pgsize e0 then ee_pgsize e0 else len).
  assert (Hcnt : 0 < cnt <= len /\ cnt <= ee_pgsize e0
                 /\ (cnt < len -> cnt = ee_pgsize e0)).
  { subst cnt. destruct (Z.gtb_spec len (ee_pgsize e0)); lia. }
  rewrite write_page_step_ok by (intros k; rewrite Eret; apply Hbus).
  rewrite Epm, Eam.
  set (filep1 := {| f_pos := f_pos filep + cnt; f_inode := _ |}).
  assert (Hl1 : logged e0 (f_inode filep1)
                  (l0 ++ [page_msgs ecfg e0 (f_pos filep) buffer cnt;
                          [ack_msg ecfg e0 (f_pos filep)]])).
  { eapply logged_trans; [exact Hl0 | reflexivity]. }
  destruct (IH filep1 (skipn (Z.to_nat cnt) buffer) (len - cnt) _ Hl1)
    as (filep' & l & Hrun & Hp & Hl & Hpr).
  { intros Hmore. subst filep1. cbn [f_pos].
    replace cnt with (ee_pgsize e0) by (symmetry; apply Hcnt; lia).
    rewrite <- (Z.mul_1_l (ee_pgsize e0)) at 1.
    rewrite Z.mod_add by lia. apply Hal. lia. }
  { rewrite length_skipn. lia. }
  { lia. }
  exists filep', ([page_msgs ecfg e0 (f_pos filep) buffer cnt;
                   [ack_msg ecfg e0 (f_pos filep)]] ++ l).
  split; [exact Hrun |]. split; [subst filep1; cbn [f_pos] in Hp; lia |].
  split; [now rewrite app_assoc |].
  replace (Z.to_nat len) with (Z.to_nat cnt + Z.to_nat (len - cnt))%nat
    by lia.
  rewrite firstn_add. cbn [app].
  rewrite page_msgs_chunk by lia.
  apply run_page.
  - intros E. apply (f_equal (@length Z)) in E.
    rewrite length_firstn in E. cbn [length] in E. lia.
  - rewrite length_firstn, Nat.min_l by lia. rewrite Z2Nat.id by lia.
    rewrite Hal by lia. lia.
  - rewrite length_firstn, Nat.min_l by lia. rewrite Z2Nat.id by lia.
    exact Hpr.
Qed.

Lemma page_run_static (e e' : ee24xx_dev_s) pos data l :
  ee_freq e' = ee_freq e -> ee_addr e' = ee_addr e ->
  ee_pgsize e' = ee_pgsize e -> ee_addrlen e' = ee_addrlen e ->
  ee_haddrbits e' = ee_haddrbits e ->
  page_run ecfg e pos data l -> page_run ecfg e' pos data l.
Proof.
  intros Hf Ha Hp Hl Hh Hrun.
  induction Hrun as [pos | pos chunk rest l Hne Hin Hrun IH].
  - constructor.
  - replace (page_msgs ecfg e pos chunk (Z.of_nat (length chunk)))
      with (page_msgs ecfg e' pos chunk (Z.of_nat (length chunk))).
    2: { unfold page_msgs, msg_devaddr, msg_maddr.
         now rewrite Hf, Ha, Hl, Hh. }
    replace (ack_msg ecfg e pos) with (ack_msg ecfg e' pos).
    2: { unfold ack_msg, msg_devaddr. now rewrite Hf, Ha, Hl, Hh. }
    constructor; [assumption | now rewrite Hp | assumption].
Qed.

(** X22: [ee24xx_write] never crosses a page.  On a bus that accepts
    every transfer, a write of [len] > 0 bytes at a position within the
    device returns the length clamped to the end of the device,
    advances the position by it, and what it puts on the bus is a run of
    page writes: each one with a chunk that is not empty and stays within
    one page of the device, each followed by one ACK poll at the same
    address, each starting where the one before ended, and together
    carrying exactly the clamped prefix of the buffer, in order. *)
Theorem write_page_run (fuel : nat) (filep : file) (buffer : list Z)
    (len : Z) :
  let e := f_inode filep in
  (exists k, 0 <= k /\ ee_pgsize e = 2 ^ k) ->
  ee_readonly e = false ->
  0 <= f_pos filep < ee_size e ->
  0 < len <= Z.of_nat (length buffer) ->
  len <= Z.of_nat fuel ->
  (forall k, i2c_ret (ee_i2c e) k = 0) ->
  let n := Z.min len (ee_size e - f_pos filep) in
  exists filep' l,
    ee24xx_write ecfg fuel filep buffer len = Some (n, filep')
    /\ f_pos filep' = f_pos filep + n
    /\ logged e (f_inode filep') l
    /\ page_run ecfg e (f_pos filep) (firstn (Z.to_nat n) buffer) l.
Proof.
  cbv zeta. intros Hpow Hro Hpos Hlen Hfuel Hbus. unfold ee24xx_write.
  rewrite Hro.
  destruct (Z.geb_spec (f_pos filep) (ee_size (f_inode filep))); [lia |].
  set (n := Z.min len (ee_size (f_inode filep) - f_pos filep)).
  assert (Hn : (if len + f_pos filep >? ee_size (f_inode filep)
                then ee_size (f_inode filep) - f_pos filep else len) = n).
  { subst n. destruct (Z.gtb_spec (len + f_pos filep)
                         (ee_size (f_inode filep))); lia. }
  rewrite Hn. assert (Hn0 : 0 < n <= len) by (subst n; lia).
  destruct (page_offset (f_pos filep) _ Hpow) as [Hoff Hpg].
  set (f0 := with_inode filep (ee24xx_semtake (f_inode filep))).
  change (f_pos f0) with (f_pos filep). rewrite Hoff.
  pose proof (Z.mod_pos_bound (f_pos filep) _ Hpg) as Hmod.
  set (pageoff := f_pos filep mod ee_pgsize (f_inode filep)) in *.
  set (cnt := if ee_pgsize (f_inode filep) - pageoff >? n then n
              else ee_pgsize (f_inode filep) - pageoff).
  assert (Hcnt : 0 < cnt <= n /\ pageoff + cnt <= ee_pgsize (f_inode filep)
                 /\ (cnt < n -> pageoff + cnt = ee_pgsize (f_inode filep))).
  { subst cnt. destruct (Z.gtb_spec (ee_pgsize (f_inode filep) - pageoff) n);
      lia. }
  set (e0 := f_inode f0).
  assert (Hbus0 : forall k, i2c_ret (ee_i2c e0) k = 0) by exact Hbus.
  assert (Hpg0 : 0 < ee_pgsize e0) by exact Hpg.
  assert (Hfin : forall filep' l,
            logged e0 (f_inode filep') l ->
            page_run ecfg e0 (f_pos filep) (firstn (Z.to_nat n) buffer) l ->
            f_pos filep' = f_pos filep + n ->
            exists filep'' l',
              Some (write_done n filep') = Some (n, filep'')
              /\ f_pos filep'' = f_pos filep + n
              /\ logged (f_inode filep) (f_inode filep'') l'
              /\ page_run ecfg (f_inode filep) (f_pos filep)
                   (firstn (Z.to_nat n) buffer) l').
  { intros filep' l Hl Hrun Hp.
    exists (snd (write_done n filep')), l. split; [reflexivity |].
    split; [exact Hp |]. split.
    - unfold write_done, with_inode. cbn [snd f_inode]. rewrite Hl.
      unfold logged. subst e0 f0. cbn [with_inode f_inode].
      rewrite give_logged_take. reflexivity.
    - apply (page_run_static e0); try reflexivity. exact Hrun. }
  destruct (Z.ltb_spec 0 pageoff) as [Hun | Hal].
  - rewrite write_page_step_ok by exact Hbus.
    set (filep1 := {| f_pos := f_pos f0 + cnt; f_inode := _ |}).
    assert (Hl1 : logged e0 (f_inode filep1)
                    [page_msgs ecfg e0 (f_pos filep) buffer cnt;
                     [ack_msg ecfg e0 (f_pos filep)]]) by reflexivity.
    destruct (write_aligned_run e0 Hbus0 Hpg0 fuel filep1
                (skipn (Z.to_nat cnt) buffer) (n - cnt) _
                (logged_trans _ _ _ _ _ (logged_nil e0) Hl1))
      as (filep' & l & Hrun & Hp & Hl & Hpr).
    { intros Hmore. subst filep1. cbn [f_pos].
      change (f_pos f0) with (f_pos filep). change (ee_pgsize e0)
        with (ee_pgsize (f_inode filep)).
      rewrite (Z.div_mod (f_pos filep) (ee_pgsize (f_inode filep)))
        by lia.
      fold pageoff.
      replace (ee_pgsize (f_inode filep)
               * (f_pos filep / ee_pgsize (f_inode filep)) + pageoff + cnt)
        with (0 + (f_pos filep / ee_pgsize (f_inode filep) + 1)
                  * ee_pgsize (f_inode filep)) by lia.
      rewrite Z.mod_add by lia. apply Z.mod_0_l. lia. }
    { rewrite length_skipn. lia. }
    { lia. }
    rewrite Hrun. cbn [app] in Hl.
    apply (Hfin filep' _ Hl).
    + replace (Z.to_nat n) with (Z.to_nat cnt + Z.to_nat (n - cnt))%nat
        by lia.
      rewrite firstn_add. rewrite page_msgs_chunk by lia.
      apply run_page.
      * intros E. apply (f_equal (@length Z)) in E.
        rewrite length_firstn in E. cbn [length] in E. lia.
      * rewrite length_firstn, Nat.min_l by lia. rewrite Z2Nat.id by lia.
        change (ee_pgsize e0) with (ee_pgsize (f_inode filep)).
        fold pageoff. lia.
      * rewrite length_firstn, Nat.min_l by lia. rewrite Z2Nat.id by lia.
        exact Hpr.
    + subst filep1. cbn [f_pos] in Hp. change (f_pos f0) with (f_pos filep)
        in Hp. lia.
  - destruct (write_aligned_run e0 Hbus0 Hpg0 fuel f0 buffer n []
                (logged_nil e0)) as (filep' & l & Hrun & Hp & Hl & Hpr).
    { intros _. change (f_pos f0) with (f_pos filep).
      change (ee_pgsize e0) with (ee_pgsize (f_inode filep)).
      fold pageoff. lia. }
    { lia. }
    { lia. }
    rewrite Hrun. apply (Hfin filep' _ Hl Hpr). exact Hp.
Qed.

End Eeprom_page_properties.

(** ** Addressing *)

(** X23: the address of a transfer can be read back.  On a device with a
    sound geometry whose I2C address leaves the high address bits free,
    the device address and the address bytes that the driver sends for a
    memory address within the device give that memory address back, so
    two addresses of the device never share a device address and address
    bytes; the address bytes are as many as the geometry says. *)
Theorem address_round_trip (e : ee24xx_dev_s) (memaddr : Z) :
  geometry_ok e ->
  Z.land (ee_addr e) (Z.shiftl 1 (ee_haddrbits e) - 1) = 0 ->
  0 <= memaddr < ee_size e ->
  msg_memaddr e (msg_devaddr e memaddr) (msg_maddr e memaddr) = memaddr
  /\ length (msg_maddr e memaddr) = Z.to_nat (ee_addrlen e).
Proof.
  intros (_ & _ & Hal & Hab & Hsz) Hfree Hm.
  unfold msg_memaddr, msg_devaddr, msg_maddr, be_value, to_u8.
  rewrite Z.land_lor_distr_l, Hfree, Z.lor_0_l, <- Z.land_assoc, Z.land_diag.
  rewrite Z.shiftl_1_l in *.
  replace (2 ^ ee_haddrbits e - 1) with (Z.ones (ee_haddrbits e))
    by (rewrite Z.ones_equiv; lia).
  rewrite Z.land_ones by lia.
  assert (Hpow : 2 ^ (8 * ee_addrlen e + ee_haddrbits e)
                 = 2 ^ (8 * ee_addrlen e) * 2 ^ ee_haddrbits e)
    by (apply Z.pow_add_r; lia).
  assert (Hab2 : 0 < 2 ^ ee_haddrbits e) by (apply Z.pow_pos_nonneg; lia).
  change 255 with (Z.ones 8). rewrite Z.land_ones by lia.
  change (2 ^ 8) with 256.
  destruct Hal as [Hal | Hal]; rewrite Hal in *; cbn [Z.eqb Pos.eqb].
  - change (Z.shiftl 1 3) with 8. change (8 * 1) with 8 in *.
    change (Z.to_nat 1) with 1%nat.
    rewrite !Z.shiftr_div_pow2, Z.shiftl_mul_pow2 by lia.
    change (2 ^ 8) with 256 in *.
    rewrite Z.mod_small
      by (split; [apply Z.div_pos; lia
                 | apply Z.div_lt_upper_bound; lia]).
    cbn [skipn firstn fold_left length].
    split; [| reflexivity].
    pose proof (Z.div_mod memaddr 256 ltac:(lia)). lia.
  - change (Z.shiftl 2 3) with 16. change (8 * 2) with 16 in *.
    change (Z.to_nat 2) with 2%nat.
    rewrite !Z.shiftr_div_pow2, Z.shiftl_mul_pow2 by lia.
    change (2 ^ 16) with 65536 in *. change (2 ^ 8) with 256.
    rewrite Z.mod_small
      by (split; [apply Z.div_pos; lia
                 | apply Z.div_lt_upper_bound; lia]).
    cbn [skipn firstn fold_left length].
    split; [| reflexivity].
    pose proof (Z.div_mod memaddr 256 ltac:(lia)).
    pose proof (Z.div_mod (memaddr / 256) 256 ltac:(lia)).
    replace (memaddr / 65536) with (memaddr / 256 / 256)
      by (rewrite Z.div_div by lia; reflexivity).
    lia.
Qed.


Lemma write_page_run_witness :
  exists filep' l,
    ee24xx_write sample_ecfg 40 (sample_file 10)
      (map Z.of_nat (seq 0 40)) 40 = Some (40, filep')
    /\ f_pos filep' = 50
    /\ logged sample_eedev (f_inode filep') l
    /\ page_run sample_ecfg sample_eedev 10 (map Z.of_nat (seq 0 40)) l.
Proof.
  apply (write_page_run sample_ecfg 40 (sample_file 10)
           (map Z.of_nat (seq 0 40)) 40).
  - exists 4. split; [lia | reflexivity].
  - reflexivity.
  - cbn. lia.
  - cbn [length]. rewrite length_map, length_seq. lia.
  - lia.
  - reflexivity.
Defined.

Lemma address_round_trip_witness :
  msg_memaddr sample_eedev (msg_devaddr sample_eedev 300)
    (msg_maddr sample_eedev 300) = 300.
Proof.
  apply (proj1 (address_round_trip sample_eedev 300
                  (geometry_okb_sound sample_eedev eq_refl)
                  eq_refl ltac:(cbn; lia))).
Defined.

Section Eeprom_edge_properties.

Variable ecfg : eeconfig.

Lemma write_page_step_first (filep : file) (buffer : list Z) (len cnt : Z) :
  exists l,
    match write_page_step ecfg filep buffer len cnt with
    | inl (_, filep') | inr (filep', _, _) =>
        logged (f_inode filep) (f_inode filep')
          (page_msgs ecfg (f_inode filep) (f_pos filep) buffer cnt :: l)
    end.
Proof.
  unfold write_page_step, ee24xx_writepage, I2C_TRANSFER.
  set (e1 := with_i2c (f_inode filep) _).
  assert (H1 : logged (f_inode filep) e1 [page_msgs ecfg (f_inode filep)
                                            (f_pos filep) buffer cnt])
    by reflexivity.
  destruct (i2c_ret (ee_i2c (f_inode filep))
              (length (i2c_log (ee_i2c (f_inode filep)))) <? 0).
  { exists []. exact H1. }
  destruct (waitwritecomplete_spec ecfg e1 (f_pos filep))
    as (m & _ & Hlog & _).
  destruct (ee24xx_waitwritecomplete ecfg e1 (f_pos filep)) as [ret e2].
  cbn [snd] in Hlog.
  pose proof (logged_trans _ _ _ _ _ H1 Hlog) as H2.
  exists (repeat [ack_msg ecfg e1 (f_pos filep)] m).
  destruct (ret <? 0); exact H2.
Qed.

(** X24: a write of no bytes.  On a writable device, at a position
    within it that is page-aligned, [ee24xx_write] of zero bytes returns
    0 and changes nothing; at a position that is not page-aligned the
    same call still puts a page write on the bus, with the address and
    no data, before it returns. *)
Theorem write_zero_length (fuel : nat) (filep : file) (buffer : list Z) :
  let e := f_inode filep in
  (exists k, 0 <= k /\ ee_pgsize e = 2 ^ k) ->
  ee_readonly e = false ->
  0 <= f_pos filep < ee_size e ->
  (f_pos filep mod ee_pgsize e = 0 ->
   ee24xx_write ecfg fuel filep buffer 0 = Some (0, filep))
  /\ (f_pos filep mod ee_pgsize e <> 0 ->
      exists ret filep' l,
        ee24xx_write ecfg fuel filep buffer 0 = Some (ret, filep')
        /\ logged e (f_inode filep')
             (page_msgs ecfg e (f_pos filep) [] 0 :: l)).
Proof.
  cbv zeta. intros Hpow Hro Hpos. unfold ee24xx_write. rewrite Hro.
  destruct (Z.geb_spec (f_pos filep) (ee_size (f_inode filep))); [lia |].
  destruct (Z.gtb_spec (0 + f_pos filep) (ee_size (f_inode filep)));
    [lia |].
  destruct (page_offset (f_pos filep) _ Hpow) as [Hoff Hpg].
  set (f0 := with_inode filep (ee24xx_semtake (f_inode filep))).
  change (f_pos f0) with (f_pos filep). rewrite Hoff.
  pose proof (Z.mod_pos_bound (f_pos filep) _ Hpg) as Hmod.
  set (pageoff := f_pos filep mod ee_pgsize (f_inode filep)) in *.
  assert (Hcnt : (if ee_pgsize (f_inode filep) - pageoff >? 0 then 0
                  else ee_pgsize (f_inode filep) - pageoff) = 0).
  { destruct (Z.gtb_spec (ee_pgsize (f_inode filep) - pageoff) 0); lia. }
  rewrite Hcnt. split.
  - intros E0. rewrite E0. cbn [Z.ltb Z.compare].
    destruct fuel; cbn [write_aligned Z.ltb Z.compare];
      unfold write_done, with_inode; subst f0; cbn [with_inode f_pos f_inode];
      rewrite with_sem_give_take; destruct filep; reflexivity.
  - intros Hne. destruct (Z.ltb_spec 0 pageoff) as [_ | ?]; [| lia].
    destruct (write_page_step_first f0 buffer 0 0) as (l & Hfirst).
    assert (Hdone : forall ret f' l',
              logged (f_inode f0) (f_inode f') l' ->
              logged (f_inode filep) (f_inode (snd (write_done ret f'))) l').
    { intros ret f' l' Hl. unfold write_done, with_inode.
      cbn [snd f_inode]. rewrite Hl. unfold logged. subst f0.
      cbn [with_inode f_inode]. rewrite give_logged_take. reflexivity. }
    pose proof (write_page_step_cases ecfg f0 buffer 0 0) as Hstep.
    change (page_msgs ecfg (f_inode f0) (f_pos f0) buffer 0)
      with (page_msgs ecfg (f_inode filep) (f_pos filep) [] 0) in Hfirst.
    destruct (write_page_step ecfg f0 buffer 0 0)
      as [[ret filep'] | [[filep' buffer'] len']].
    + exists ret, (snd (write_done ret filep')), l.
      split; [reflexivity |]. apply Hdone. exact Hfirst.
    + destruct Hstep as (_ & _ & -> & _).
      change (0 - 0) with 0.
      exists 0, (snd (write_done 0 filep')), l.
      split; [destruct fuel; reflexivity |]. apply Hdone. exact Hfirst.
Qed.

End Eeprom_edge_properties.

Lemma write_zero_length_witness :
  ee24xx_write sample_ecfg 0 (sample_file 32) [] 0
  = Some (0, sample_file 32).
Proof.
  destruct (write_zero_length sample_ecfg 0 (sample_file 32) [])
    as (H & _).
  - exists 4. split; [lia | reflexivity].
  - reflexivity.
  - cbn. lia.
  - apply H. reflexivity.
Defined.
